(** * MCP web automation: tool service, dispatcher, session boundary and
      scraping agent

    A shallow embedding of [src/errors.py], [src/browser.py],
    [src/mcp_server.py], [src/tools/] and [src/scraping_agent.py].

    Python values that travel through the program as JSON-like data are
    values of [json]; a Python [dict] is an association list in insertion
    order with unique keys, except the session table of the browser manager,
    which is only ever used as a map and is a [gmap].  Code that can raise is
    written in a small state-and-exception monad [M]; everything outside the
    repository (the rendering engine behind the tools, the completion
    service, the clock, the JSON codec, pydantic) is a parameter. *)

From Stdlib Require Import String Ascii List ZArith QArith Qround Qabs Lia Bool.
From Stdlib Require Import DecimalString.
From stdpp Require Import gmap strings.
Import ListNotations.
Open Scope string_scope.

(* ===================================================================== *)
(** * Values *)
(* ===================================================================== *)

(** JSON-like Python values.  [JFloat] carries an exact rational: the
    rounding error of binary64 arithmetic is not modelled. *)
#[local] Unset Elimination Schemes.
Inductive json : Type :=
| JNull
| JBool (b : bool)
| JInt (z : Z)
| JFloat (q : Q)
| JStr (s : string)
| JList (l : list json)
| JDict (d : list (string * json)).

#[local] Set Elimination Schemes.

Abbreviation dict := (list (string * json)).

Section JsonInd.
Variable P : json -> Prop.
Hypothesis HNull : P JNull.
Hypothesis HBool : forall b, P (JBool b).
Hypothesis HInt : forall z, P (JInt z).
Hypothesis HFloat : forall q, P (JFloat q).
Hypothesis HStr : forall s, P (JStr s).
Hypothesis HList : forall l, Forall P l -> P (JList l).
Hypothesis HDict : forall d, Forall (fun kv => P (snd kv)) d -> P (JDict d).

Fixpoint json_nested_ind (j : json) : P j :=
    match j with
    | JNull => HNull
    | JBool b => HBool b
    | JInt z => HInt z
    | JFloat q => HFloat q
    | JStr s => HStr s
    | JList l =>
        HList l ((fix go (l : list json) : Forall P l :=
                    match l with
                    | [] => @List.Forall_nil _ _
                    | x :: r => @List.Forall_cons _ _ x r (json_nested_ind x) (go r)
                    end) l)
    | JDict d =>
        HDict d ((fix go (d : dict) : Forall (fun kv => P (snd kv)) d :=
                    match d with
                    | [] => @List.Forall_nil _ _
                    | kv :: r => @List.Forall_cons _ _ kv r (json_nested_ind (snd kv)) (go r)
                    end) d)
    end.
End JsonInd.

(** [d.get(k)]: [None] when the key is absent. *)
Fixpoint dict_get (k : string) (d : dict) : option json :=
  match d with
  | [] => None
  | (k', v) :: r => if String.eqb k k' then Some v else dict_get k r
  end.

(** [k in d]. *)
Definition dict_mem (k : string) (d : dict) : bool :=
  match dict_get k d with Some _ => true | None => false end.

(** [d[k] = v]: an existing key keeps its position, a new key goes last. *)
Fixpoint dict_set (k : string) (v : json) (d : dict) : dict :=
  match d with
  | [] => [(k, v)]
  | (k', v') :: r =>
      if String.eqb k k' then (k, v) :: r else (k', v') :: dict_set k v r
  end.

(** [d.get(k, default)]. *)
Definition dict_get_default (k : string) (default : json) (d : dict) : json :=
  match dict_get k d with Some v => v | None => default end.

(** [d.get(k)] with Python's [None] for an absent key. *)
Definition py_get (k : string) (d : dict) : json := dict_get_default k JNull d.

(** Python truthiness of a value. *)
Definition truthy (j : json) : bool :=
  match j with
  | JNull => false
  | JBool b => b
  | JInt z => negb (z =? 0)%Z
  | JFloat q => negb (Qeq_bool q 0)
  | JStr s => negb (String.eqb s "")
  | JList l => match l with [] => false | _ => true end
  | JDict d => match d with [] => false | _ => true end
  end.

Definition string_of_nat (n : nat) : string :=
  NilZero.string_of_uint (Nat.to_uint n).

(* ===================================================================== *)
(** * [src/errors.py] *)
(* ===================================================================== *)

Inductive ErrorCode : Type :=
| INVALID_URL
| NAVIGATION_TIMEOUT
| NETWORK_ERROR
| ELEMENT_NOT_FOUND
| ELEMENT_NOT_VISIBLE
| ELEMENT_NOT_EDITABLE
| ELEMENT_NOT_CLICKABLE
| INTERNAL_ERROR.

(** [code.value] *)
Definition ErrorCode_value (c : ErrorCode) : string :=
  match c with
  | INVALID_URL => "INVALID_URL"
  | NAVIGATION_TIMEOUT => "NAVIGATION_TIMEOUT"
  | NETWORK_ERROR => "NETWORK_ERROR"
  | ELEMENT_NOT_FOUND => "ELEMENT_NOT_FOUND"
  | ELEMENT_NOT_VISIBLE => "ELEMENT_NOT_VISIBLE"
  | ELEMENT_NOT_EDITABLE => "ELEMENT_NOT_EDITABLE"
  | ELEMENT_NOT_CLICKABLE => "ELEMENT_NOT_CLICKABLE"
  | INTERNAL_ERROR => "INTERNAL_ERROR"
  end.

Definition all_error_codes : list ErrorCode :=
  [INVALID_URL; NAVIGATION_TIMEOUT; NETWORK_ERROR; ELEMENT_NOT_FOUND;
   ELEMENT_NOT_VISIBLE; ELEMENT_NOT_EDITABLE; ELEMENT_NOT_CLICKABLE;
   INTERNAL_ERROR].

(** [ErrorCode[name]]: [None] stands for the [KeyError]. *)
Definition ErrorCode_of_name (name : string) : option ErrorCode :=
  find (fun c => String.eqb name (ErrorCode_value c)) all_error_codes.

Definition ErrorCode_eqb (a b : ErrorCode) : bool :=
  String.eqb (ErrorCode_value a) (ErrorCode_value b).

(** The dataclass [ToolError(code, message, details=None)]. *)
Record ToolError : Type := mkToolError {
  te_code : ErrorCode;
  te_message : string;
  te_details : option dict
}.

(** [ToolError.to_payload]: [details] is added only when truthy. *)
Definition to_payload (e : ToolError) : dict :=
  [("code", JStr (ErrorCode_value (te_code e)));
   ("message", JStr (te_message e))]
  ++ match te_details e with
     | Some (kv :: r) => [("details", JDict (kv :: r))]
     | _ => []
     end.

(** [ToolError.__str__] *)
Definition ToolError_str (e : ToolError) : string :=
  ErrorCode_value (te_code e) ++ ": " ++ te_message e.

(** Exceptions below [Exception].  A pydantic [ValidationError] carries the
    value of [exc.errors()] and its rendering; every other exception is
    known by its [str(exc)]. *)
Inductive exn : Type :=
| ExToolError (e : ToolError)
| ExValidation (errors : json) (text : string)
| ExOther (text : string).

(** [str(exc)] *)
Definition exn_str (x : exn) : string :=
  match x with
  | ExToolError e => ToolError_str e
  | ExValidation _ text => text
  | ExOther text => text
  end.

(** [to_error_payload(exc)] *)
Definition to_error_payload (x : exn) : dict :=
  match x with
  | ExToolError e => to_payload e
  | _ =>
      [("code", JStr (ErrorCode_value INTERNAL_ERROR));
       ("message",
        JStr (if String.eqb (exn_str x) "" then "Internal error" else exn_str x))]
  end.

(* ===================================================================== *)
(** * [src/browser.py]: the session boundary *)
(* ===================================================================== *)

Module Browser.

(** Playwright objects are known by the handle the engine gave them. *)
Record StoredPage : Type := mkStoredPage {
  context : nat;
  page : nat
}.

(** The manager's mutable state: the session table, the engine's next
    free handle (every [new_context()] and [new_page()] yields a new
    object) and the number of random identifiers drawn so far. *)
Record BrowserManager : Type := mkManager {
  _sessions : gmap string StoredPage;
  next_handle : nat;
  draws : nat
}.

Definition init : BrowserManager :=
  {| _sessions := ∅; next_handle := 0; draws := 0 |}.

Section Session.
(** [uuid.uuid4().hex[:12]] at the n-th draw. *)
Variable uuid_hex12 : nat -> string.

(** The identifier [session] mints when given none. *)
Definition minted_id (m : BrowserManager) : string :=
  "sess_" ++ uuid_hex12 (draws m).

(** [session_id and session_id in self._sessions] *)
Definition known (session_id : option string) (m : BrowserManager)
  : option (string * StoredPage) :=
  match session_id with
  | Some sid =>
      if String.eqb sid "" then None
      else match _sessions m !! sid with
           | Some stored => Some (sid, stored)
           | None => None
           end
  | None => None
  end.

(** [BrowserManager.session] *)
Definition session (session_id : option string) (m : BrowserManager)
  : (string * nat) * BrowserManager :=
  match known session_id m with
  | Some (sid, stored) => ((sid, page stored), m)
  | None =>
      let context := next_handle m in
      let page := S (next_handle m) in
      match session_id with
      | Some (String a r) =>
          let sid := String a r in
          ((sid, page),
           {| _sessions := <[sid := mkStoredPage context page]> (_sessions m);
              next_handle := S (S (next_handle m));
              draws := draws m |})
      | _ =>
          let sid := minted_id m in
          ((sid, page),
           {| _sessions := <[sid := mkStoredPage context page]> (_sessions m);
              next_handle := S (S (next_handle m));
              draws := S (draws m) |})
      end
  end.

(** [session_id or f"sess_{...}"]: the identifier under which a session
    that is not known is stored. *)
Definition new_id (session_id : option string) (m : BrowserManager) : string :=
  match session_id with
  | Some (String a r) => String a r
  | _ => minted_id m
  end.

(** A run of successive [session] calls. *)
Fixpoint sessions_run (calls : list (option string)) (m : BrowserManager)
  : BrowserManager :=
  match calls with
  | [] => m
  | c :: r => sessions_run r (snd (session c m))
  end.

(** No call of the run that mints an identifier draws one that is
    already in the table. *)
Fixpoint no_collision (calls : list (option string)) (m : BrowserManager)
  : Prop :=
  match calls with
  | [] => True
  | c :: r =>
      (match c with
       | Some (String _ _) => True
       | _ => _sessions m !! minted_id m = None
       end)
      /\ no_collision r (snd (session c m))
  end.

(** Every stored object was handed out by the engine before. *)
Definition handles_allocated (m : BrowserManager) : Prop :=
  forall sid sp, _sessions m !! sid = Some sp ->
    context sp < next_handle m /\ page sp < next_handle m.

(** No two sessions share a page or a browser context. *)
Definition isolated (m : BrowserManager) : Prop :=
  forall k1 k2 sp1 sp2,
    k1 <> k2 ->
    _sessions m !! k1 = Some sp1 -> _sessions m !! k2 = Some sp2 ->
    page sp1 <> page sp2 /\ context sp1 <> context sp2
    /\ page sp1 <> context sp2.

End Session.

End Browser.

(* ===================================================================== *)
(** * Python string helpers *)
(* ===================================================================== *)

(** Strings are byte strings; [str.isspace] on the ASCII range. *)
Definition is_space (c : ascii) : bool :=
  let n := nat_of_ascii c in
  (Nat.leb 9 n && Nat.leb n 13) || (Nat.leb 28 n && Nat.leb n 32).

Fixpoint lstrip (s : string) : string :=
  match s with
  | String c r => if is_space c then lstrip r else s
  | EmptyString => EmptyString
  end.

(** Drops trailing whitespace: a character stays when it is not a space or
    something that stays follows it. *)
Fixpoint rstrip (s : string) : string :=
  match s with
  | String c r =>
      match rstrip r with
      | EmptyString => if is_space c then EmptyString else String c EmptyString
      | r' => String c r'
      end
  | EmptyString => EmptyString
  end.

(** [s.strip()] *)
Definition py_strip (s : string) : string := rstrip (lstrip s).

(** A line that is not blank once stripped. *)
Definition non_blank (raw : string) : bool :=
  negb (String.eqb (py_strip raw) "").

(** [s.startswith(p)] *)
Definition startswith (p s : string) : bool := String.prefix p s.

Definition string_rev (s : string) : string :=
  string_of_list_ascii (rev (list_ascii_of_string s)).

(** [s.endswith(p)] *)
Definition endswith (p s : string) : bool :=
  String.prefix (string_rev p) (string_rev s).

(** [p in s] for strings. *)
Fixpoint py_contains (p s : string) : bool :=
  String.prefix p s
  || match s with
     | String _ r => py_contains p r
     | EmptyString => false
     end.

(** [s.count(c)] for a one-character [c]. *)
Fixpoint count_char (c : ascii) (s : string) : nat :=
  match s with
  | String a r => (if Ascii.eqb a c then 1 else 0) + count_char c r
  | EmptyString => 0
  end.

(** [s.split(c)] for a one-character separator: never the empty list. *)
Fixpoint split_char (c : ascii) (s : string) : list string :=
  match s with
  | EmptyString => [EmptyString]
  | String a r =>
      if Ascii.eqb a c then EmptyString :: split_char c r
      else match split_char c r with
           | h :: t => String a h :: t
           | [] => [String a EmptyString]
           end
  end.

(** [sep.join(parts)] *)
Fixpoint join (sep : string) (parts : list string) : string :=
  match parts with
  | [] => EmptyString
  | [x] => x
  | x :: r => x ++ sep ++ join sep r
  end.

(** [s.find(c)]: the first index of the character, [None] for -1. *)
Fixpoint find_char (c : ascii) (s : string) : option nat :=
  match s with
  | EmptyString => None
  | String a r =>
      if Ascii.eqb a c then Some 0
      else match find_char c r with Some i => Some (S i) | None => None end
  end.

(** [s.rfind(c)]: the last index of the character, [None] for -1. *)
Fixpoint rfind_char (c : ascii) (s : string) : option nat :=
  match s with
  | EmptyString => None
  | String a r =>
      match rfind_char c r with
      | Some i => Some (S i)
      | None => if Ascii.eqb a c then Some 0 else None
      end
  end.

(** [s[i:j]] for [0 <= i], [0 <= j]. *)
Definition slice (i j : nat) (s : string) : string :=
  String.substring i (j - i) s.

(** [s[:n]] *)
Fixpoint str_prefix (n : N) (s : string) : string :=
  match s with
  | EmptyString => EmptyString
  | String c r => if N.eqb n 0 then EmptyString else String c (str_prefix (N.pred n) r)
  end.

(** [l[:n]] *)
Fixpoint list_prefix {A} (n : N) (l : list A) : list A :=
  match l with
  | [] => []
  | x :: r => if N.eqb n 0 then [] else x :: list_prefix (N.pred n) r
  end.

Definition newline : ascii := ascii_of_nat 10.
Definition backtick : ascii := ascii_of_nat 96.
Definition nl : string := String newline EmptyString.
Definition fence : string :=
  String backtick (String backtick (String backtick EmptyString)).

(* ===================================================================== *)
(** * State, trace and exceptions *)
(* ===================================================================== *)

Inductive LogLevel : Type := DEBUG | INFO | WARNING | ERROR.

(** The two prompts sent to the completion service; the fixed instruction
    text around the interpolated values is not spelled out. *)
Inductive LLMRequest : Type :=
| ExtractionPrompt (schema : dict) (html_snippet : json)
| PaginationPrompt (html_prefix : json).

(** What the program does to its surroundings, in order: log records (the
    message as written in the source, the interpolated or [extra] values
    beside it), entering a tool's [run], a completion request, a sleep in
    seconds. *)
Inductive Event : Type :=
| EvLog (level : LogLevel) (msg : string) (values : list json)
| EvRun (tool : string) (args : dict)
| EvChat (req : LLMRequest)
| EvSleep (seconds : Q).

(** The surroundings [W] (engine, clock, completion service) and the
    trace of events so far, oldest first. *)
Record state (W : Type) : Type := mkState {
  ext : W;
  trace : list Event
}.
Arguments mkState {W} _ _.
Arguments ext {W} _.
Arguments trace {W} _.

Inductive outcome (A : Type) : Type :=
| Ret (a : A)
| Raise (x : exn).
Arguments Ret {A} _.
Arguments Raise {A} _.

Definition M (W A : Type) : Type := state W -> outcome A * state W.

Definition ret {W A} (a : A) : M W A := fun s => (Ret a, s).

Definition raise {W A} (x : exn) : M W A := fun s => (Raise x, s).

Definition bind {W A B} (m : M W A) (k : A -> M W B) : M W B :=
  fun s => match m s with
           | (Ret a, s') => k a s'
           | (Raise x, s') => (Raise x, s')
           end.

(** Runs [m] and hands its outcome to the continuation: the body of a
    [try] whose [except] clauses then match on the exception. *)
Definition attempt {W A} (m : M W A) : M W (outcome A) :=
  fun s => let (o, s') := m s in (Ret o, s').

Definition emit {W} (ev : Event) : M W unit :=
  fun s => (Ret tt, mkState (ext s) (trace s ++ [ev])).

Definition log {W} (level : LogLevel) (msg : string) (values : list json)
  : M W unit := emit (EvLog level msg values).

(** A read of the surroundings (the clock). *)
Definition observe {W A} (f : W -> A) : M W A := fun s => (Ret (f (ext s)), s).

(** A call into the surroundings, which may raise and changes only [ext]. *)
Definition external {W A} (f : W -> outcome A * W) : M W A :=
  fun s => let (o, w) := f (ext s) in (o, mkState w (trace s)).

(** The final trace is the initial one followed by [new]. *)
Definition grows {W} (s s' : state W) (new : list Event) : Prop :=
  trace s' = (trace s ++ new)%list.

Declare Scope monad_scope.
Delimit Scope monad_scope with monad.
Notation "x <- m ;; k" := (bind m (fun x => k))
  (at level 100, m at next level, right associativity) : monad_scope.
Notation "m ;;; k" := (bind m (fun _ => k))
  (at level 100, right associativity) : monad_scope.
Open Scope monad_scope.

(* ===================================================================== *)
(** * [src/mcp_server.py] *)
(* ===================================================================== *)

Module Server.

(** [tools/base.py]: a tool's metadata and the callable that executes it.
    The callable belongs to the surroundings: it returns
    [(session_id, data)] or raises, and, like the six tools of the
    repository, leaves the mapping of its arguments as it found it. *)
Record ToolDefinition (W : Type) : Type := mkTool {
  name : string;
  description : string;
  schema : dict;
  run : dict -> W -> outcome (string * dict) * W
}.
Arguments mkTool {W} _ _ _ _.
Arguments name {W} _.
Arguments description {W} _.
Arguments schema {W} _.
Arguments run {W} _ _ _.

(** [MCPRequest] *)
Record MCPRequest : Type := mkRequest {
  req_id : json;
  method : string;
  params : dict
}.

(** [MCPResponse] *)
Record MCPResponse : Type := mkResponse {
  id : json;
  result : option dict;
  error : option dict
}.

Definition SERVER_INFO : dict :=
  [("name", JStr "mcp-web-automation");
   ("version", JStr "0.1.0");
   ("mcp_protocol", JStr "stdio")].

(** The payload [MCPResponse.to_json] serializes. *)
Definition response_payload (r : MCPResponse) : dict :=
  [("id", id r)]
  ++ match result r with Some v => [("result", JDict v)] | None => [] end
  ++ match error r with Some v => [("error", JDict v)] | None => [] end.

(** [int(x)]: truncation towards zero. *)
Definition Qtrunc (q : Q) : Z := Z.quot (Qnum q) (Zpos (Qden q)).

Section Service.
Variable W : Type.

(** The clock: [datetime.now(timezone.utc).isoformat()] and
    [time.perf_counter()]. *)
Variable now_iso : W -> string.
Variable perf_counter : W -> Q.

(** [self.tools]: the registry, in registration order. *)
Variable tools : list (string * ToolDefinition W).

(** pydantic and the JSON codec. *)
Variable model_validate_json : string -> outcome MCPRequest.
Variable validate_tool_call_params : dict -> outcome (string * dict).
Variable _dumps : dict -> string.

Definition _timestamp : M W string := observe now_iso.

Definition _duration_ms (start : Q) : M W Z :=
  now <- observe perf_counter ;;
  ret (Qtrunc ((now - start) * 1000)).

(** [self.tools[name]], [None] when [name not in self.tools]. *)
Fixpoint registry_get (name : string) (reg : list (string * ToolDefinition W))
  : option (ToolDefinition W) :=
  match reg with
  | [] => None
  | (k, t) :: r => if String.eqb name k then Some t else registry_get name r
  end.

Definition meta (ts : string) (duration : Z) : json :=
  JDict [("ts", JStr ts); ("duration_ms", JInt duration)].

(** [ToolService.descriptors] *)
Definition descriptors : list (string * json) :=
  map (fun kt : string * ToolDefinition W =>
         (fst kt,
          JDict [("name", JStr (name (snd kt)));
                 ("description", JStr (description (snd kt)));
                 ("input_schema", JDict (schema (snd kt)))]))
      tools.

(** [ToolService.call] *)
Definition call (name : string) (arguments : dict) : M W dict :=
  match registry_get name tools with
  | None =>
      ts <- _timestamp ;;
      ret [("ok", JBool false);
           ("tool", JStr name);
           ("error",
            JDict [("code", JStr (ErrorCode_value INTERNAL_ERROR));
                   ("message", JStr ("Unknown tool: " ++ name))]);
           ("meta", meta ts 0)]
  | Some tool =>
      let incoming_args := arguments in
      start <- observe perf_counter ;;
      r <- attempt (emit (EvRun name incoming_args) ;;;
                    external (run tool incoming_args)) ;;
      match r with
      | Raise (ExToolError exc) =>
          duration <- _duration_ms start ;;
          let error_payload := to_payload exc in
          log INFO "tool_failure"
              [JDict [("tool", JStr name);
                      ("session_id", py_get "session_id" incoming_args);
                      ("ok", JBool false);
                      ("error_code", JStr (ErrorCode_value (te_code exc)));
                      ("duration_ms", JInt duration)]] ;;;
          ts <- _timestamp ;;
          let failure :=
            [("ok", JBool false);
             ("tool", JStr name);
             ("error", JDict error_payload);
             ("meta", meta ts duration)] in
          if truthy (py_get "session_id" incoming_args)
          then ret (dict_set "session_id" (py_get "session_id" incoming_args)
                             failure)
          else ret failure
      | Raise exc =>
          duration <- _duration_ms start ;;
          log ERROR "tool_failure_unexpected" [JDict [("tool", JStr name)]] ;;;
          ts <- _timestamp ;;
          ret [("ok", JBool false);
               ("tool", JStr name);
               ("error", JDict (to_error_payload exc));
               ("meta", meta ts duration)]
      | Ret (session_id, data) =>
          duration <- _duration_ms start ;;
          log INFO "tool_success"
              [JDict [("tool", JStr name);
                      ("session_id", JStr session_id);
                      ("ok", JBool true);
                      ("duration_ms", JInt duration);
                      ("url", py_get "current_url" data)]] ;;;
          ts <- _timestamp ;;
          ret [("ok", JBool true);
               ("tool", JStr name);
               ("session_id", JStr session_id);
               ("data", JDict data);
               ("meta", meta ts duration)]
      end
  end.

(** [MCPServer.handle] *)
Definition handle (request : MCPRequest) : M W MCPResponse :=
  if String.eqb (method request) "initialize" then
    ret (mkResponse (req_id request)
           (Some (SERVER_INFO
                  ++ [("tools", JList (map (fun kv => JStr (fst kv)) descriptors))])%list)
           None)
  else if String.eqb (method request) "tools/list" then
    ret (mkResponse (req_id request)
           (Some [("tools", JList (map snd descriptors))])
           None)
  else if String.eqb (method request) "tools/call" then
    match validate_tool_call_params (params request) with
    | Raise x => raise x
    | Ret (name, arguments) =>
        result <- call name arguments ;;
        ret (mkResponse (req_id request) (Some result) None)
    end
  else
    ret (mkResponse (req_id request) None
           (Some [("code", JStr (ErrorCode_value INTERNAL_ERROR));
                  ("message", JStr ("Unknown method: " ++ method request))])).

(** [MCPResponse.to_json] *)
Definition to_json (r : MCPResponse) : string := _dumps (response_payload r).

(** [MCPServer._dispatch] *)
Definition _dispatch (payload : string) : M W string :=
  match model_validate_json payload with
  | Raise (ExValidation errors _) =>
      log ERROR "invalid_request" [JDict [("error", errors)]] ;;;
      ret (to_json
             (mkResponse JNull None
                (Some [("code", JStr (ErrorCode_value INTERNAL_ERROR));
                       ("message", JStr "Invalid request payload");
                       ("details", errors)])))
  | Raise x => raise x
  | Ret request =>
      r <- attempt (handle request) ;;
      match r with
      | Ret response => ret (to_json response)
      | Raise (ExValidation errors _) =>
          ret (to_json
                 (mkResponse (req_id request) None
                    (Some [("code", JStr (ErrorCode_value INTERNAL_ERROR));
                           ("message", JStr "Invalid parameters");
                           ("details", errors)])))
      | Raise exc =>
          log ERROR "request_failure" [] ;;;
          ret (to_json (mkResponse (req_id request) None
                          (Some (to_error_payload exc))))
      end
  end.

(** [MCPServer.serve_forever] over the lines of the input stream; the
    value is what was written to the output stream, one entry per
    [write]. *)
Fixpoint serve_forever (stdin : list string) : M W (list string) :=
  match stdin with
  | [] => ret []
  | raw_line :: rest =>
      let line := py_strip raw_line in
      if String.eqb line "" then serve_forever rest
      else
        response_line <- _dispatch line ;;
        written <- serve_forever rest ;;
        ret ((response_line ++ nl) :: written)
  end.

End Service.

End Server.

(* ===================================================================== *)
(** * [src/tools/]: the six tools *)
(* ===================================================================== *)

Module Tools.

(** What a call into Playwright does: it returns, or it raises its
    [TimeoutError], or another [Error]; the text is [str(exc)]. *)
Inductive pw (A : Type) : Type :=
| Done (a : A)
| PlaywrightTimeoutError (text : string)
| PlaywrightError (text : string).
Arguments Done {A} _.
Arguments PlaywrightTimeoutError {A} _.
Arguments PlaywrightError {A} _.

(** The calls the tools make on a page.  A selector stands for
    [page.locator(selector).first], an index for
    [page.locator("a").nth(idx)]. *)
Inductive Call : Type :=
| Goto (page : nat) (url : string)
| Title (page : nat)
| Content (page : nat)
| Count (page : nat) (selector : string)
| ScrollIntoViewIfNeeded (page : nat) (selector : string)
| WaitForVisible (page : nat) (selector : string)
| IsEnabled (page : nat) (selector : string)
| IsEditable (page : nat) (selector : string)
| Click (page : nat) (selector : string)
| Fill (page : nat) (selector value : string)
| Screenshot (page : nat) (full_page : bool)
| GetAttributeHref (page : nat) (idx : nat)
| InnerText (page : nat) (idx : nat).

(** What a call answered, as a value. *)
Definition reply {A} (show : A -> json) (r : pw A) : pw json :=
  match r with
  | Done a => Done (show a)
  | PlaywrightTimeoutError text => PlaywrightTimeoutError text
  | PlaywrightError text => PlaywrightError text
  end.

(** The surroundings of the tools: the shared [BrowserManager], the
    engine behind the pages, and the calls made on pages so far with
    their answers, oldest first. *)
Record World (E : Type) : Type := mkWorld {
  manager : Browser.BrowserManager;
  engine : E;
  calls : list (Call * pw json)
}.
Arguments mkWorld {E} _ _ _.
Arguments manager {E} _.
Arguments engine {E} _.
Arguments calls {E} _.

(** A validated instance of an input model: the field of [SessionInput]
    and the fields the model adds. *)
Record Input (A : Type) : Type := mkInput {
  session_id : option string;
  fields : A
}.
Arguments mkInput {A} _ _.
Arguments session_id {A} _.
Arguments fields {A} _.

(** A pydantic model, as far as the tools use it: [model_validate], where
    [inl] is the [ValidationError] with its [exc.errors()], and
    [model_json_schema]. *)
Record Model (A : Type) : Type := mkModel {
  model_validate : dict -> json + Input A;
  model_json_schema : dict
}.
Arguments mkModel {A} _ _.
Arguments model_validate {A} _ _.
Arguments model_json_schema {A} _.

Declare Scope tool_scope.
Delimit Scope tool_scope with tool.

Section Engine.
Variable E : Type.

(** [uuid.uuid4().hex[:12]] at the n-th draw. *)
Variable uuid_hex12 : nat -> string.

(** The input models of the six tools. *)
Variable NavigateInput : Model string.
Variable ScreenshotInput : Model string.
Variable ExtractLinksInput : Model (option string).
Variable FillInput : Model (string * string).
Variable ClickInput : Model string.
Variable GetHtmlInput : Model unit.

(** Playwright.  [goto] gives [response.status], [None] when there is no
    response; [url] is the property [page.url]. *)
Variable goto : nat -> string -> E -> pw (option Z) * E.
Variable url : nat -> E -> string.
Variable title : nat -> E -> pw string * E.
Variable content : nat -> E -> pw string * E.
Variable count : nat -> string -> E -> pw nat * E.
Variable scroll_into_view_if_needed : nat -> string -> E -> pw unit * E.
Variable wait_for : nat -> string -> E -> pw unit * E.
Variable is_enabled : nat -> string -> E -> pw bool * E.
Variable is_editable : nat -> string -> E -> pw bool * E.
Variable click : nat -> string -> E -> pw unit * E.
Variable fill : nat -> string -> string -> E -> pw unit * E.
Variable screenshot : nat -> bool -> E -> pw string * E.
Variable get_attribute : nat -> nat -> E -> pw (option string) * E.
Variable inner_text : nat -> nat -> E -> pw string * E.

(** The standard library: [urlparse(u).scheme], [urlparse(u).netloc],
    [urljoin], [str.lower] and [base64.b64encode(b).decode("ascii")]. *)
Variable urlparse_scheme : string -> string.
Variable urlparse_netloc : string -> string.
Variable urljoin : string -> string -> string.
Variable lower : string -> string.
Variable b64encode : string -> string.

(** A computation of a tool: it returns or raises, and changes the
    surroundings. *)
Definition T (A : Type) : Type := World E -> outcome A * World E.

Definition returns {A} (a : A) : T A := fun w => (Ret a, w).

Definition raises {A} (x : exn) : T A := fun w => (Raise x, w).

Definition and_then {A B} (m : T A) (k : A -> T B) : T B :=
  fun w => match m w with
           | (Ret a, w') => k a w'
           | (Raise x, w') => (Raise x, w')
           end.

Notation "x <- m ;; k" := (and_then m (fun x => k))
  (at level 100, m at next level, right associativity) : tool_scope.
Notation "m ;;; k" := (and_then m (fun _ => k))
  (at level 100, right associativity) : tool_scope.
Open Scope tool_scope.

(** One call on a page: the engine answers and the call is recorded. *)
Definition perform {A} (c : Call) (f : E -> pw A * E) (show : A -> json)
  : T (pw A) :=
  fun w => let (r, e) := f (engine w) in
           (Ret r, mkWorld (manager w) e (calls w ++ [(c, reply show r)])).

(** A call outside any [try]: its exception leaves the tool. *)
Definition uncaught {A} (m : T (pw A)) : T A :=
  r <- m ;;
  match r with
  | Done a => returns a
  | PlaywrightTimeoutError text => raises (ExOther text)
  | PlaywrightError text => raises (ExOther text)
  end.

Definition tool_error {A} (code : ErrorCode) (message : string) : T A :=
  raises (ExToolError (mkToolError code message None)).

(** [tools/base.py]: [validate] *)
Definition validate {A} (model : Model A) (raw : dict) : T (Input A) :=
  match model_validate model raw with
  | inr data => returns data
  | inl errors =>
      raises (ExToolError
                (mkToolError INTERNAL_ERROR
                   "Invalid arguments supplied to tool."
                   (Some [("validation_errors", errors)])))
  end.

(** [manager.session(session_id)] on the shared manager. *)
Definition manager_session (sid : option string) : T (string * nat) :=
  fun w => let (r, m) := Browser.session uuid_hex12 sid (manager w) in
           (Ret r, mkWorld m (engine w) (calls w)).

(** [tools/base.py]: [with_session] *)
Definition with_session {A} (raw : dict) (input_model : Model A)
  : T (string * Input A * nat) :=
  data <- validate input_model raw ;;
  sp <- manager_session (session_id data) ;;
  returns (fst sp, data, snd sp).

(** [tools/navigate.py]: [runner] *)
Definition navigate_runner (raw : dict) : T (string * dict) :=
  sdp <- with_session raw NavigateInput ;;
  let page := snd sdp in
  let data := snd (fst sdp) in
  let scheme := urlparse_scheme (fields data) in
  if negb (String.eqb scheme "http" || String.eqb scheme "https") then
    tool_error INVALID_URL
      ("Only http(s) URLs are supported (got " ++ scheme ++ ").")
  else
    r <- perform (Goto page (fields data)) (goto page (fields data))
           (fun status => match status with
                          | Some z => JInt z
                          | None => JNull
                          end) ;;
    match r with
    | PlaywrightTimeoutError _ =>
        tool_error NAVIGATION_TIMEOUT
          ("Navigation to " ++ fields data ++ " timed out.")
    | PlaywrightError text =>
        tool_error NETWORK_ERROR
          ("Navigation failed for " ++ fields data ++ ": " ++ text)
    | Done status =>
        current_url <- (fun w => (Ret (url page (engine w)), w)) ;;
        page_title <- uncaught (perform (Title page) (title page) JStr) ;;
        returns (fst (fst sdp),
                 [("current_url", JStr current_url);
                  ("status", match status with
                             | Some z => JInt z
                             | None => JNull
                             end);
                  ("title", JStr page_title)])
    end.

(** [tools/screenshot.py]: [runner] *)
Definition screenshot_runner (raw : dict) : T (string * dict) :=
  sdp <- with_session raw ScreenshotInput ;;
  let page := snd sdp in
  let data := snd (fst sdp) in
  r <- perform (Screenshot page (String.eqb (fields data) "fullpage"))
         (screenshot page (String.eqb (fields data) "fullpage")) JStr ;;
  match r with
  | PlaywrightTimeoutError text | PlaywrightError text =>
      tool_error INTERNAL_ERROR ("Screenshot failed: " ++ text)
  | Done image_bytes =>
      let image_b64 := b64encode image_bytes in
      current_url <- (fun w => (Ret (url page (engine w)), w)) ;;
      returns (fst (fst sdp),
               [("current_url", JStr current_url);
                ("mode", JStr (fields data));
                ("image_b64", JStr image_b64)])
  end.

(** The loop of the [extract_links] runner over the indices of the
    anchors, [links] being the list built so far. *)
Fixpoint extract_links_loop (page : nat) (current_url current_host : string)
  (filter_contains : option string) (indices : list nat) (links : list json)
  : T (list json) :=
  match indices with
  | [] => returns links
  | idx :: rest =>
      attribute <- uncaught (perform (GetAttributeHref page idx)
                               (get_attribute page idx)
                               (fun a => match a with
                                         | Some h => JStr h
                                         | None => JNull
                                         end)) ;;
      let href := py_strip (match attribute with
                            | Some h => h
                            | None => ""
                            end) in
      if String.eqb href "" then
        extract_links_loop page current_url current_host filter_contains
          rest links
      else
        let absolute := urljoin current_url href in
        text <- uncaught (perform (InnerText page idx) (inner_text page idx)
                            JStr) ;;
        let label := py_strip text in
        let netloc := urlparse_netloc absolute in
        let is_external :=
          negb (String.eqb netloc "") && negb (String.eqb netloc current_host) in
        let candidate :=
          JDict [("text", JStr label); ("url", JStr absolute);
                 ("is_external", JBool is_external)] in
        let keep :=
          match filter_contains with
          | Some (String a r) =>
              py_contains (lower (String a r))
                (lower (label ++ " " ++ absolute))
          | _ => true
          end in
        extract_links_loop page current_url current_host filter_contains rest
          (if keep then links ++ [candidate] else links)%list
  end.

(** A link as the loop builds it from an anchor with a non-blank [href],
    kept under the filter when there is one. *)
Definition link_kept (current_url : string) (filter_contains : option string)
  (link : json) : Prop :=
  exists label href is_external,
    link = JDict [("text", JStr label);
                  ("url", JStr (urljoin current_url href));
                  ("is_external", JBool is_external)]
    /\ href <> ""
    /\ match filter_contains with
       | Some (String a r) =>
           py_contains (lower (String a r))
             (lower (label ++ " " ++ urljoin current_url href)) = true
       | _ => True
       end.

(** [tools/extract_links.py]: [runner] *)
Definition extract_links_runner (raw : dict) : T (string * dict) :=
  sdp <- with_session raw ExtractLinksInput ;;
  let page := snd sdp in
  let data := snd (fst sdp) in
  current_url <- (fun w => (Ret (url page (engine w)), w)) ;;
  let current_host := urlparse_netloc current_url in
  n <- uncaught (perform (Count page "a") (count page "a")
                   (fun n => JInt (Z.of_nat n))) ;;
  links <- extract_links_loop page current_url current_host (fields data)
             (seq 0 n) [] ;;
  returns (fst (fst sdp), [("links", JList links)]).

(** [tools/fill.py]: [runner] *)
Definition fill_runner (raw : dict) : T (string * dict) :=
  sdp <- with_session raw FillInput ;;
  let page := snd sdp in
  let selector := fst (fields (snd (fst sdp))) in
  let value := snd (fields (snd (fst sdp))) in
  n <- uncaught (perform (Count page selector) (count page selector)
                   (fun n => JInt (Z.of_nat n))) ;;
  if Nat.eqb n 0 then
    tool_error ELEMENT_NOT_FOUND
      ("No element matches selector '" ++ selector ++ "'.")
  else
    r <- perform (WaitForVisible page selector) (wait_for page selector)
           (fun _ => JNull) ;;
    match r with
    | PlaywrightTimeoutError _ =>
        tool_error ELEMENT_NOT_VISIBLE
          ("Element '" ++ selector ++ "' never became visible.")
    | PlaywrightError text => raises (ExOther text)
    | Done _ =>
        editable <- uncaught (perform (IsEditable page selector)
                                (is_editable page selector) JBool) ;;
        if negb editable then
          tool_error ELEMENT_NOT_EDITABLE
            ("Element '" ++ selector ++ "' is not editable.")
        else
          r <- perform (Fill page selector value) (fill page selector value)
                 (fun _ => JNull) ;;
          match r with
          | PlaywrightTimeoutError text | PlaywrightError text =>
              tool_error INTERNAL_ERROR
                ("Filling '" ++ selector ++ "' failed: " ++ text)
          | Done _ => returns (fst (fst sdp), [("filled", JBool true)])
          end
    end.

(** [tools/click.py]: [runner] *)
Definition click_runner (raw : dict) : T (string * dict) :=
  sdp <- with_session raw ClickInput ;;
  let page := snd sdp in
  let selector := fields (snd (fst sdp)) in
  n <- uncaught (perform (Count page selector) (count page selector)
                   (fun n => JInt (Z.of_nat n))) ;;
  if Nat.eqb n 0 then
    tool_error ELEMENT_NOT_FOUND
      ("No element matches selector '" ++ selector ++ "'.")
  else
    perform (ScrollIntoViewIfNeeded page selector)
      (scroll_into_view_if_needed page selector) (fun _ => JNull) ;;;
    r <- perform (WaitForVisible page selector) (wait_for page selector)
           (fun _ => JNull) ;;
    match r with
    | PlaywrightTimeoutError _ =>
        tool_error ELEMENT_NOT_VISIBLE
          ("Element '" ++ selector ++ "' never became visible.")
    | PlaywrightError text => raises (ExOther text)
    | Done _ =>
        enabled <- uncaught (perform (IsEnabled page selector)
                               (is_enabled page selector) JBool) ;;
        if negb enabled then
          tool_error ELEMENT_NOT_CLICKABLE
            ("Element '" ++ selector ++ "' is disabled.")
        else
          r <- perform (Click page selector) (click page selector)
                 (fun _ => JNull) ;;
          match r with
          | PlaywrightTimeoutError _ =>
              tool_error ELEMENT_NOT_CLICKABLE
                ("Element '" ++ selector ++ "' was not clickable.")
          | PlaywrightError text =>
              tool_error INTERNAL_ERROR
                ("Clicking '" ++ selector ++ "' failed: " ++ text)
          | Done _ => returns (fst (fst sdp), [("clicked", JBool true)])
          end
    end.

(** [tools/get_html.py]: [runner] *)
Definition get_html_runner (raw : dict) : T (string * dict) :=
  sdp <- with_session raw GetHtmlInput ;;
  html <- uncaught (perform (Content (snd sdp)) (content (snd sdp)) JStr) ;;
  returns (fst (fst sdp), [("html", JStr html)]).

Definition build_navigate : Server.ToolDefinition (World E) :=
  Server.mkTool "navigate" "Navigate the page to the provided URL."
    (model_json_schema NavigateInput) navigate_runner.

Definition build_screenshot : Server.ToolDefinition (World E) :=
  Server.mkTool "screenshot" "Capture a PNG screenshot of the current page."
    (model_json_schema ScreenshotInput) screenshot_runner.

Definition build_extract_links : Server.ToolDefinition (World E) :=
  Server.mkTool "extract_links"
    "Return anchors on the page with text, URL, and external flag."
    (model_json_schema ExtractLinksInput) extract_links_runner.

Definition build_fill : Server.ToolDefinition (World E) :=
  Server.mkTool "fill" "Fill a text input or textarea using a CSS selector."
    (model_json_schema FillInput) fill_runner.

Definition build_click : Server.ToolDefinition (World E) :=
  Server.mkTool "click"
    "Click a visible, enabled element identified by CSS selector."
    (model_json_schema ClickInput) click_runner.

Definition build_get_html : Server.ToolDefinition (World E) :=
  Server.mkTool "get_html"
    "Return the HTML content after scripts have executed."
    (model_json_schema GetHtmlInput) get_html_runner.

(** [tools/__init__.py]: [build_tools].  The six names differ, so the
    mapping keyed by name has the six tools in the order of the
    builders. *)
Definition build_tools : list (string * Server.ToolDefinition (World E)) :=
  map (fun tool => (Server.name tool, tool))
    [build_navigate; build_screenshot; build_extract_links; build_fill;
     build_click; build_get_html].

(** The validation errors of the arguments for the input model of the
    tool of that name, when it rejects them. *)
Definition rejected (name : string) (raw : dict) : option json :=
  let errors_of {A} (model : Model A) :=
    match model_validate model raw with
    | inl errors => Some errors
    | inr _ => None
    end in
  if String.eqb name "navigate" then errors_of NavigateInput
  else if String.eqb name "screenshot" then errors_of ScreenshotInput
  else if String.eqb name "extract_links" then errors_of ExtractLinksInput
  else if String.eqb name "fill" then errors_of FillInput
  else if String.eqb name "click" then errors_of ClickInput
  else if String.eqb name "get_html" then errors_of GetHtmlInput
  else None.

Close Scope tool_scope.

End Engine.

End Tools.

(* ===================================================================== *)
(** * [src/scraping_agent.py] *)
(* ===================================================================== *)

Module Agent.

(** [ScrapingConfig], after [__post_init__]. *)
Record ScrapingConfig : Type := mkConfig {
  url : string;
  schema : dict;
  interactions : list dict;
  options : dict
}.

(** [ExtractionResult] *)
Record ExtractionResult : Type := mkResult {
  status : string;
  data : dict;
  quality_report : dict;
  error : option string
}.

(** [type(v).__name__] *)
Definition type_name (j : json) : string :=
  match j with
  | JNull => "NoneType"
  | JBool _ => "bool"
  | JInt _ => "int"
  | JFloat _ => "float"
  | JStr _ => "str"
  | JList _ => "list"
  | JDict _ => "dict"
  end.

(** Python's rounding of an exact value to the nearest integer, ties to
    the even one. *)
Definition round_half_even (q : Q) : Z :=
  let n := Qnum q in
  let d := Zpos (Qden q) in
  let f := (n / d)%Z in
  match (2 * (n mod d) ?= d)%Z with
  | Lt => f
  | Gt => (f + 1)%Z
  | Eq => if Z.even f then f else (f + 1)%Z
  end.

(** [round(x, 3)] *)
Definition py_round3 (q : Q) : Q := round_half_even (q * 1000) # 1000.

(** [a / b] on non-negative integers with [b] positive. *)
Definition true_div (a b : nat) : Q := Z.of_nat a # Pos.of_nat b.

(** [page_count < max_pages] for an integer on the left: [None] is the
    [TypeError] of an unordered pair of types. *)
Definition py_int_lt (a : Z) (b : json) : option bool :=
  match b with
  | JInt z => Some (a <? z)%Z
  | JBool t => Some (a <? (if t then 1 else 0))%Z
  | JFloat q => Some (negb (Qle_bool q (inject_Z a)))
  | _ => None
  end.

(** [missing_fields[field_path] = missing_fields.get(field_path, 0) + 1] *)
Fixpoint bump (field_path : string) (missing_fields : list (string * nat))
  : list (string * nat) :=
  match missing_fields with
  | [] => [(field_path, 1)]
  | (k, n) :: r =>
      if String.eqb field_path k then (k, S n) :: r
      else (k, n) :: bump field_path r
  end.

(** [f"{prefix}.{key}" if prefix else key] *)
Definition field_path_of (prefix key : string) : string :=
  if String.eqb prefix "" then key else prefix ++ "." ++ key.

(** [value is None or value == ""] *)
Definition is_missing (value : json) : bool :=
  match value with
  | JNull => true
  | JStr s => String.eqb s ""
  | _ => false
  end.

(** The inner function [check_nested] of [_check_item_completeness]; the
    pair is the enclosing [is_complete] and the [missing_fields] mapping
    it updates. *)
Fixpoint check_nested (obj : json) (prefix : string)
  (st : bool * list (string * nat)) : bool * list (string * nat) :=
  match obj with
  | JDict d =>
      (fix items (d : dict) (st : bool * list (string * nat)) :=
         match d with
         | [] => st
         | (key, value) :: r =>
             let field_path := field_path_of prefix key in
             items r
               (if is_missing value then (false, bump field_path (snd st))
                else match value with
                     | JDict _ | JList _ => check_nested value field_path st
                     | _ => st
                     end)
         end) d st
  | JList l =>
      (fix elements (l : list json) (st : bool * list (string * nat)) :=
         match l with
         | [] => st
         | item :: r => elements r (check_nested item prefix st)
         end) l st
  | _ => st
  end.

(** [_check_item_completeness]: the verdict and the updated mapping. *)
Definition _check_item_completeness (item : json)
  (missing_fields : list (string * nat)) : bool * list (string * nat) :=
  check_nested item "" (true, missing_fields).

(** The first value of the mapping that is a list, [[]] when none is. *)
Fixpoint first_list_value (d : dict) : list json :=
  match d with
  | [] => []
  | (_, JList l) :: _ => l
  | _ :: r => first_list_value r
  end.

(** The loop of [_generate_quality_report] over the items. *)
Fixpoint analyze_items (items : list json) (complete_items : nat)
  (missing_fields : list (string * nat)) : nat * list (string * nat) :=
  match items with
  | [] => (complete_items, missing_fields)
  | item :: r =>
      let (is_complete, missing_fields) :=
        _check_item_completeness item missing_fields in
      analyze_items r (if is_complete then S complete_items else complete_items)
        missing_fields
  end.

(** [f"{field}: {count} items"] *)
Definition render_missing (fc : string * nat) : string :=
  fst fc ++ ": " ++ string_of_nat (snd fc) ++ " items".

(** [_generate_quality_report] *)
Definition _generate_quality_report (structured_data : dict) (schema : dict)
  : dict :=
  let items := first_list_value structured_data in
  let total_items := length items in
  if Nat.eqb total_items 0 then
    [("total_items", JInt 0);
     ("complete_items", JInt 0);
     ("completion_rate", JFloat 0);
     ("missing_fields", JList []);
     ("errors", JList [])]
  else
    let (complete_items, missing_fields) := analyze_items items 0 [] in
    let completion_rate := true_div complete_items total_items in
    let missing_fields_list := map render_missing missing_fields in
    [("total_items", JInt (Z.of_nat total_items));
     ("complete_items", JInt (Z.of_nat complete_items));
     ("completion_rate", JFloat (py_round3 completion_rate));
     ("missing_fields", JList (map JStr missing_fields_list));
     ("errors", JList [])].

(** The search of [_structure_data] for the array field. *)
Fixpoint find_array_field (schema : dict) : option string :=
  match schema with
  | [] => None
  | (key, JList (_ :: _)) :: _ => Some key
  | _ :: r => find_array_field r
  end.

(** [_structure_data], given [datetime.utcnow().isoformat()]. *)
Definition structure_data_at (utcnow : string) (extracted_items : list json)
  (schema : dict) : dict :=
  let result :=
    match find_array_field schema with
    | Some (String a r) => [(String a r, JList extracted_items)]
    | _ => [("items", JList extracted_items)]
    end in
  if dict_mem "metadata" schema then
    dict_set "metadata"
      (JDict [("date_extraction", JStr (utcnow ++ "Z"));
              ("nb_resultats", JInt (Z.of_nat (length extracted_items)))])
      result
  else result.

(** The clean-up of the completion service's answer in
    [_navigate_to_next_page], from [.strip()] to the last [.strip()]. *)
Definition clean_selector (content : string) : string :=
  let selector := py_strip content in
  let selector :=
    if startswith fence selector then
      let lines := split_char newline selector in
      let lines :=
        match lines with
        | first :: rest => if startswith fence first then rest else lines
        | [] => lines
        end in
      let lines :=
        match rev lines with
        | last :: before =>
            if String.eqb (py_strip last) fence then rev before else lines
        | [] => lines
        end in
      py_strip (join nl lines)
    else selector in
  if startswith (String backtick EmptyString) selector
     && endswith (String backtick EmptyString) selector
     && Nat.eqb (count_char backtick selector) 2
  then py_strip (slice 1 (String.length selector - 1) selector)
  else selector.

(** [all_extracted_data.extend(page_data)]: [None] is the [TypeError] of a
    value that is not iterable. *)
Definition py_extend (acc : list json) (page_data : json)
  : option (list json) :=
  match page_data with
  | JList l => Some (acc ++ l)%list
  | JDict d => Some (acc ++ map (fun kv => JStr (fst kv)) d)%list
  | JStr s =>
      Some (acc ++ map (fun c => JStr (String c EmptyString))
                       (list_ascii_of_string s))%list
  | _ => None
  end.

(** The value of a parsed completion in [_parse_llm_response]. *)
Definition items_of_parsed (parsed : json) : json :=
  match parsed with
  | JDict d =>
      match dict_get "items" d with
      | Some v => v
      | None =>
          match find (fun kv => match snd kv with JList _ => true | _ => false end) d with
          | Some kv => snd kv
          | None => JList [parsed]
          end
      end
  | JList l => JList l
  | _ => JList []
  end.

(** [obj[key]] for a string key. *)
Definition subscript (key : string) (obj : json) : outcome json :=
  match obj with
  | JDict d =>
      match dict_get key d with
      | Some v => Ret v
      | None => Raise (ExOther ("'" ++ key ++ "'"))
      end
  | JList _ => Raise (ExOther "list indices must be integers or slices, not str")
  | JStr _ => Raise (ExOther "string indices must be integers, not 'str'")
  | _ => Raise (ExOther ("'" ++ type_name obj ++ "' object is not subscriptable"))
  end.

(** [html_content[:50000] if len(html_content) > 50000 else html_content] *)
Definition html_snippet_of (html_content : json) : outcome json :=
  match html_content with
  | JStr s => Ret (JStr (str_prefix 50000 s))
  | JList l => Ret (JList (list_prefix 50000 l))
  | JDict d =>
      if N.ltb 50000 (N.of_nat (length d))
      then Raise (ExOther "unhashable type: 'slice'")
      else Ret (JDict d)
  | _ => Raise (ExOther ("object of type '" ++ type_name html_content
                         ++ "' has no len()"))
  end.

(** [html_content[:30000]] *)
Definition html_prefix_of (html_content : json) : outcome json :=
  match html_content with
  | JStr s => Ret (JStr (str_prefix 30000 s))
  | JList l => Ret (JList (list_prefix 30000 l))
  | JDict _ => Raise (ExOther "unhashable type: 'slice'")
  | _ => Raise (ExOther ("'" ++ type_name html_content
                         ++ "' object is not subscriptable"))
  end.

(** [duration_ms / 1000.0]: [None] is the [TypeError]. *)
Definition seconds_of (duration_ms : json) : option Q :=
  match duration_ms with
  | JInt z => Some (inject_Z z / 1000)%Q
  | JBool b => Some ((if b then 1 else 0) / 1000)%Q
  | JFloat q => Some (q / 1000)%Q
  | _ => None
  end.

(** [isinstance(value, list) and len(value) > 0] *)
Definition is_nonempty_list (value : json) : bool :=
  match value with JList (_ :: _) => true | _ => false end.

(** [isinstance(value, list)] *)
Definition is_list (value : json) : bool :=
  match value with JList _ => true | _ => false end.

(** The specification's array field, in its words: "the first schema key
    whose declared shape is a list". *)
Definition spec_array_field (schema : dict) : option string :=
  option_map fst (find (fun kv => is_list (snd kv)) schema).

(** The field paths a walk of [obj] finds missing, in the order of the
    walk, every occurrence listed. *)
Fixpoint missing_paths (obj : json) (prefix : string) : list string :=
  match obj with
  | JDict d =>
      (fix items (d : dict) : list string :=
         match d with
         | [] => []
         | (key, value) :: r =>
             ((if is_missing value then [field_path_of prefix key]
              else match value with
                   | JDict _ | JList _ =>
                       missing_paths value (field_path_of prefix key)
                   | _ => []
                   end) ++ items r)%list
         end) d
  | JList l =>
      (fix elements (l : list json) : list string :=
         match l with
         | [] => []
         | item :: r => (missing_paths item prefix ++ elements r)%list
         end) l
  | _ => []
  end.

(** The count a mapping of missing fields holds for a path. *)
Fixpoint count_of (field_path : string) (missing_fields : list (string * nat))
  : nat :=
  match missing_fields with
  | [] => 0
  | (k, n) :: r =>
      if String.eqb field_path k then n else count_of field_path r
  end.

(** How often a path occurs in a list of paths. *)
Definition occurrences (field_path : string) (paths : list string) : nat :=
  length (List.filter (String.eqb field_path) paths).

(** [bump] for every path of a list, in order. *)
Definition bump_all (paths : list string) (missing_fields : list (string * nat))
  : list (string * nat) :=
  fold_left (fun m p => bump p m) paths missing_fields.

(** The distinct paths of a list, in the order of their first occurrence,
    after those already seen. *)
Definition first_seen (seen paths : list string) : list string :=
  fold_left
    (fun seen p => if existsb (String.eqb p) seen then seen else seen ++ [p])%list
    paths seen.

(** An item in which the walk finds nothing missing. *)
Definition item_complete (item : json) : bool :=
  match missing_paths item "" with [] => true | _ => false end.

(** An item as a flat JSON object: a mapping with distinct keys, none of
    whose values is a mapping or a list. *)
Definition flat_item (item : json) : Prop :=
  match item with
  | JDict d =>
      List.NoDup (map fst d)
      /\ Forall (fun kv : string * json =>
                   match snd kv with
                   | JDict _ | JList _ => False
                   | _ => True
                   end) d
  | _ => False
  end.

(** The item is a mapping that has the field, with [None] or the empty
    string as its value. *)
Definition field_missing (field : string) (item : json) : bool :=
  match item with
  | JDict d =>
      match dict_get field d with
      | Some value => is_missing value
      | None => false
      end
  | _ => false
  end.

(** The paths found missing in a list of items, item after item. *)
Definition all_missing_paths (items : list json) : list string :=
  concat (map (fun item => missing_paths item "") items).

(** The number of further iterations the condition
    [page_count < max_pages] admits when one is added to [page_count] each
    time. *)
Definition remaining (max_pages : json) (page_count : Z) : nat :=
  match max_pages with
  | JInt z => Z.to_nat (z - page_count)
  | JBool b => Z.to_nat ((if b then 1 else 0) - page_count)
  | JFloat q => Z.to_nat (Qceiling q - page_count)
  | _ => 0
  end.

(** The iterations the loop of [scrape] can make, starting from 0. *)
Definition loop_budget (max_pages : json) : nat := remaining max_pages 0.

(** The log record that opens an iteration of the loop. *)
Definition is_iteration (ev : Event) : bool :=
  match ev with
  | EvLog INFO msg _ => String.eqb msg "Extracting data from page {page_count}"
  | _ => false
  end.

(** A read of the page's HTML through the tool service. *)
Definition is_html_read (ev : Event) : bool :=
  match ev with
  | EvRun tool _ => String.eqb tool "get_html"
  | _ => false
  end.

(** An extraction request to the completion service. *)
Definition is_extraction (ev : Event) : bool :=
  match ev with
  | EvChat (ExtractionPrompt _ _) => true
  | _ => false
  end.

(** A click through the tool service. *)
Definition is_click (ev : Event) : bool :=
  match ev with
  | EvRun tool _ => String.eqb tool "click"
  | _ => false
  end.

(** A pagination request to the completion service. *)
Definition is_pagination_probe (ev : Event) : bool :=
  match ev with
  | EvChat (PaginationPrompt _) => true
  | _ => false
  end.

Definition count_events (f : Event -> bool) (tr : list Event) : nat :=
  length (List.filter f tr).

(** The events of a list that the page budget counts: iterations of the
    loop, reads of the HTML and extraction requests. *)
Definition footprint (new : list Event) (iterations reads passes : nat)
  : Prop :=
  count_events is_iteration new = iterations
  /\ count_events is_html_read new = reads
  /\ count_events is_extraction new = passes.

(** What the agent sees of a tool that raised: always a [ToolError], with
    the code and message of the envelope and no details. *)
Definition seen_error (x : exn) : ToolError :=
  match x with
  | ExToolError e => mkToolError (te_code e) (te_message e) None
  | _ =>
      mkToolError INTERNAL_ERROR
        (if String.eqb (exn_str x) "" then "Internal error" else exn_str x)
        None
  end.

(** The result [scrape] returns from its [except] clause. *)
Definition error_result (e : exn) : ExtractionResult :=
  mkResult "error" [] [] (Some (exn_str e)).

Section Scraper.
Variable W : Type.

(** The tool service the agent was constructed with. *)
Variable now_iso : W -> string.
Variable perf_counter : W -> Q.
Variable tools : list (string * Server.ToolDefinition W).

(** The completion service: [client.chat.completions.create(...)] followed
    by [.choices[0].message.content]. *)
Variable chat : LLMRequest -> W -> outcome string * W.

(** [json.loads]: [None] is the [JSONDecodeError]. *)
Variable json_loads : string -> option json.

(** [datetime.utcnow().isoformat()] and the passing of time in
    [time.sleep]. *)
Variable utcnow_iso : W -> string.
Variable sleep : Q -> W -> W.

(** [time.sleep(seconds)] *)
Definition py_sleep (seconds : Q) : M W unit :=
  if Qle_bool 0 seconds then
    emit (EvSleep seconds) ;;;
    external (fun w => (Ret tt, sleep seconds w))
  else raise (ExOther "sleep length must be non-negative").

(** [_call_tool].  [ToolService.call] only produces envelopes whose error
    code and message are strings; on the other values, which the source
    would store in the [ToolError] as they are, the code is
    [INTERNAL_ERROR] and the message empty. *)
Definition _call_tool (tool_name : string) (arguments : dict)
  : M W (json * json) :=
  result <- Server.call W now_iso perf_counter tools tool_name arguments ;;
  if negb (truthy (py_get "ok" result)) then
    match dict_get_default "error" (JDict []) result with
    | JDict error =>
        let error_code :=
          match dict_get_default "code" (JStr "INTERNAL_ERROR") error with
          | JStr c =>
              match ErrorCode_of_name c with
              | Some code => code
              | None => INTERNAL_ERROR
              end
          | _ => INTERNAL_ERROR
          end in
        let message :=
          match dict_get_default "message" (JStr "Tool call failed") error with
          | JStr m => m
          | _ => ""
          end in
        raise (ExToolError (mkToolError error_code message None))
    | other =>
        raise (ExOther ("'" ++ type_name other
                        ++ "' object has no attribute 'get'"))
    end
  else
    ret (py_get "session_id" result,
         dict_get_default "data" (JDict []) result).

(** [_navigate] *)
Definition _navigate (url : string) : M W (json * json) :=
  r <- _call_tool "navigate" [("url", JStr url)] ;;
  log INFO "Navigated to {url}, session: {session_id}" [JStr url; fst r] ;;;
  ret r.

Definition json_is_str (expected : string) (j : json) : bool :=
  match j with JStr s => String.eqb s expected | _ => false end.

(** [_execute_interactions]; [session_id] is [self.session_id]. *)
Fixpoint _execute_interactions (session_id : json) (interactions : list dict)
  : M W unit :=
  match interactions with
  | [] => ret tt
  | interaction :: rest =>
      let interaction_type := py_get "type" interaction in
      (if json_is_str "click" interaction_type then
         let selector := py_get "selector" interaction in
         r <- attempt (_call_tool "click"
                         [("session_id", session_id); ("selector", selector)]) ;;
         match r with
         | Ret _ => log INFO "Clicked element: {selector}" [selector]
         | Raise (ExToolError e) =>
             log WARNING "Click failed for {selector}: {e}"
                 [selector; JStr (ToolError_str e)]
         | Raise x => raise x
         end
       else if json_is_str "wait" interaction_type then
         let duration_ms := dict_get_default "duration" (JInt 1000) interaction in
         match seconds_of duration_ms with
         | Some seconds =>
             py_sleep seconds ;;;
             log INFO "Waited {duration_ms}ms" [duration_ms]
         | None =>
             raise (ExOther ("unsupported operand type(s) for /: '"
                             ++ type_name duration_ms ++ "' and 'float'"))
         end
       else if json_is_str "scroll" interaction_type then
         let direction := dict_get_default "direction" (JStr "bottom") interaction in
         log WARNING "Scroll not implemented, skipping: {direction}" [direction]
       else if json_is_str "fill" interaction_type then
         let selector := py_get "selector" interaction in
         let value := py_get "value" interaction in
         r <- attempt (_call_tool "fill"
                         [("session_id", session_id); ("selector", selector);
                          ("value", value)]) ;;
         match r with
         | Ret _ => log INFO "Filled {selector} with value" [selector]
         | Raise (ExToolError e) =>
             log WARNING "Fill failed for {selector}: {e}"
                 [selector; JStr (ToolError_str e)]
         | Raise x => raise x
         end
       else ret tt) ;;;
      _execute_interactions session_id rest
  end.

(** An interaction that is not a [wait] whose duration is not a number or
    is negative: the only interactions whose execution raises. *)
Definition wait_ok (interaction : dict) : bool :=
  if json_is_str "wait" (py_get "type" interaction) then
    match seconds_of (dict_get_default "duration" (JInt 1000) interaction) with
    | Some seconds => Qle_bool 0 seconds
    | None => false
    end
  else true.

(** [_parse_llm_response] *)
Definition _parse_llm_response (response_text : string) : M W json :=
  match find_char "{" response_text, rfind_char "}" response_text with
  | Some start_idx, Some end_idx =>
      let json_str := slice start_idx (S end_idx) response_text in
      match json_loads json_str with
      | Some parsed => ret (items_of_parsed parsed)
      | None =>
          log ERROR "Failed to parse LLM response as JSON: {e}" [] ;;;
          log DEBUG "Response text: {response_text}" [JStr response_text] ;;;
          ret (JList [])
      end
  | _, _ =>
      log WARNING "No JSON found in LLM response" [] ;;;
      ret (JList [])
  end.

(** [_extract_with_llm] *)
Definition _extract_with_llm (html_content : json) (schema : dict)
  : M W json :=
  match html_snippet_of html_content with
  | Raise x => raise x
  | Ret html_snippet =>
      let prompt := ExtractionPrompt schema html_snippet in
      emit (EvChat prompt) ;;;
      response_text <- external (chat prompt) ;;
      _parse_llm_response response_text
  end.

(** [e.code in (ELEMENT_NOT_VISIBLE, ELEMENT_NOT_CLICKABLE)] *)
Definition last_page_code (c : ErrorCode) : bool :=
  match c with
  | ELEMENT_NOT_VISIBLE | ELEMENT_NOT_CLICKABLE => true
  | _ => false
  end.

(** [_navigate_to_next_page] *)
Definition _navigate_to_next_page (session_id : json) (html_content : json)
  : M W bool :=
  match html_prefix_of html_content with
  | Raise x => raise x
  | Ret html_prefix =>
      let prompt := PaginationPrompt html_prefix in
      emit (EvChat prompt) ;;;
      content <- external (chat prompt) ;;
      let selector := clean_selector content in
      if String.eqb selector "NO_PAGINATION" || String.eqb selector "" then
        ret false
      else
        log INFO "Attempting pagination with selector: {selector}"
            [JStr selector] ;;;
        r <- attempt (_call_tool "click"
                        [("session_id", session_id);
                         ("selector", JStr selector)]) ;;
        match r with
        | Ret _ =>
            log INFO "Navigated to next page using selector: {selector}"
                [JStr selector] ;;;
            py_sleep 2 ;;;
            ret true
        | Raise (ExToolError e) =>
            if last_page_code (te_code e) then
              log INFO "Pagination element not accessible ({e.code.value}) - likely on last page"
                  [JStr (ErrorCode_value (te_code e))] ;;;
              ret false
            else
              log WARNING "Failed to navigate to next page: {e}"
                  [JStr (ToolError_str e)] ;;;
              ret false
        | Raise x => raise x
        end
  end.

(** [_structure_data] *)
Definition _structure_data (extracted_items : list json) (schema : dict)
  : M W dict :=
  utcnow <- observe utcnow_iso ;;
  ret (structure_data_at utcnow extracted_items schema).

Definition lt_type_error (max_pages : json) : exn :=
  ExOther ("'<' not supported between instances of 'int' and '"
           ++ type_name max_pages ++ "'").

(** One pass over the page the browser shows: the statements of the loop
    body from [get_html] to [all_extracted_data.extend(page_data)].  The
    value is the page's HTML and the items accumulated so far. *)
Definition extract_page (session_id : json) (schema : dict)
  (all_extracted_data : list json) : M W (json * list json) :=
  r <- _call_tool "get_html" [("session_id", session_id)] ;;
  match subscript "html" (snd r) with
  | Raise x => raise x
  | Ret html_content =>
      page_data <- _extract_with_llm html_content schema ;;
      match (if truthy page_data
             then py_extend all_extracted_data page_data
             else Some all_extracted_data) with
      | None =>
          raise (ExOther ("'" ++ type_name page_data
                          ++ "' object is not iterable"))
      | Some all_extracted_data => ret (html_content, all_extracted_data)
      end
  end.

(** The body of the loop, [page_count] already incremented.  The boolean
    tells whether the loop goes on ([true]) or is left by [break]. *)
Definition extraction_step (session_id : json) (schema : dict)
  (max_pages pagination_enabled : json) (page_count : Z)
  (all_extracted_data : list json) : M W (list json * bool) :=
  log INFO "Extracting data from page {page_count}" [JInt page_count] ;;;
  p <- extract_page session_id schema all_extracted_data ;;
  let html_content := fst p in
  let all_extracted_data := snd p in
  if truthy pagination_enabled
     && match py_int_lt page_count max_pages with
        | Some b => b
        | None => false
        end
  then
    has_next <- _navigate_to_next_page session_id html_content ;;
    if negb has_next then
      log INFO "No more pages to scrape" [] ;;;
      ret (all_extracted_data, false)
    else ret (all_extracted_data, true)
  else ret (all_extracted_data, false).

(** The [while page_count < max_pages] loop of [scrape].  [fuel] bounds
    the number of iterations the model follows; [None] reports that it ran
    out with the loop condition still true. *)
Fixpoint extraction_loop (fuel : nat) (session_id : json) (schema : dict)
  (max_pages pagination_enabled : json) (page_count : Z)
  (all_extracted_data : list json) : M W (option (list json)) :=
  match py_int_lt page_count max_pages with
  | None => raise (lt_type_error max_pages)
  | Some false => ret (Some all_extracted_data)
  | Some true =>
      match fuel with
      | O => ret None
      | S fuel' =>
          let page_count := (page_count + 1)%Z in
          r <- extraction_step session_id schema max_pages pagination_enabled
                 page_count all_extracted_data ;;
          if snd r then
            extraction_loop fuel' session_id schema max_pages
              pagination_enabled page_count (fst r)
          else ret (Some (fst r))
      end
  end.

(** Steps 1 and 2 of [scrape]: the navigation and the preliminary
    interactions.  The value is [self.session_id]. *)
Definition scrape_prelude (config : ScrapingConfig) : M W json :=
  log INFO "Starting scraping job for {config.url}" [JStr (url config)] ;;;
  nav <- _navigate (url config) ;;
  let session_id := fst nav in
  (match interactions config with
   | [] => ret tt
   | _ => _execute_interactions session_id (interactions config)
   end) ;;;
  ret session_id.

(** Steps 4 and 5 of [scrape] and the result it returns. *)
Definition scrape_finish (config : ScrapingConfig)
  (all_extracted_data : list json) : M W ExtractionResult :=
  structured_data <- _structure_data all_extracted_data (schema config) ;;
  let quality_report :=
    _generate_quality_report structured_data (schema config) in
  ret (mkResult "success" structured_data quality_report None).

(** The [try] block of [scrape]. *)
Definition scrape_body (fuel : nat) (config : ScrapingConfig)
  : M W (option ExtractionResult) :=
  session_id <- scrape_prelude config ;;
  let max_pages := dict_get_default "max_pages" (JInt 1) (options config) in
  let pagination_enabled :=
    dict_get_default "pagination" (JBool false) (options config) in
  r <- extraction_loop fuel session_id (schema config) max_pages
         pagination_enabled 0 [] ;;
  match r with
  | None => ret None
  | Some all_extracted_data =>
      result <- scrape_finish config all_extracted_data ;;
      ret (Some result)
  end.

(** [scrape] with the loop followed for at most [fuel] iterations. *)
Definition scrape_fuel (fuel : nat) (config : ScrapingConfig)
  : M W (option ExtractionResult) :=
  r <- attempt (scrape_body fuel config) ;;
  match r with
  | Ret v => ret v
  | Raise e =>
      log ERROR "Scraping job failed: {str(e)}" [JStr (exn_str e)] ;;;
      ret (Some (error_result e))
  end.

(** [ScrapingAgent.scrape] *)
Definition scrape (config : ScrapingConfig) : M W (option ExtractionResult) :=
  scrape_fuel
    (loop_budget (dict_get_default "max_pages" (JInt 1) (options config)))
    config.

(** The state after the [except] clause of [scrape] has logged [x]. *)
Definition failed (x : exn) (s : state W) : state W :=
  mkState (ext s)
    (trace s ++ [EvLog ERROR "Scraping job failed: {str(e)}" [JStr (exn_str x)]]).

(** The result of a job whose loop ended with [items] in state [s]. *)
Definition success_result (config : ScrapingConfig) (items : list json)
  (s : state W) : ExtractionResult :=
  mkResult "success"
    (structure_data_at (utcnow_iso (ext s)) items (schema config))
    (_generate_quality_report
       (structure_data_at (utcnow_iso (ext s)) items (schema config))
       (schema config))
    None.

End Scraper.

End Agent.


(* ===================================================================== *)
(** * Scenarios: concrete surroundings on which the definitions run *)
(* ===================================================================== *)

Module Scenario.

(** A source of identifiers that never repeats. *)
Definition uuid (n : nat) : string := "c0ffee00000" ++ string_of_nat n.

(** Surroundings: a clock and the number of the page the browser shows. *)
Record world : Type := mkWorld {
  ticks : nat;
  page_no : nat
}.

Definition tick (w : world) : world := mkWorld (S (ticks w)) (page_no w).

Definition now_iso (w : world) : string :=
  "2025-06-01T12:00:0" ++ string_of_nat (ticks w) ++ "+00:00".

(** A quarter of a second passes with every call into the surroundings. *)
Definition perf_counter (w : world) : Q := Z.of_nat (ticks w) # 4.

Definition session_of (args : dict) : string :=
  match dict_get "session_id" args with
  | Some (JStr (String a r)) => String a r
  | _ => "sess_c0ffee000000"
  end.

Definition run_navigate (args : dict) (w : world)
  : outcome (string * dict) * world :=
  match dict_get "url" args with
  | Some (JStr u) =>
      if String.prefix "http" u then
        (Ret (session_of args,
              [("current_url", JStr u); ("status", JInt 200);
               ("title", JStr "Catalogue")]),
         mkWorld (S (ticks w)) 1)
      else (Raise (ExToolError
                     (mkToolError INVALID_URL
                        "Only http(s) URLs are supported (got ftp)." None)),
            tick w)
  | _ => (Raise (ExToolError
                   (mkToolError INTERNAL_ERROR
                      "Invalid arguments supplied to tool."
                      (Some [("validation_errors", JList [JStr "url"])]))),
          tick w)
  end.

(** The catalogue has three pages; [a.next] leads to the next one, a
    disabled [a.last] cannot be clicked, nothing else exists. *)
Definition run_click (args : dict) (w : world)
  : outcome (string * dict) * world :=
  match dict_get "selector" args with
  | Some (JStr "a.next") =>
      (Ret (session_of args, [("clicked", JBool true)]),
       mkWorld (S (ticks w)) (S (page_no w)))
  | Some (JStr "a.last") =>
      (Raise (ExToolError
                (mkToolError ELEMENT_NOT_CLICKABLE
                   "Element 'a.last' is disabled." None)),
       tick w)
  | _ =>
      (Raise (ExToolError
                (mkToolError ELEMENT_NOT_FOUND
                   "No element matches selector." None)),
       tick w)
  end.

Definition run_get_html (args : dict) (w : world)
  : outcome (string * dict) * world :=
  (Ret (session_of args,
        [("html", JStr ("<html>page " ++ string_of_nat (page_no w) ++ "</html>"))]),
   tick w).

(** A tool whose engine fails with an exception that has no message. *)
Definition run_screenshot (args : dict) (w : world)
  : outcome (string * dict) * world :=
  (Raise (ExOther ""), tick w).

Definition registry : list (string * Server.ToolDefinition world) :=
  [("navigate",
    Server.mkTool "navigate" "Navigate the page to the provided URL." []
      run_navigate);
   ("screenshot",
    Server.mkTool "screenshot" "Capture the page." [] run_screenshot);
   ("click",
    Server.mkTool "click"
      "Click a visible, enabled element identified by CSS selector." []
      run_click);
   ("get_html",
    Server.mkTool "get_html"
      "Return the HTML content after scripts have executed." [] run_get_html)].

(** A page read that fails once the browser shows the second page. *)
Definition run_get_html_flaky (args : dict) (w : world)
  : outcome (string * dict) * world :=
  match page_no w with
  | 2 => (Raise (ExToolError
                   (mkToolError INTERNAL_ERROR "Target page crashed." None)),
          tick w)
  | _ => run_get_html args w
  end.

Definition registry_flaky : list (string * Server.ToolDefinition world) :=
  [("navigate",
    Server.mkTool "navigate" "Navigate the page to the provided URL." []
      run_navigate);
   ("click",
    Server.mkTool "click"
      "Click a visible, enabled element identified by CSS selector." []
      run_click);
   ("get_html",
    Server.mkTool "get_html"
      "Return the HTML content after scripts have executed." []
      run_get_html_flaky)].

Definition start : state world := mkState (mkWorld 0 0) [].

(** Stand-ins for pydantic and the JSON codec: request lines are matched
    as a whole, responses are written without escaping. *)
Definition model_validate_json (line : string) : outcome Server.MCPRequest :=
  if String.eqb line "{id:1,method:initialize}" then
    Ret (Server.mkRequest (JInt 1) "initialize" [])
  else if String.eqb line "{id:2,method:tools/list}" then
    Ret (Server.mkRequest (JInt 2) "tools/list" [])
  else
    Raise (ExValidation
             (JList [JDict [("type", JStr "json_invalid"); ("input", JStr line)]])
             "1 validation error for MCPRequest").

Definition validate_tool_call_params (params : dict)
  : outcome (string * dict) :=
  match dict_get "name" params, dict_get_default "arguments" (JDict []) params with
  | Some (JStr n), JDict args => Ret (n, args)
  | _, _ =>
      Raise (ExValidation (JList [JDict [("type", JStr "missing")]])
               "1 validation error for ToolCallParams")
  end.

Definition quote : string := String (ascii_of_nat 34) EmptyString.

Fixpoint dumps_json (j : json) : string :=
  match j with
  | JNull => "null"
  | JBool b => if b then "true" else "false"
  | JInt z => NilZero.string_of_int (Z.to_int z)
  | JFloat q =>
      NilZero.string_of_int (Z.to_int (Qnum q)) ++ "/"
      ++ NilZero.string_of_int (Z.to_int (Zpos (Qden q)))
  | JStr s => quote ++ s ++ quote
  | JList l =>
      "[" ++ (fix elements (l : list json) : string :=
                match l with
                | [] => ""
                | [x] => dumps_json x
                | x :: r => dumps_json x ++ "," ++ elements r
                end) l ++ "]"
  | JDict d =>
      "{" ++ (fix members (d : dict) : string :=
                match d with
                | [] => ""
                | [(k, v)] => quote ++ k ++ quote ++ ":" ++ dumps_json v
                | (k, v) :: r =>
                    quote ++ k ++ quote ++ ":" ++ dumps_json v ++ ","
                    ++ members r
                end) d ++ "}"
  end.

Definition dumps (payload : dict) : string := dumps_json (JDict payload).

(** The completion service: it answers an extraction request with a
    sentence around the JSON text of the page shown, and a pagination
    request with the selector of the next link on page 1 (in backticks),
    the sentinel on page 2 and a disabled link afterwards. *)
Definition chat (req : LLMRequest) (w : world) : outcome string * world :=
  match req with
  | ExtractionPrompt _ _ =>
      (Ret ("Here is the data: {page" ++ string_of_nat (page_no w) ++ "} Done."),
       tick w)
  | PaginationPrompt _ =>
      (Ret (match page_no w with
            | 1 => " `a.next` "
            | 2 => "NO_PAGINATION"
            | _ => "a.last"
            end),
       tick w)
  end.

Definition lamp : json := JDict [("name", JStr "Lamp"); ("price", JInt 20)].
Definition desk : json := JDict [("name", JStr "Desk"); ("price", JNull)].
Definition chair : json := JDict [("name", JStr "Chair"); ("price", JInt 45)].

(** A stand-in for [json.loads] that knows the texts of the two pages. *)
Definition json_loads (text : string) : option json :=
  if String.eqb text "{page1}" then Some (JDict [("items", JList [lamp; desk])])
  else if String.eqb text "{page2}" then Some (JDict [("items", JList [chair])])
  else None.

Definition utcnow_iso (w : world) : string :=
  "2025-06-01T12:00:0" ++ string_of_nat (ticks w).

Definition sleep (seconds : Q) (w : world) : world := tick w.

(** A catalogue job: one cookie banner to dismiss (there is none), three
    pages at most. *)
Definition job (pagination : bool) (max_pages : Z) : Agent.ScrapingConfig :=
  Agent.mkConfig "https://shop.example/catalogue"
    [("produits", JList [JDict [("name", JStr "string");
                                ("price", JStr "number")]])]
    [[("type", JStr "click"); ("selector", JStr "#accept-cookies")]]
    [("pagination", JBool pagination); ("max_pages", JInt max_pages)].

(** The agent in these surroundings. *)
Definition scrape_job (config : Agent.ScrapingConfig)
  : M world (option Agent.ExtractionResult) :=
  Agent.scrape world now_iso perf_counter registry chat json_loads utcnow_iso
    sleep config.

(** The agent with the page read that fails on the second page. *)
Definition scrape_job_flaky (config : Agent.ScrapingConfig)
  : M world (option Agent.ExtractionResult) :=
  Agent.scrape world now_iso perf_counter registry_flaky chat json_loads
    utcnow_iso sleep config.

(** A second scene, for the tools themselves.  The engine is known by
    the URL it shows; every page has three anchors, the second without
    [href]; only [a] and [a.next] match anything; scrolling always fails
    and the host [slow.example] never answers. *)
Definition site : Type := string.

Definition sid_of (raw : dict) : option string :=
  match dict_get "session_id" raw with
  | Some (JStr s) => Some s
  | _ => None
  end.

Definition missing (field : string) : json :=
  JList [JDict [("type", JStr "missing"); ("loc", JList [JStr field])]].

Definition NavigateInput : Tools.Model string :=
  Tools.mkModel
    (fun raw => match dict_get "url" raw with
                | Some (JStr u) => inr (Tools.mkInput (sid_of raw) u)
                | _ => inl (missing "url")
                end) [].

Definition ScreenshotInput : Tools.Model string :=
  Tools.mkModel
    (fun raw => match dict_get_default "mode" (JStr "viewport") raw with
                | JStr "viewport" => inr (Tools.mkInput (sid_of raw) "viewport")
                | JStr "fullpage" => inr (Tools.mkInput (sid_of raw) "fullpage")
                | _ => inl (JList [JDict [("type", JStr "string_pattern_mismatch");
                                          ("loc", JList [JStr "mode"])]])
                end) [].

Definition ExtractLinksInput : Tools.Model (option string) :=
  Tools.mkModel
    (fun raw => match dict_get "filter_contains" raw with
                | Some (JStr f) => inr (Tools.mkInput (sid_of raw) (Some f))
                | Some JNull | None => inr (Tools.mkInput (sid_of raw) None)
                | Some _ => inl (JList [JDict [("type", JStr "string_type");
                                               ("loc", JList [JStr "filter_contains"])]])
                end) [].

Definition FillInput : Tools.Model (string * string) :=
  Tools.mkModel
    (fun raw => match dict_get "selector" raw, dict_get "value" raw with
                | Some (JStr sel), Some (JStr v) =>
                    inr (Tools.mkInput (sid_of raw) (sel, v))
                | Some (JStr _), _ => inl (missing "value")
                | _, _ => inl (missing "selector")
                end) [].

Definition ClickInput : Tools.Model string :=
  Tools.mkModel
    (fun raw => match dict_get "selector" raw with
                | Some (JStr sel) => inr (Tools.mkInput (sid_of raw) sel)
                | _ => inl (missing "selector")
                end) [].

Definition GetHtmlInput : Tools.Model unit :=
  Tools.mkModel (fun raw => inr (Tools.mkInput (sid_of raw) tt)) [].

Definition goto (page : nat) (u : string) (e : site)
  : Tools.pw (option Z) * site :=
  if String.prefix "https://slow.example" u
  then (Tools.PlaywrightTimeoutError "Timeout 30000ms exceeded.", e)
  else (Tools.Done (Some 200%Z), u).

Definition page_url (page : nat) (e : site) : string := e.

Definition page_title (page : nat) (e : site) : Tools.pw string * site :=
  (Tools.Done "Catalogue", e).

Definition page_content (page : nat) (e : site) : Tools.pw string * site :=
  (Tools.Done ("<html>" ++ e ++ "</html>"), e).

Definition locator_count (page : nat) (selector : string) (e : site)
  : Tools.pw nat * site :=
  (Tools.Done (if String.eqb selector "a" then 3
               else if String.eqb selector "a.next" then 1 else 0), e).

Definition scroll_fails (page : nat) (selector : string) (e : site)
  : Tools.pw unit * site :=
  (Tools.PlaywrightError "Element is not attached to the DOM", e).

Definition element_ok (page : nat) (selector : string) (e : site)
  : Tools.pw unit * site := (Tools.Done tt, e).

Definition element_yes (page : nat) (selector : string) (e : site)
  : Tools.pw bool * site := (Tools.Done true, e).

Definition fill_ok (page : nat) (selector value : string) (e : site)
  : Tools.pw unit * site := (Tools.Done tt, e).

Definition page_screenshot (page : nat) (full_page : bool) (e : site)
  : Tools.pw string * site := (Tools.Done "PNG", e).

Definition anchor_href (page idx : nat) (e : site)
  : Tools.pw (option string) * site :=
  (Tools.Done match idx with
              | 0 => Some " /page/2 "
              | 1 => None
              | _ => Some "https://other.example/about"
              end, e).

Definition anchor_text (page idx : nat) (e : site) : Tools.pw string * site :=
  (Tools.Done match idx with
              | 0 => " Next "
              | 1 => ""
              | _ => "About us"
              end, e).

Definition urlparse_scheme (u : string) : string :=
  match find_char ":" u with
  | Some i => slice 0 i u
  | None => ""
  end.

Definition urlparse_netloc (u : string) : string :=
  if String.prefix "https://shop.example" u then "shop.example"
  else if String.prefix "https://other.example" u then "other.example"
  else "".

Definition urljoin (base href : string) : string :=
  if String.prefix "/" href then "https://shop.example" ++ href else href.

Fixpoint lower (s : string) : string :=
  match s with
  | EmptyString => EmptyString
  | String c r =>
      let n := nat_of_ascii c in
      String (if Nat.leb 65 n && Nat.leb n 90 then ascii_of_nat (n + 32) else c)
        (lower r)
  end.

(** A stand-in for the base64 encoding. *)
Definition b64encode (b : string) : string := "b64:" ++ b.

(** The six tools in this scene. *)
Definition web_tools : list (string * Server.ToolDefinition (Tools.World site)) :=
  Tools.build_tools site uuid NavigateInput ScreenshotInput ExtractLinksInput
    FillInput ClickInput GetHtmlInput goto page_url page_title page_content
    locator_count scroll_fails element_ok element_yes element_yes element_ok
    fill_ok page_screenshot anchor_href anchor_text urlparse_scheme
    urlparse_netloc urljoin lower b64encode.

Definition web_start : Tools.World site :=
  Tools.mkWorld Browser.init "https://shop.example/" [].

Definition web_navigate : dict -> Tools.T site (string * dict) :=
  Tools.navigate_runner site uuid NavigateInput goto page_url page_title
    urlparse_scheme.

Definition web_get_html : dict -> Tools.T site (string * dict) :=
  Tools.get_html_runner site uuid GetHtmlInput page_content.

Definition web_extract_links : dict -> Tools.T site (string * dict) :=
  Tools.extract_links_runner site uuid ExtractLinksInput page_url
    locator_count anchor_href anchor_text urlparse_netloc urljoin lower.

(** A clock for the tool service over this scene: a millisecond passes
    with every call on a page. *)
Definition web_now_iso (w : Tools.World site) : string :=
  "2025-06-01T12:00:00+00:00".

Definition web_perf_counter (w : Tools.World site) : Q :=
  Z.of_nat (length (Tools.calls w)) # 1000.

End Scenario.

(* ===================================================================== *)
(** * Properties of the session boundary *)
(* ===================================================================== *)

Section SessionFacts.
Variable uuid_hex12 : nat -> string.

Lemma known_Some_inv (sid : option string) (m : Browser.BrowserManager)
  (s : string) (sp : Browser.StoredPage) :
  Browser.known sid m = Some (s, sp) ->
  sid = Some s /\ s <> "" /\ Browser._sessions m !! s = Some sp.
Proof.
  unfold Browser.known. destruct sid as [k|]; [|discriminate].
  destruct (String.eqb_spec k ""); [discriminate|].
  destruct (Browser._sessions m !! k) eqn:E; [|discriminate].
  intros [= <- <-]. auto.
Qed.

Lemma known_of_lookup (m : Browser.BrowserManager) (s : string)
  (sp : Browser.StoredPage) :
  s <> "" -> Browser._sessions m !! s = Some sp ->
  Browser.known (Some s) m = Some (s, sp).
Proof.
  intros Hne Hl. unfold Browser.known.
  destruct (String.eqb_spec s ""); [contradiction|]. now rewrite Hl.
Qed.

Lemma session_unknown (sid : option string) (m : Browser.BrowserManager) :
  Browser.known sid m = None ->
  Browser.session uuid_hex12 sid m =
  ((Browser.new_id uuid_hex12 sid m, S (Browser.next_handle m)),
   Browser.mkManager
     (<[Browser.new_id uuid_hex12 sid m :=
          Browser.mkStoredPage (Browser.next_handle m) (S (Browser.next_handle m))]>
        (Browser._sessions m))
     (S (S (Browser.next_handle m)))
     (match sid with
      | Some (String _ _) => Browser.draws m
      | _ => S (Browser.draws m)
      end)).
Proof.
  intros Hk. unfold Browser.session, Browser.new_id. rewrite Hk.
  destruct sid as [[|a r]|]; reflexivity.
Qed.

(** One call leaves every stored session where it was, unless it mints an
    identifier that is already stored. *)
Lemma session_preserves (sid : option string) (m : Browser.BrowserManager)
  (k : string) (sp : Browser.StoredPage) :
  match sid with
  | Some (String _ _) => True
  | _ => Browser._sessions m !! Browser.minted_id uuid_hex12 m = None
  end ->
  Browser._sessions m !! k = Some sp ->
  Browser._sessions (snd (Browser.session uuid_hex12 sid m)) !! k = Some sp.
Proof.
  intros Hfree Hk.
  destruct (Browser.known sid m) as [[s st]|] eqn:E.
  - unfold Browser.session. rewrite E. exact Hk.
  - rewrite (session_unknown _ _ E). cbn [snd Browser._sessions].
    rewrite lookup_insert_ne; [exact Hk|].
    intros Heq. subst k. unfold Browser.new_id in Hk.
    destruct sid as [[|a r]|]; try congruence.
    unfold Browser.known in E. cbn in E. rewrite Hk in E. discriminate.
Qed.

Lemma sessions_run_preserves (calls : list (option string)) :
  forall (m : Browser.BrowserManager) (k : string) (sp : Browser.StoredPage),
  Browser.no_collision uuid_hex12 calls m ->
  Browser._sessions m !! k = Some sp ->
  Browser._sessions (Browser.sessions_run uuid_hex12 calls m) !! k = Some sp.
Proof.
  induction calls as [|c r IH]; intros m k sp Hnc Hk; [exact Hk|].
  destruct Hnc as [Hc Hr]. cbn [Browser.sessions_run].
  apply IH; [exact Hr|]. now apply session_preserves.
Qed.

Lemma session_allocated (sid : option string) (m : Browser.BrowserManager) :
  Browser.handles_allocated m ->
  Browser.handles_allocated (snd (Browser.session uuid_hex12 sid m)).
Proof.
  intros Hwf.
  destruct (Browser.known sid m) as [[s st]|] eqn:E.
  - unfold Browser.session. rewrite E. exact Hwf.
  - rewrite (session_unknown _ _ E). intros k sp. cbn.
    destruct (decide (Browser.new_id uuid_hex12 sid m = k)) as [Heq|Hne]; [subst k|].
    + rewrite lookup_insert_eq. intros [= <-]. cbn. lia.
    + rewrite lookup_insert_ne by exact Hne. intros H.
      destruct (Hwf _ _ H). lia.
Qed.


End SessionFacts.



(* ===================================================================== *)
(** * Properties of the tool service and the dispatcher *)
(* ===================================================================== *)

(** Unfolds the monad's operations so that a computation applied to a
    state reduces to its outcome and final state. *)
Ltac run_monad :=
  cbv [bind ret raise attempt emit log observe external
       Server._timestamp Server._duration_ms];
  cbn [ext trace fst snd].

Lemma to_payload_fields (exc : ToolError) :
  dict_get "code" (to_payload exc) = Some (JStr (ErrorCode_value (te_code exc)))
  /\ dict_get "message" (to_payload exc) = Some (JStr (te_message exc))
  /\ dict_get "details" (to_payload exc) =
     match te_details exc with
     | Some (kv :: r) => Some (JDict (kv :: r))
     | _ => None
     end.
Proof.
  unfold to_payload. destruct (te_details exc) as [[|kv r]|]; repeat split.
Qed.

Section ServiceFacts.
Variable W : Type.
Variable now_iso : W -> string.
Variable perf_counter : W -> Q.
Variable tools : list (string * Server.ToolDefinition W).

(** A name outside the registry is answered without running anything. *)
Lemma call_unregistered (name : string) (arguments : dict) (s : state W) :
  Server.registry_get W name tools = None ->
  exists env,
    Server.call W now_iso perf_counter tools name arguments s = (Ret env, s)
    /\ dict_get "ok" env = Some (JBool false)
    /\ dict_get "error" env =
       Some (JDict [("code", JStr "INTERNAL_ERROR");
                    ("message", JStr ("Unknown tool: " ++ name))]).
Proof.
  intros H. unfold Server.call. rewrite H. eexists. repeat split.
Qed.

(** [ToolService.call] returns an envelope whatever the name and whatever
    the tool does. *)
Lemma call_returns (name : string) (arguments : dict) (s : state W) :
  exists env s',
    Server.call W now_iso perf_counter tools name arguments s = (Ret env, s').
Proof.
  unfold Server.call.
  destruct (Server.registry_get W name tools) as [tool|].
  - run_monad.
    destruct (Server.run tool arguments (ext s)) as [[[sid data]|x] w].
    + eauto.
    + destruct x as [exc| |]; [|eauto|eauto].
      destruct (truthy (py_get "session_id" arguments)); eauto.
  - run_monad. eauto.
Qed.

(** C2, as amended.  For a registered tool, [ToolService.call] returns an
    envelope and raises nothing.  When the tool raises a [ToolError], the
    envelope has [ok] false and that error's payload (its code, its
    message, and its details when it has any), and a truthy [session_id]
    of the arguments is echoed.  When the tool raises anything else, the
    envelope has [ok] false, code [INTERNAL_ERROR] and the exception's
    message, or the text [Internal error] when that message is empty. *)
Theorem call_uniform_envelope (name : string) (tool : Server.ToolDefinition W)
  (arguments : dict) (s : state W) :
  Server.registry_get W name tools = Some tool ->
  exists env s',
    Server.call W now_iso perf_counter tools name arguments s = (Ret env, s')
    /\ match fst (Server.run tool arguments (ext s)) with
       | Raise (ExToolError exc) =>
           dict_get "ok" env = Some (JBool false)
           /\ dict_get "error" env = Some (JDict (to_payload exc))
           /\ dict_get "code" (to_payload exc)
              = Some (JStr (ErrorCode_value (te_code exc)))
           /\ dict_get "message" (to_payload exc)
              = Some (JStr (te_message exc))
           /\ dict_get "details" (to_payload exc)
              = match te_details exc with
                | Some (kv :: r) => Some (JDict (kv :: r))
                | _ => None
                end
           /\ (truthy (py_get "session_id" arguments) = true ->
               dict_get "session_id" env
               = Some (py_get "session_id" arguments))
       | Raise exc =>
           dict_get "ok" env = Some (JBool false)
           /\ dict_get "error" env =
              Some (JDict
                      [("code", JStr "INTERNAL_ERROR");
                       ("message",
                        JStr (if String.eqb (exn_str exc) ""
                              then "Internal error" else exn_str exc))])
       | Ret (session_id, data) =>
           dict_get "ok" env = Some (JBool true)
           /\ dict_get "session_id" env = Some (JStr session_id)
           /\ dict_get "data" env = Some (JDict data)
       end.
Proof.
  intros Hreg. unfold Server.call. rewrite Hreg. run_monad.
  destruct (Server.run tool arguments (ext s)) as [[[sid data]|x] w];
    cbn [fst].
  - do 2 eexists. split; [reflexivity|]. repeat split.
  - destruct x as [exc|errors text|text].
    + destruct (to_payload_fields exc) as (Hc & Hm & Hd).
      destruct (truthy (py_get "session_id" arguments)) eqn:Ht;
        do 2 eexists; (split; [reflexivity|]);
        repeat (split; [first [reflexivity | assumption]|]);
        intros; first [reflexivity | discriminate].
    + do 2 eexists. split; [reflexivity|]. repeat split.
    + do 2 eexists. split; [reflexivity|]. repeat split.
Qed.

(** C10.  When a registered tool raises an exception that is not a
    [ToolError], the envelope has [ok] false and code [INTERNAL_ERROR] and
    no [session_id] key, whatever the arguments carried. *)
Theorem call_unexpected_no_session (name : string)
  (tool : Server.ToolDefinition W) (arguments : dict) (s : state W) (x : exn) :
  Server.registry_get W name tools = Some tool ->
  fst (Server.run tool arguments (ext s)) = Raise x ->
  (forall exc, x <> ExToolError exc) ->
  exists env s',
    Server.call W now_iso perf_counter tools name arguments s = (Ret env, s')
    /\ dict_get "ok" env = Some (JBool false)
    /\ (exists error,
          dict_get "error" env = Some (JDict error)
          /\ dict_get "code" error = Some (JStr "INTERNAL_ERROR"))
    /\ dict_get "session_id" env = None
    /\ map fst env = ["ok"; "tool"; "error"; "meta"].
Proof.
  intros Hreg Hrun Hx. unfold Server.call. rewrite Hreg. run_monad.
  destruct (Server.run tool arguments (ext s)) as [[[sid data]|y] w];
    cbn [fst] in Hrun; [discriminate|].
  injection Hrun as ->.
  destruct x as [exc|errors text|text]; [now destruct (Hx exc)| |];
    do 2 eexists; (split; [reflexivity|]); repeat split;
    eexists; split; reflexivity.
Qed.

End ServiceFacts.

Section DispatcherFacts.
Variable W : Type.
Variable now_iso : W -> string.
Variable perf_counter : W -> Q.
Variable tools : list (string * Server.ToolDefinition W).
Variable model_validate_json : string -> outcome Server.MCPRequest.
Variable validate_tool_call_params : dict -> outcome (string * dict).
Variable _dumps : dict -> string.

#[local] Abbreviation dispatch :=
  (Server._dispatch W now_iso perf_counter tools model_validate_json
     validate_tool_call_params _dumps).
#[local] Abbreviation serve :=
  (Server.serve_forever W now_iso perf_counter tools model_validate_json
     validate_tool_call_params _dumps).

(** A line the request model rejects is answered with a null id and the
    validation errors, and only a log record is added to the state. *)
Lemma dispatch_invalid (payload : string) (errors : json) (text : string)
  (s : state W) :
  model_validate_json payload = Raise (ExValidation errors text) ->
  dispatch payload s =
  (Ret (_dumps [("id", JNull);
                ("error",
                 JDict [("code", JStr "INTERNAL_ERROR");
                        ("message", JStr "Invalid request payload");
                        ("details", errors)])]),
   mkState (ext s)
     (trace s ++ [EvLog ERROR "invalid_request" [JDict [("error", errors)]]])).
Proof.
  intros H. unfold Server._dispatch. rewrite H. reflexivity.
Qed.

(** As long as the request model only ever raises its validation error,
    every line gets a response. *)
Lemma dispatch_returns (payload : string) (s : state W) :
  (forall p x, model_validate_json p = Raise x ->
     exists errors text, x = ExValidation errors text) ->
  exists line s', dispatch payload s = (Ret line, s').
Proof.
  intros Hparse. unfold Server._dispatch.
  destruct (model_validate_json payload) as [request|x] eqn:E.
  - run_monad.
    destruct (Server.handle W now_iso perf_counter tools
                validate_tool_call_params request s) as [[response|y] s1].
    + eauto.
    + destruct y; eauto.
  - destruct (Hparse _ _ E) as (errors & text & ->). run_monad. eauto.
Qed.

Lemma serve_cons (raw : string) (rest : list string) (s : state W) :
  serve (raw :: rest) s =
  if String.eqb (py_strip raw) "" then serve rest s
  else match dispatch (py_strip raw) s with
       | (Ret line, s1) =>
           match serve rest s1 with
           | (Ret out, s2) => (Ret ((line ++ nl) :: out), s2)
           | (Raise x, s2) => (Raise x, s2)
           end
       | (Raise x, s1) => (Raise x, s1)
       end.
Proof.
  cbn [Server.serve_forever].
  destruct (String.eqb (py_strip raw) ""); [reflexivity|].
  run_monad.
  destruct (Server._dispatch _ _ _ _ _ _ _ (py_strip raw) s) as [[line|x] s1];
    [|reflexivity].
  destruct (Server.serve_forever _ _ _ _ _ _ _ rest s1) as [[out|x] s2];
    reflexivity.
Qed.

(** The loop over a stream cut in two is the loop over the first part
    followed by the loop over the second. *)
Lemma serve_app (pre post : list string) : forall s : state W,
  serve (pre ++ post) s =
  match serve pre s with
  | (Ret out1, s1) =>
      match serve post s1 with
      | (Ret out2, s2) => (Ret (out1 ++ out2)%list, s2)
      | (Raise x, s2) => (Raise x, s2)
      end
  | (Raise x, s1) => (Raise x, s1)
  end.
Proof.
  induction pre as [|raw pre IH]; intros s.
  - cbn [app Server.serve_forever]. unfold ret.
    now destruct (serve post s) as [[out2|x] s2].
  - rewrite <- app_comm_cons, !serve_cons.
    destruct (String.eqb (py_strip raw) ""); [apply IH|].
    destruct (dispatch (py_strip raw) s) as [[line|x] s1]; [|reflexivity].
    rewrite IH.
    destruct (serve pre s1) as [[out1|x] s2]; [|reflexivity].
    destruct (serve post s2) as [[out2|x] s3]; reflexivity.
Qed.

Lemma serve_returns (stdin : list string) : forall s : state W,
  (forall p x, model_validate_json p = Raise x ->
     exists errors text, x = ExValidation errors text) ->
  exists out s',
    serve stdin s = (Ret out, s')
    /\ length out = length (List.filter non_blank stdin).
Proof.
  induction stdin as [|raw rest IH]; intros s Hparse.
  - exists [], s. split; reflexivity.
  - rewrite serve_cons. cbn [List.filter]. unfold non_blank at 1.
    destruct (String.eqb (py_strip raw) ""); cbn [negb]; [now apply IH|].
    destruct (dispatch_returns (py_strip raw) s Hparse) as (line & s1 & ->).
    destruct (IH s1 Hparse) as (out & s2 & -> & Hlen).
    exists ((line ++ nl) :: out), s2. split; [reflexivity|].
    cbn [length]. now rewrite Hlen.
Qed.

(** C7.  A non-blank line that the request model rejects is answered by a
    response whose id is null and whose error carries the validation
    errors; the lines before and after it are served as they would be
    without it, the surroundings untouched; and when the request model
    raises nothing but its validation error, the loop reaches the end of
    the stream with one response for every non-blank line. *)
Theorem malformed_line_is_answered (pre post : list string) (raw : string)
  (errors : json) (text : string) (s : state W) :
  py_strip raw <> "" ->
  model_validate_json (py_strip raw) = Raise (ExValidation errors text) ->
  dispatch (py_strip raw) s =
    (Ret (_dumps [("id", JNull);
                  ("error",
                   JDict [("code", JStr "INTERNAL_ERROR");
                          ("message", JStr "Invalid request payload");
                          ("details", errors)])]),
     mkState (ext s)
       (trace s ++ [EvLog ERROR "invalid_request" [JDict [("error", errors)]]]))
  /\ serve (pre ++ raw :: post) s =
     match serve pre s with
     | (Ret out1, s1) =>
         match
           serve post
             (mkState (ext s1)
                (trace s1
                 ++ [EvLog ERROR "invalid_request" [JDict [("error", errors)]]]))
         with
         | (Ret out2, s2) =>
             (Ret (out1
                   ++ [(_dumps [("id", JNull);
                               ("error",
                                JDict [("code", JStr "INTERNAL_ERROR");
                                       ("message", JStr "Invalid request payload");
                                       ("details", errors)])] ++ nl)%string]
                   ++ out2)%list, s2)
         | (Raise x, s2) => (Raise x, s2)
         end
     | (Raise x, s1) => (Raise x, s1)
     end
  /\ ((forall p x, model_validate_json p = Raise x ->
         exists errors text, x = ExValidation errors text) ->
      exists out s',
        serve (pre ++ raw :: post) s = (Ret out, s')
        /\ length out =
           length (List.filter non_blank pre) + 1 + length (List.filter non_blank post)).
Proof.
  intros Hnb Hbad. split; [now apply dispatch_invalid with text|]. split.
  - rewrite serve_app.
    destruct (serve pre s) as [[out1|x] s1]; [|reflexivity].
    rewrite serve_cons.
    destruct (String.eqb_spec (py_strip raw) ""); [contradiction|].
    rewrite (dispatch_invalid _ _ _ _ Hbad).
    destruct (serve post _) as [[out2|x] s2]; reflexivity.
  - intros Hparse.
    destruct (serve_returns (pre ++ raw :: post) s Hparse) as (out & s' & Hs & Hl).
    exists out, s'. split; [exact Hs|].
    rewrite Hl, List.filter_app, List.length_app. cbn [List.filter]. unfold non_blank at 2.
    destruct (String.eqb_spec (py_strip raw) ""); [contradiction|].
    cbn [negb length]. lia.
Qed.

End DispatcherFacts.

(** [call_uniform_envelope] on a click that finds no element, in a session
    the caller named. *)
Lemma call_uniform_envelope_witness :
  exists env s',
    Server.call Scenario.world Scenario.now_iso Scenario.perf_counter
      Scenario.registry "click"
      [("session_id", JStr "sess_7"); ("selector", JStr "#nope")]
      Scenario.start = (Ret env, s')
    /\ dict_get "ok" env = Some (JBool false)
    /\ dict_get "error" env =
       Some (JDict [("code", JStr "ELEMENT_NOT_FOUND");
                    ("message", JStr "No element matches selector.")])
    /\ dict_get "session_id" env = Some (JStr "sess_7").
Proof.
  destruct (call_uniform_envelope Scenario.world Scenario.now_iso
              Scenario.perf_counter Scenario.registry "click"
              (Server.mkTool "click"
                 "Click a visible, enabled element identified by CSS selector."
                 [] Scenario.run_click)
              [("session_id", JStr "sess_7"); ("selector", JStr "#nope")]
              Scenario.start eq_refl)
    as (env & s' & Hcall & Hok & Herr & _ & _ & _ & Hsid).
  exists env, s'. repeat split; try assumption. now apply Hsid.
Defined.

(** C2, as stated, fails: an exception without a message is reported with
    the text [Internal error], which is not its message. *)
Lemma call_replaces_empty_message :
  Server.registry_get Scenario.world "screenshot" Scenario.registry
  = Some (Server.mkTool "screenshot" "Capture the page." []
            Scenario.run_screenshot)
  /\ fst (Scenario.run_screenshot [] (ext Scenario.start)) = Raise (ExOther "")
  /\ exn_str (ExOther "") = ""
  /\ exists env s',
       Server.call Scenario.world Scenario.now_iso Scenario.perf_counter
         Scenario.registry "screenshot" [] Scenario.start = (Ret env, s')
       /\ dict_get "error" env =
          Some (JDict [("code", JStr "INTERNAL_ERROR");
                       ("message", JStr "Internal error")])
       /\ "Internal error" <> exn_str (ExOther "").
Proof.
  repeat split. do 2 eexists.
  split; [vm_compute; reflexivity|]. split; [reflexivity|]. discriminate.
Qed.

(** [call_unexpected_no_session] on the failing screenshot tool, called
    with a session identifier. *)
Lemma call_unexpected_no_session_witness :
  exists env s',
    Server.call Scenario.world Scenario.now_iso Scenario.perf_counter
      Scenario.registry "screenshot" [("session_id", JStr "sess_7")]
      Scenario.start = (Ret env, s')
    /\ dict_get "session_id" [("session_id", JStr "sess_7")]
       = Some (JStr "sess_7")
    /\ dict_get "session_id" env = None.
Proof.
  destruct (call_unexpected_no_session Scenario.world Scenario.now_iso
              Scenario.perf_counter Scenario.registry "screenshot"
              (Server.mkTool "screenshot" "Capture the page." []
                 Scenario.run_screenshot)
              [("session_id", JStr "sess_7")] Scenario.start (ExOther "")
              eq_refl eq_refl ltac:(discriminate))
    as (env & s' & Hcall & _ & _ & Hsid & _).
  exists env, s'. repeat split; assumption.
Defined.

Lemma scenario_parser_validation (p : string) (x : exn) :
  Scenario.model_validate_json p = Raise x ->
  exists errors text, x = ExValidation errors text.
Proof.
  unfold Scenario.model_validate_json.
  repeat match goal with |- context [if ?b then _ else _] => destruct b end;
    try discriminate.
  intros [= <-]. eauto.
Qed.

(** [malformed_line_is_answered] on a stream of a request, a malformed
    line, a blank line and another request: three responses. *)
Lemma malformed_line_is_answered_witness :
  py_strip " garbage " <> ""
  /\ exists out s',
       Server.serve_forever Scenario.world Scenario.now_iso
         Scenario.perf_counter Scenario.registry Scenario.model_validate_json
         Scenario.validate_tool_call_params Scenario.dumps
         (["{id:1,method:initialize}"]
          ++ " garbage " :: ["  "; "{id:2,method:tools/list}"])
         Scenario.start = (Ret out, s')
       /\ length out = 3.
Proof.
  assert (Hnb : py_strip " garbage " <> "") by discriminate.
  split; [exact Hnb|].
  destruct (malformed_line_is_answered Scenario.world Scenario.now_iso
              Scenario.perf_counter Scenario.registry
              Scenario.model_validate_json Scenario.validate_tool_call_params
              Scenario.dumps ["{id:1,method:initialize}"]
              ["  "; "{id:2,method:tools/list}"] " garbage "
              (JList [JDict [("type", JStr "json_invalid");
                             ("input", JStr "garbage")]])
              "1 validation error for MCPRequest" Scenario.start Hnb eq_refl)
    as (_ & _ & H).
  destruct (H scenario_parser_validation) as (out & s' & Hs & Hl).
  exists out, s'. split; [exact Hs|exact Hl].
Defined.

(* ===================================================================== *)
(** * Properties of the structuring step *)
(* ===================================================================== *)

Lemma dict_get_set_same (k : string) (v : json) (d : dict) :
  dict_get k (dict_set k v d) = Some v.
Proof.
  induction d as [|[k' v'] r IH]; cbn.
  - now rewrite String.eqb_refl.
  - destruct (String.eqb k k') eqn:E; cbn; rewrite ?String.eqb_refl, ?E; auto.
Qed.

Lemma dict_get_set_other (k k' : string) (v : json) (d : dict) :
  k <> k' -> dict_get k' (dict_set k v d) = dict_get k' d.
Proof.
  intros Hne. induction d as [|[k0 v0] r IH]; cbn.
  - destruct (String.eqb_spec k' k); congruence.
  - destruct (String.eqb_spec k k0) as [->|]; cbn.
    + destruct (String.eqb_spec k' k0); congruence.
    + now rewrite IH.
Qed.

(** The search stops at the first key whose value is a non-empty list. *)
Lemma find_array_field_first (schema : dict) :
  Agent.find_array_field schema =
  option_map fst (find (fun kv => Agent.is_nonempty_list (snd kv)) schema).
Proof.
  induction schema as [|[key value] r IH]; [reflexivity|].
  cbn. destruct value as [| | | | |[|x l]|]; cbn; auto.
Qed.

(** C9, as amended.  The items go under the first schema key whose value
    is a non-empty list, when that key is neither empty nor [metadata],
    and under [items] when no key has a non-empty list; and when the
    schema has a [metadata] key, the result carries a metadata object with
    the extraction time and the number of items. *)
Theorem structure_data_places_items (utcnow : string)
  (extracted_items : list json) (schema : dict) :
  Agent.find_array_field schema =
    option_map fst (find (fun kv => Agent.is_nonempty_list (snd kv)) schema)
  /\ (forall key, Agent.find_array_field schema = Some key ->
        key <> "" -> key <> "metadata" ->
        dict_get key (Agent.structure_data_at utcnow extracted_items schema)
        = Some (JList extracted_items))
  /\ (Agent.find_array_field schema = None ->
      dict_get "items" (Agent.structure_data_at utcnow extracted_items schema)
      = Some (JList extracted_items))
  /\ (dict_mem "metadata" schema = true ->
      dict_get "metadata"
        (Agent.structure_data_at utcnow extracted_items schema)
      = Some (JDict [("date_extraction", JStr (utcnow ++ "Z"));
                     ("nb_resultats",
                      JInt (Z.of_nat (length extracted_items)))])).
Proof.
  split; [apply find_array_field_first|]. unfold Agent.structure_data_at.
  split; [|split].
  - intros key Hkey Hne Hmeta. rewrite Hkey.
    destruct key as [|a r]; [contradiction|].
    destruct (dict_mem "metadata" schema).
    + rewrite dict_get_set_other by congruence. cbn [dict_get].
      now rewrite String.eqb_refl.
    + cbn [dict_get]. now rewrite String.eqb_refl.
  - intros ->. destruct (dict_mem "metadata" schema).
    + now rewrite dict_get_set_other by discriminate.
    + reflexivity.
  - intros ->. apply dict_get_set_same.
Qed.

(** C9, as stated, fails: the first key declared as a list is skipped when
    its list is empty, and the items go under a later key. *)
Lemma structure_data_skips_empty_list :
  Agent.spec_array_field
    [("tags", JList []); ("products", JList [JDict [("name", JStr "string")]])]
  = Some "tags"
  /\ Agent.structure_data_at "2025-06-01T12:00:00" [JDict [("name", JStr "Lamp")]]
       [("tags", JList []); ("products", JList [JDict [("name", JStr "string")]])]
     = [("products", JList [JDict [("name", JStr "Lamp")]])]
  /\ dict_get "tags"
       (Agent.structure_data_at "2025-06-01T12:00:00"
          [JDict [("name", JStr "Lamp")]]
          [("tags", JList []);
           ("products", JList [JDict [("name", JStr "string")]])])
     = None.
Proof. repeat split. Qed.

(* ===================================================================== *)
(** * Properties of the quality analyzer *)
(* ===================================================================== *)

Lemma round_half_even_bounds (q : Q) (a b : Z) :
  (inject_Z a <= q)%Q -> (q <= inject_Z b)%Q ->
  (a <= Agent.round_half_even q <= b)%Z.
Proof.
  destruct q as [n d]. unfold Qle, Agent.round_half_even. cbn.
  intros Ha Hb.
  pose proof (Z.div_mod n (Zpos d) ltac:(lia)) as Hdm.
  pose proof (Z.mod_pos_bound n (Zpos d) ltac:(lia)) as Hr.
  destruct (Z.compare_spec (2 * (n mod Zpos d)) (Zpos d));
    try destruct (Z.even (n / Zpos d)); nia.
Qed.

(** Rounding moves a value by at most half a unit. *)
Lemma round_half_even_close (q : Q) :
  (Qabs (inject_Z (Agent.round_half_even q) - q) <= 1 # 2)%Q.
Proof.
  apply Qabs_Qle_condition.
  destruct q as [n d]. unfold Qle, Qminus, Qplus, Qopp, Agent.round_half_even.
  cbn.
  pose proof (Z.div_mod n (Zpos d) ltac:(lia)) as Hdm.
  pose proof (Z.mod_pos_bound n (Zpos d) ltac:(lia)) as Hr.
  destruct (Z.compare_spec (2 * (n mod Zpos d)) (Zpos d));
    try destruct (Z.even (n / Zpos d)); split; nia.
Qed.

Lemma py_round3_close (q : Q) :
  (Qabs (Agent.py_round3 q - q) <= 1 # 2000)%Q.
Proof.
  pose proof (round_half_even_close (q * 1000)) as H.
  apply Qabs_Qle_condition in H. apply Qabs_Qle_condition.
  unfold Agent.py_round3.
  set (r := Agent.round_half_even (q * 1000)) in *.
  destruct q as [n d]. unfold Qle, Qminus, Qplus, Qopp, Qmult, inject_Z in *.
  cbn in *. destruct H as [H1 H2]. split; nia.
Qed.

Lemma py_round3_unit_interval (c t : nat) :
  c <= t -> 0 < t ->
  (0 <= Agent.py_round3 (Agent.true_div c t))%Q
  /\ (Agent.py_round3 (Agent.true_div c t) <= 1)%Q.
Proof.
  intros Hct Ht.
  destruct (round_half_even_bounds (Agent.true_div c t * 1000) 0 1000)
    as [Hlo Hhi].
  - unfold Agent.true_div, Qle, Qmult. cbn. lia.
  - unfold Agent.true_div, Qle, Qmult. cbn.
    rewrite Pos2Z.inj_mul. rewrite <- (positive_nat_Z (Pos.of_nat t)).
    rewrite Nat2Pos.id by lia. nia.
  - unfold Agent.py_round3, Qle. cbn. lia.
Qed.

Lemma bump_all_app (l1 l2 : list string) (mf : list (string * nat)) :
  Agent.bump_all (l1 ++ l2) mf = Agent.bump_all l2 (Agent.bump_all l1 mf).
Proof. unfold Agent.bump_all. apply fold_left_app. Qed.

Lemma nil_app_case (l1 l2 : list string) :
  match (l1 ++ l2)%list with [] => true | _ => false end
  = match l1 with [] => true | _ => false end
    && match l2 with [] => true | _ => false end.
Proof. destruct l1; reflexivity. Qed.

(** The walk of the source and the list of missing paths agree: the
    verdict stays true exactly when the list is empty, and the mapping is
    bumped once for every entry of the list, in order. *)
Lemma check_nested_paths (obj : json) :
  forall (prefix : string) (b : bool) (mf : list (string * nat)),
  Agent.check_nested obj prefix (b, mf) =
  (b && match Agent.missing_paths obj prefix with [] => true | _ => false end,
   Agent.bump_all (Agent.missing_paths obj prefix) mf).
Proof.
  induction obj as [| | | | |l IH|d IH] using json_nested_ind;
    intros prefix ok mf;
    try (cbn; now rewrite andb_true_r).
  - cbn [Agent.check_nested Agent.missing_paths].
    revert ok mf. induction IH as [|item r Hitem _ IHr]; intros ok mf.
    + cbn. now rewrite andb_true_r.
    + rewrite Hitem, IHr, nil_app_case, bump_all_app.
      now rewrite andb_assoc.
  - cbn [Agent.check_nested Agent.missing_paths].
    revert ok mf. induction IH as [|[key value] r Hvalue _ IHr]; intros ok mf.
    + cbn. now rewrite andb_true_r.
    + cbn [snd] in Hvalue. rewrite nil_app_case, bump_all_app.
      destruct (Agent.is_missing value) eqn:Hm.
      * rewrite IHr. cbn [snd]. now rewrite andb_false_r.
      * destruct value; try (rewrite IHr; cbn; now rewrite ?andb_true_r);
          rewrite Hvalue, IHr; now rewrite andb_assoc.
Qed.

Lemma count_of_bump (p q : string) (mf : list (string * nat)) :
  Agent.count_of p (Agent.bump q mf)
  = Agent.count_of p mf + (if String.eqb p q then 1 else 0).
Proof.
  induction mf as [|[k n] r IH]; cbn.
  - destruct (String.eqb p q); lia.
  - destruct (String.eqb_spec q k) as [->|Hqk]; cbn.
    + destruct (String.eqb p k); lia.
    + destruct (String.eqb_spec p k) as [->|Hpk].
      * destruct (String.eqb_spec k q); [congruence|lia].
      * exact IH.
Qed.

(** After a run of bumps the count of a path has grown by the number of
    its occurrences in the run. *)
Lemma count_of_bump_all (p : string) (paths : list string) :
  forall mf : list (string * nat),
  Agent.count_of p (Agent.bump_all paths mf)
  = Agent.count_of p mf + Agent.occurrences p paths.
Proof.
  unfold Agent.bump_all, Agent.occurrences.
  induction paths as [|q r IH]; intros mf; cbn [fold_left List.filter].
  - cbn. lia.
  - rewrite IH, count_of_bump. destruct (String.eqb p q); cbn [length]; lia.
Qed.

Lemma keys_bump (q : string) (mf : list (string * nat)) :
  map fst (Agent.bump q mf)
  = if existsb (String.eqb q) (map fst mf) then map fst mf
    else (map fst mf ++ [q])%list.
Proof.
  induction mf as [|[k n] r IH]; cbn; [reflexivity|].
  destruct (String.eqb q k); cbn; [reflexivity|].
  rewrite IH. now destruct (existsb (String.eqb q) (map fst r)).
Qed.

(** The keys of the mapping are the paths in the order in which they were
    first bumped. *)
Lemma keys_bump_all (paths : list string) :
  forall mf : list (string * nat),
  map fst (Agent.bump_all paths mf) = Agent.first_seen (map fst mf) paths.
Proof.
  unfold Agent.bump_all, Agent.first_seen.
  induction paths as [|q r IH]; intros mf; cbn [fold_left]; [reflexivity|].
  rewrite IH, keys_bump.
  now destruct (existsb (String.eqb q) (map fst mf)).
Qed.

Lemma check_item_completeness_paths (item : json) (mf : list (string * nat)) :
  Agent._check_item_completeness item mf
  = (Agent.item_complete item,
     Agent.bump_all (Agent.missing_paths item "") mf).
Proof.
  unfold Agent._check_item_completeness, Agent.item_complete.
  now rewrite check_nested_paths.
Qed.

(** The loop over the items counts the complete ones and bumps the mapping
    for every missing path of every item. *)
Lemma analyze_items_paths (items : list json) :
  forall (c : nat) (mf : list (string * nat)),
  Agent.analyze_items items c mf
  = (c + length (List.filter Agent.item_complete items),
     Agent.bump_all (Agent.all_missing_paths items) mf).
Proof.
  unfold Agent.all_missing_paths.
  induction items as [|item r IH]; intros c mf;
    cbn [Agent.analyze_items List.filter map concat].
  - cbn. f_equal. lia.
  - rewrite check_item_completeness_paths, IH, bump_all_app.
    destruct (Agent.item_complete item); cbn [length]; f_equal; lia.
Qed.

Lemma filter_length_le {A} (f : A -> bool) (l : list A) :
  length (List.filter f l) <= length l.
Proof.
  induction l as [|x r IH]; cbn; [lia|]. destruct (f x); cbn; lia.
Qed.

(** The report for a non-empty list of items. *)
Lemma quality_report_nonempty (structured_data schema : dict) :
  Agent.first_list_value structured_data <> [] ->
  Agent._generate_quality_report structured_data schema
  = [("total_items",
      JInt (Z.of_nat (length (Agent.first_list_value structured_data))));
     ("complete_items",
      JInt (Z.of_nat
              (length (List.filter Agent.item_complete
                         (Agent.first_list_value structured_data)))));
     ("completion_rate",
      JFloat (Agent.py_round3
                (Agent.true_div
                   (length (List.filter Agent.item_complete
                              (Agent.first_list_value structured_data)))
                   (length (Agent.first_list_value structured_data)))));
     ("missing_fields",
      JList (map JStr
               (map Agent.render_missing
                  (Agent.bump_all
                     (Agent.all_missing_paths
                        (Agent.first_list_value structured_data)) []))));
     ("errors", JList [])].
Proof.
  intros Hne. unfold Agent._generate_quality_report.
  destruct (Agent.first_list_value structured_data) as [|item r] eqn:E;
    [contradiction|].
  cbn [length Nat.eqb]. rewrite analyze_items_paths. reflexivity.
Qed.


(** Inside a list the walk keeps the prefix: the index of an element is
    not part of any path. *)
Lemma missing_paths_list (l : list json) (prefix : string) :
  Agent.missing_paths (JList l) prefix
  = concat (map (fun item => Agent.missing_paths item prefix) l).
Proof.
  cbn [Agent.missing_paths]. induction l as [|item r IH]; cbn; [reflexivity|].
  now rewrite IH.
Qed.

(** A field of a mapping is listed exactly when its value is [None] or the
    empty string; other fields contribute what the walk finds below
    them. *)
Lemma missing_paths_field (key : string) (value : json) (r : dict)
  (prefix : string) :
  Agent.missing_paths (JDict ((key, value) :: r)) prefix
  = ((if Agent.is_missing value then [Agent.field_path_of prefix key]
      else Agent.missing_paths value (Agent.field_path_of prefix key))
     ++ Agent.missing_paths (JDict r) prefix)%list.
Proof.
  cbn [Agent.missing_paths]. destruct (Agent.is_missing value) eqn:E;
    [reflexivity|].
  destruct value; try reflexivity; cbn in E; discriminate.
Qed.

Lemma is_missing_iff (value : json) :
  Agent.is_missing value = true <-> value = JNull \/ value = JStr "".
Proof.
  destruct value as [| | | |s| |]; cbn; split;
    try discriminate; try (intros [H|H]; discriminate); auto.
  - destruct (String.eqb_spec s ""); [subst; auto|discriminate].
  - intros [H|H]; [discriminate|]. injection H as ->. reflexivity.
Qed.

Lemma occurrences_app (p : string) (l1 l2 : list string) :
  Agent.occurrences p (l1 ++ l2)
  = Agent.occurrences p l1 + Agent.occurrences p l2.
Proof.
  unfold Agent.occurrences. now rewrite List.filter_app, List.length_app.
Qed.

Lemma occurrences_NoDup (p : string) (l : list string) :
  List.NoDup l ->
  Agent.occurrences p l = if existsb (String.eqb p) l then 1 else 0.
Proof.
  unfold Agent.occurrences.
  induction 1 as [|q r Hq Hnd IH]; cbn; [reflexivity|].
  destruct (String.eqb_spec p q) as [->|Hne]; cbn; [|exact IH].
  rewrite IH. destruct (existsb (String.eqb q) r) eqn:E; [|reflexivity].
  apply existsb_exists in E. destruct E as (x & Hin & Hx).
  apply String.eqb_eq in Hx. subst x. contradiction.
Qed.

(** X29.  What the report says about missing fields: one string per
    distinct path, in the order of first occurrence, and the number it
    shows for a path is the number of occurrences of the path in the
    walks of all items. *)
Lemma missing_fields_accounting (structured_data schema : dict) :
  Agent.first_list_value structured_data <> [] ->
  exists mf : list (string * nat),
    dict_get "missing_fields"
      (Agent._generate_quality_report structured_data schema)
    = Some (JList (map JStr (map Agent.render_missing mf)))
    /\ map fst mf
       = Agent.first_seen []
           (Agent.all_missing_paths (Agent.first_list_value structured_data))
    /\ forall p,
         Agent.count_of p mf
         = Agent.occurrences p
             (Agent.all_missing_paths (Agent.first_list_value structured_data)).
Proof.
  intros Hne. rewrite (quality_report_nonempty _ schema Hne).
  eexists. split; [reflexivity|]. split.
  - apply keys_bump_all.
  - intros p. apply count_of_bump_all.
Qed.

(** When no item has the same path missing twice, the number shown for a
    path is the number of items in which it is missing. *)
Lemma count_is_items_without_repeats (items : list json) (p : string) :
  Forall (fun item => List.NoDup (Agent.missing_paths item "")) items ->
  Agent.count_of p (Agent.bump_all (Agent.all_missing_paths items) [])
  = length (List.filter
              (fun item => existsb (String.eqb p) (Agent.missing_paths item ""))
              items).
Proof.
  intros Hnd. rewrite count_of_bump_all. cbn [Agent.count_of Nat.add].
  unfold Agent.all_missing_paths.
  induction Hnd as [|item r Hitem _ IH]; [reflexivity|].
  cbn [map concat List.filter]. rewrite occurrences_app, IH.
  rewrite (occurrences_NoDup _ _ Hitem).
  destruct (existsb (String.eqb p) (Agent.missing_paths item "")); cbn; lia.
Qed.

(** C6: the code at the failing input.  One item whose two variants both
    lack [sku] is reported as [variants.sku: 2 items], in a report of one
    item: the number is the number of occurrences, not of items. *)
Theorem missing_count_exceeds_items :
  Agent._generate_quality_report
    [("products",
      JList [JDict [("name", JStr "Lamp");
                    ("variants",
                     JList [JDict [("sku", JNull)];
                            JDict [("sku", JStr "")]])]])]
    [("products", JList [JDict [("name", JStr "string")]])]
  = [("total_items", JInt 1);
     ("complete_items", JInt 0);
     ("completion_rate", JFloat (0 # 1000));
     ("missing_fields", JList [JStr "variants.sku: 2 items"]);
     ("errors", JList [])].
Proof. vm_compute. reflexivity. Qed.

(* ===================================================================== *)
(** * Properties of the scraping agent *)
(* ===================================================================== *)

Lemma ErrorCode_of_name_value (c : ErrorCode) :
  ErrorCode_of_name (ErrorCode_value c) = Some c.
Proof. destruct c; reflexivity. Qed.

Lemma grows_refl {W} (s : state W) : grows s s [].
Proof. unfold grows. now rewrite app_nil_r. Qed.

Lemma grows_trans {W} (s s1 s2 : state W) (n1 n2 : list Event) :
  grows s s1 n1 -> grows s1 s2 n2 -> grows s s2 (n1 ++ n2).
Proof. unfold grows. intros H1 H2. now rewrite H2, H1, app_assoc. Qed.

Lemma grows_emit {W} (s : state W) (ev : Event) :
  grows s (mkState (ext s) (trace s ++ [ev])) [ev].
Proof. reflexivity. Qed.

Lemma count_events_app (f : Event -> bool) (l1 l2 : list Event) :
  Agent.count_events f (l1 ++ l2)
  = Agent.count_events f l1 + Agent.count_events f l2.
Proof.
  unfold Agent.count_events. now rewrite List.filter_app, List.length_app.
Qed.

(** As long as the loop condition holds, one more iteration is admitted. *)
Lemma remaining_step (max_pages : json) (page_count : Z) :
  Agent.py_int_lt page_count max_pages = Some true ->
  Agent.remaining max_pages page_count
  = S (Agent.remaining max_pages (page_count + 1)).
Proof.
  destruct max_pages as [|b|z|q| | |]; cbn; try discriminate; intros [= H].
  - destruct b; apply Z.ltb_lt in H; lia.
  - apply Z.ltb_lt in H. lia.
  - apply negb_true_iff in H.
    assert (Hlt : (inject_Z page_count < q)%Q).
    { apply Qnot_le_lt. intros Hle. apply Qle_bool_iff in Hle. congruence. }
    pose proof (Qle_ceiling q) as Hc.
    assert (Hz : (page_count < Qceiling q)%Z).
    { rewrite Zlt_Qlt. eapply Qlt_le_trans; eassumption. }
    lia.
Qed.

Section FuelFacts.
Variable W : Type.
Variable now_iso : W -> string.
Variable perf_counter : W -> Q.
Variable tools : list (string * Server.ToolDefinition W).
Variable chat : LLMRequest -> W -> outcome string * W.
Variable json_loads : string -> option json.
Variable sleep : Q -> W -> W.

(** Fuel beyond what the loop condition admits changes nothing: the loop
    of the model is the loop of the source. *)
Lemma extraction_loop_fuel (session_id : json) (schema : dict)
  (max_pages pagination_enabled : json) (fuel1 : nat) :
  forall (fuel2 : nat) (page_count : Z) (items : list json) (s : state W),
  Agent.remaining max_pages page_count <= fuel1 ->
  Agent.remaining max_pages page_count <= fuel2 ->
  Agent.extraction_loop W now_iso perf_counter tools chat json_loads sleep
    fuel1 session_id schema max_pages pagination_enabled page_count items s
  = Agent.extraction_loop W now_iso perf_counter tools chat json_loads sleep
      fuel2 session_id schema max_pages pagination_enabled page_count items s.
Proof.
  induction fuel1 as [|fuel1 IH]; intros fuel2 page_count items s H1 H2;
    destruct fuel2 as [|fuel2]; cbn [Agent.extraction_loop];
    destruct (Agent.py_int_lt page_count max_pages) as [[|]|] eqn:Hlt;
    try reflexivity;
    try (rewrite (remaining_step _ _ Hlt) in *; lia).
  rewrite (remaining_step _ _ Hlt) in *. unfold bind.
  destruct (Agent.extraction_step W now_iso perf_counter tools chat json_loads
              sleep session_id schema max_pages pagination_enabled
              (page_count + 1) items s) as [[[items1 [|]]|x] s1];
    try reflexivity.
  cbn [fst snd]. apply IH; lia.
Qed.

End FuelFacts.

Section ScraperFacts.
Variable W : Type.
Variable now_iso : W -> string.
Variable perf_counter : W -> Q.
Variable tools : list (string * Server.ToolDefinition W).
Variable chat : LLMRequest -> W -> outcome string * W.
Variable json_loads : string -> option json.
Variable utcnow_iso : W -> string.
Variable sleep : Q -> W -> W.

#[local] Abbreviation call_tool :=
  (Agent._call_tool W now_iso perf_counter tools).

Lemma call_tool_unregistered (name : string) (arguments : dict) (s : state W) :
  Server.registry_get W name tools = None ->
  call_tool name arguments s
  = (Raise (ExToolError
              (mkToolError INTERNAL_ERROR ("Unknown tool: " ++ name) None)),
     s).
Proof.
  intros H. unfold Agent._call_tool, Server.call. rewrite H. reflexivity.
Qed.

Lemma call_tool_registered (name : string) (tool : Server.ToolDefinition W)
  (arguments : dict) (s : state W) :
  Server.registry_get W name tools = Some tool ->
  exists level msg values,
    (msg = "tool_success" \/ msg = "tool_failure"
     \/ msg = "tool_failure_unexpected")
    /\ call_tool name arguments s
       = (match fst (Server.run tool arguments (ext s)) with
          | Ret (session_id, data) => Ret (JStr session_id, JDict data)
          | Raise x => Raise (ExToolError (Agent.seen_error x))
          end,
          mkState (snd (Server.run tool arguments (ext s)))
            (trace s ++ [EvRun name arguments; EvLog level msg values])).
Proof.
  intros H. unfold Agent._call_tool, Server.call. rewrite H. run_monad.
  destruct (Server.run tool arguments (ext s)) as [[[sid data]|x] w];
    cbn [fst snd].
  - do 3 eexists. split; [left; reflexivity|].
    cbn. rewrite <- app_assoc. reflexivity.
  - destruct x as [e|errors text|text].
    + do 3 eexists. split; [right; left; reflexivity|].
      destruct (truthy (py_get "session_id" arguments));
        cbn -[ErrorCode_of_name ErrorCode_value];
        rewrite ErrorCode_of_name_value, <- app_assoc; reflexivity.
    + do 3 eexists. split; [right; right; reflexivity|].
      cbn. rewrite <- app_assoc. reflexivity.
    + do 3 eexists. split; [right; right; reflexivity|].
      cbn. rewrite <- app_assoc. reflexivity.
Qed.


Lemma footprint_app (n1 n2 : list Event) (i1 h1 e1 i2 h2 e2 : nat) :
  Agent.footprint n1 i1 h1 e1 -> Agent.footprint n2 i2 h2 e2 ->
  Agent.footprint (n1 ++ n2) (i1 + i2) (h1 + h2) (e1 + e2).
Proof.
  unfold Agent.footprint. intros (A1 & B1 & C1) (A2 & B2 & C2).
  rewrite !count_events_app. lia.
Qed.

Lemma footprint_nil : Agent.footprint [] 0 0 0.
Proof. repeat split. Qed.

(** A call of a tool through the agent adds no iteration and no
    extraction, reads the HTML at most once, and exactly once when it is a
    successful [get_html]; it raises nothing but a [ToolError]. *)
Lemma call_tool_trace (name : string) (arguments : dict) (s : state W) :
  exists new reads,
    grows s (snd (call_tool name arguments s)) new
    /\ Agent.footprint new 0 reads 0
    /\ reads <= (if String.eqb name "get_html" then 1 else 0)
    /\ (forall v, fst (call_tool name arguments s) = Ret v ->
          reads = if String.eqb name "get_html" then 1 else 0)
    /\ (forall x, fst (call_tool name arguments s) = Raise x ->
          exists e, x = ExToolError e).
Proof.
  destruct (Server.registry_get W name tools) as [tool|] eqn:Hreg.
  - destruct (call_tool_registered name tool arguments s Hreg)
      as (level & msg & values & Hmsg & ->). cbn [fst snd].
    exists [EvRun name arguments; EvLog level msg values],
           (if String.eqb name "get_html" then 1 else 0).
    split; [reflexivity|]. split.
    { unfold Agent.footprint, Agent.count_events. cbn.
      destruct Hmsg as [->|[->| ->]]; destruct level;
        destruct (String.eqb name "get_html"); repeat split. }
    split; [lia|]. split; [reflexivity|].
    intros x Hx.
    destruct (fst (Server.run tool arguments (ext s))) as [[sid data]|y];
      [discriminate|]. injection Hx as <-. eauto.
  - rewrite (call_tool_unregistered name arguments s Hreg). cbn [fst snd].
    exists [], 0. split; [apply grows_refl|]. split; [apply footprint_nil|].
    split; [lia|]. split; [discriminate|].
    intros x [= <-]. eauto.
Qed.


#[local] Abbreviation extract_with_llm :=
  (Agent._extract_with_llm W chat json_loads).
#[local] Abbreviation navigate_to_next_page :=
  (Agent._navigate_to_next_page W now_iso perf_counter tools chat sleep).
#[local] Abbreviation execute_interactions :=
  (Agent._execute_interactions W now_iso perf_counter tools sleep).

(** Closes a goal [grows s s' ?new]: the final trace is rewritten with
    what is known of the intermediate states. *)
Ltac close_grows :=
  unfold grows in *; cbn [fst snd trace ext] in *;
  repeat match goal with
         | H : trace ?s1 = _ |- context [trace ?s1] => rewrite H
         end;
  rewrite <- ?app_assoc; reflexivity.

(** Closes a goal about the Agent.footprint of a list assembled by
    [close_grows]. *)
Ltac close_footprint :=
  unfold Agent.footprint in *; rewrite ?count_events_app; cbn; lia.

(** Brings in what is known of the next tool call of the goal. *)
Ltac next_call_tool new reads Hg Hf Hle Hret Hraise :=
  match goal with
  | |- context [Agent._call_tool ?W0 ?a ?b ?c ?n ?args ?s0] =>
      destruct (call_tool_trace n args s0)
        as (new & reads & Hg & Hf & Hle & Hret & Hraise);
      destruct (Agent._call_tool W0 a b c n args s0) as [[?v|?x] ?s1];
      cbn [fst snd] in Hg, Hret, Hraise;
      cbn [String.eqb Ascii.eqb Bool.eqb] in Hle
  end.

Lemma py_sleep_trace (seconds : Q) (s : state W) :
  exists new,
    grows s (snd (Agent.py_sleep W sleep seconds s)) new
    /\ Agent.footprint new 0 0 0.
Proof.
  unfold Agent.py_sleep. destruct (Qle_bool 0 seconds); run_monad.
  - eexists. split; [close_grows|close_footprint].
  - exists []. split; [apply grows_refl|apply footprint_nil].
Qed.

(** An extraction through the completion service adds at most one
    extraction request and exactly one when it returns. *)
Lemma extract_with_llm_trace (html_content : json) (schema : dict)
  (s : state W) :
  exists new passes,
    grows s (snd (extract_with_llm html_content schema s)) new
    /\ Agent.footprint new 0 0 passes
    /\ passes <= 1
    /\ (forall v, fst (extract_with_llm html_content schema s) = Ret v ->
          passes = 1).
Proof.
  unfold Agent._extract_with_llm.
  destruct (Agent.html_snippet_of html_content) as [snippet|x].
  - run_monad.
    destruct (chat (ExtractionPrompt schema snippet) (ext s)) as [[text|x] w].
    + unfold Agent._parse_llm_response.
      destruct (find_char "{" text) as [i|];
        [destruct (rfind_char "}" text) as [j|];
         [destruct (json_loads (slice i (S j) text))|]|];
        run_monad; eexists _, 1;
        (split; [close_grows|]); (split; [close_footprint|]); split; auto.
    + eexists _, 1. split; [close_grows|]. split; [close_footprint|].
      split; auto.
  - run_monad. exists [], 0. split; [apply grows_refl|].
    split; [apply footprint_nil|]. split; [lia|discriminate].
Qed.

(** The pagination step adds nothing the page budget counts. *)
Lemma navigate_to_next_page_trace (session_id html_content : json)
  (s : state W) :
  exists new,
    grows s (snd (navigate_to_next_page session_id html_content s)) new
    /\ Agent.footprint new 0 0 0.
Proof.
  unfold Agent._navigate_to_next_page.
  destruct (Agent.html_prefix_of html_content) as [html_prefix|x].
  - run_monad.
    destruct (chat (PaginationPrompt html_prefix) (ext s)) as [[content|x] w].
    + destruct (String.eqb (Agent.clean_selector content) "NO_PAGINATION"
                || String.eqb (Agent.clean_selector content) "").
      * eexists. split; [close_grows|close_footprint].
      * next_call_tool new reads Hg Hf Hle Hret Hraise.
        -- match goal with
           | |- context [Agent.py_sleep W sleep 2 ?s0] =>
               destruct (py_sleep_trace 2 s0) as (new2 & Hg2 & Hf2);
               destruct (Agent.py_sleep W sleep 2 s0) as [[[]|y] s2]
           end;
             cbn [snd] in Hg2;
             (eexists; split; [close_grows|close_footprint]).
        -- destruct (Hraise _ eq_refl) as (e & ->).
           destruct (Agent.last_page_code (te_code e));
             (eexists; split; [close_grows|close_footprint]).
    + eexists. split; [close_grows|close_footprint].
  - run_monad. exists []. split; [apply grows_refl|apply footprint_nil].
Qed.


(** The preliminary interactions add nothing the page budget counts. *)
Lemma execute_interactions_trace (session_id : json)
  (interactions : list dict) : forall s : state W,
  exists new,
    grows s (snd (execute_interactions session_id interactions s)) new
    /\ Agent.footprint new 0 0 0.
Proof.
  induction interactions as [|interaction rest IH]; intros s.
  - exists []. split; [apply grows_refl|apply footprint_nil].
  - cbn [Agent._execute_interactions]. unfold bind at 1.
    match goal with
    | |- context [match ?m s with _ => _ end] =>
        assert (Hone : exists new,
                   grows s (snd (m s)) new /\ Agent.footprint new 0 0 0);
        [|destruct Hone as (new1 & Hg1 & Hf1);
          destruct (m s) as [[[]|x] s1]; cbn [snd] in Hg1]
    end.
    + destruct (Agent.json_is_str "click" (py_get "type" interaction)).
      { run_monad. next_call_tool new reads Hg Hf Hle Hret Hraise.
        - eexists. split; [close_grows|close_footprint].
        - destruct (Hraise _ eq_refl) as (e & ->).
          eexists. split; [close_grows|close_footprint]. }
      destruct (Agent.json_is_str "wait" (py_get "type" interaction)).
      { destruct (Agent.seconds_of _) as [seconds|]; run_monad.
        - match goal with
          | |- context [Agent.py_sleep W sleep seconds ?s0] =>
              destruct (py_sleep_trace seconds s0) as (new2 & Hg2 & Hf2);
              destruct (Agent.py_sleep W sleep seconds s0) as [[[]|y] s2]
          end;
            cbn [snd] in Hg2;
            (eexists; split; [close_grows|close_footprint]).
        - exists []. split; [apply grows_refl|apply footprint_nil]. }
      destruct (Agent.json_is_str "scroll" (py_get "type" interaction)).
      { run_monad. eexists. split; [close_grows|close_footprint]. }
      destruct (Agent.json_is_str "fill" (py_get "type" interaction)).
      { run_monad. next_call_tool new reads Hg Hf Hle Hret Hraise.
        - eexists. split; [close_grows|close_footprint].
        - destruct (Hraise _ eq_refl) as (e & ->).
          eexists. split; [close_grows|close_footprint]. }
      run_monad. exists []. split; [apply grows_refl|apply footprint_nil].
    + destruct (IH s1) as (new2 & Hg2 & Hf2).
      eexists. split; [close_grows|close_footprint].
    + eexists. split; [close_grows|close_footprint].
Qed.


#[local] Abbreviation extract_page :=
  (Agent.extract_page W now_iso perf_counter tools chat json_loads).
#[local] Abbreviation extraction_step :=
  (Agent.extraction_step W now_iso perf_counter tools chat json_loads sleep).
#[local] Abbreviation extraction_loop :=
  (Agent.extraction_loop W now_iso perf_counter tools chat json_loads sleep).
#[local] Abbreviation scrape_prelude :=
  (Agent.scrape_prelude W now_iso perf_counter tools sleep).

Lemma scrape_prelude_trace (config : Agent.ScrapingConfig) (s : state W) :
  exists new,
    grows s (snd (scrape_prelude config s)) new /\ Agent.footprint new 0 0 0.
Proof.
  unfold Agent.scrape_prelude, Agent._navigate. run_monad.
  next_call_tool new reads Hg Hf Hle Hret Hraise.
  - destruct (Agent.interactions config) as [|interaction rest].
    + eexists. split; [close_grows|close_footprint].
    + match goal with
      | |- context [Agent._execute_interactions _ _ _ _ _ ?sid ?l ?s0] =>
          destruct (execute_interactions_trace sid l s0) as (new2 & Hg2 & Hf2);
          destruct (Agent._execute_interactions W now_iso perf_counter tools
                      sleep sid l s0) as [[[]|y] s2]
      end; cbn [snd] in Hg2;
        (eexists; split; [close_grows|close_footprint]).
  - eexists. split; [close_grows|close_footprint].
Qed.

(** One pass over a page reads the HTML at most once and then extracts at
    most once; a pass that returns has done both. *)
Lemma extract_page_trace (session_id : json) (schema : dict)
  (all_extracted_data : list json) (s : state W) :
  exists new reads passes,
    grows s (snd (extract_page session_id schema all_extracted_data s)) new
    /\ Agent.footprint new 0 reads passes
    /\ passes <= reads /\ reads <= 1
    /\ (forall v,
          fst (extract_page session_id schema all_extracted_data s) = Ret v ->
          reads = 1 /\ passes = 1).
Proof.
  unfold Agent.extract_page. run_monad.
  next_call_tool new reads Hg Hf Hle Hret Hraise.
  - pose proof (Hret _ eq_refl) as Hr. cbn in Hr. subst reads.
    destruct (Agent.subscript "html" (snd v)) as [html_content|y].
    + destruct (extract_with_llm_trace html_content schema s1)
        as (new2 & passes & Hg2 & Hf2 & Hp & Hpret).
      destruct (Agent._extract_with_llm W chat json_loads html_content schema s1)
        as [[page_data|y] s2]; cbn [fst snd] in Hg2, Hpret.
      * pose proof (Hpret _ eq_refl). subst passes.
        destruct (if truthy page_data
                  then Agent.py_extend all_extracted_data page_data
                  else Some all_extracted_data);
          run_monad; eexists _, 1, 1;
          (split; [close_grows|]); (split; [close_footprint|]);
          repeat split; lia.
      * eexists _, 1, passes. split; [close_grows|].
        split; [close_footprint|]. repeat split; try lia. discriminate.
    + run_monad. eexists _, 1, 0. split; [close_grows|].
      split; [close_footprint|]. repeat split; try lia; discriminate.
  - eexists _, reads, 0. split; [close_grows|]. split; [close_footprint|].
    repeat split; try lia; discriminate.
Qed.

(** The body of the loop opens exactly one iteration. *)
Lemma extraction_step_trace (session_id : json) (schema : dict)
  (max_pages pagination_enabled : json) (page_count : Z)
  (all_extracted_data : list json) (s : state W) :
  exists new reads passes,
    grows s
      (snd (extraction_step session_id schema max_pages pagination_enabled
              page_count all_extracted_data s)) new
    /\ Agent.footprint new 1 reads passes
    /\ passes <= reads /\ reads <= 1
    /\ (forall v,
          fst (extraction_step session_id schema max_pages pagination_enabled
                 page_count all_extracted_data s) = Ret v ->
          reads = 1 /\ passes = 1
          /\ (snd v = true -> truthy pagination_enabled = true)).
Proof.
  unfold Agent.extraction_step. run_monad.
  match goal with
  | |- context [Agent.extract_page _ _ _ _ _ _ _ _ _ ?s0] =>
      destruct (extract_page_trace session_id schema all_extracted_data s0)
        as (new1 & reads & passes & Hg1 & Hf1 & Hpr & Hr1 & Hret1);
      destruct (Agent.extract_page W now_iso perf_counter tools chat json_loads
                  session_id schema all_extracted_data s0) as [[p|x] s1]
  end; cbn [fst snd] in Hg1, Hret1.
  - destruct (Hret1 _ eq_refl) as [-> ->].
    destruct (truthy pagination_enabled
              && match Agent.py_int_lt page_count max_pages with
                 | Some b => b
                 | None => false
                 end) eqn:Hpag.
    + apply andb_true_iff in Hpag. destruct Hpag as [Hpag _].
      destruct (navigate_to_next_page_trace session_id (fst p) s1)
        as (new2 & Hg2 & Hf2).
      destruct (Agent._navigate_to_next_page W now_iso perf_counter tools chat
                  sleep session_id (fst p) s1) as [[[|]|y] s2];
        cbn [snd negb] in *;
        eexists _, 1, 1; (split; [close_grows|]); (split; [close_footprint|]);
        repeat split; try lia; try discriminate; auto.
    + eexists _, 1, 1. split; [close_grows|]. split; [close_footprint|].
      split; [lia|]. split; [lia|]. intros v0 [= <-]. cbn [snd].
      repeat split. discriminate.
  - eexists _, reads, passes. split; [close_grows|]. split; [close_footprint|].
    repeat split; try lia; discriminate.
Qed.


(** The loop opens at most as many iterations as its condition admits,
    reads the HTML at most once in each and extracts at most once after
    each read; when it ends normally every iteration has read and
    extracted; without pagination it makes at most one iteration; and it
    runs out of fuel only when given less than the condition admits. *)
Lemma extraction_loop_trace (session_id : json) (schema : dict)
  (max_pages pagination_enabled : json) (fuel : nat) :
  forall (page_count : Z) (all_extracted_data : list json) (s : state W),
  exists new iterations reads passes,
    grows s
      (snd (extraction_loop fuel session_id schema max_pages
              pagination_enabled page_count all_extracted_data s)) new
    /\ Agent.footprint new iterations reads passes
    /\ passes <= reads /\ reads <= iterations
    /\ iterations <= Agent.remaining max_pages page_count
    /\ (forall r,
          fst (extraction_loop fuel session_id schema max_pages
                 pagination_enabled page_count all_extracted_data s)
          = Ret (Some r) ->
          reads = iterations /\ passes = iterations
          /\ (Agent.py_int_lt page_count max_pages = Some true ->
              1 <= iterations
              /\ (truthy pagination_enabled = false -> iterations = 1)))
    /\ (truthy pagination_enabled = false -> iterations <= 1)
    /\ (fst (extraction_loop fuel session_id schema max_pages
               pagination_enabled page_count all_extracted_data s)
        = Ret None ->
        fuel < Agent.remaining max_pages page_count).
Proof.
  induction fuel as [|fuel IH]; intros page_count all_extracted_data s;
    cbn [Agent.extraction_loop];
    destruct (Agent.py_int_lt page_count max_pages) as [[|]|] eqn:Hlt;
    try (run_monad; exists [], 0, 0, 0;
         split; [apply grows_refl|]; split; [apply footprint_nil|];
         rewrite ?(remaining_step _ _ Hlt);
         split; [lia|]; split; [lia|]; split; [lia|];
         split; [intros r Hr; first [discriminate Hr | repeat split; congruence]|];
         split; [lia|]; intros Hn; first [discriminate Hn | lia]).
  unfold bind.
  destruct (extraction_step_trace session_id schema max_pages
              pagination_enabled (page_count + 1) all_extracted_data s)
    as (new1 & reads1 & passes1 & Hg1 & Hf1 & Hpr1 & Hr1 & Hret1).
  destruct (Agent.extraction_step W now_iso perf_counter tools chat json_loads
              sleep session_id schema max_pages pagination_enabled
              (page_count + 1) all_extracted_data s) as [[[all1 [|]]|x] s1];
    cbn [fst snd] in *; rewrite (remaining_step _ _ Hlt).
  - destruct (Hret1 _ eq_refl) as (-> & -> & Hpag).
    specialize (Hpag eq_refl).
    destruct (IH (page_count + 1)%Z all1 s1)
      as (new2 & i2 & h2 & e2 & Hg2 & Hf2 & Hp2 & Hh2 & Hi2 & Hret2 & Hone2
          & Hfuel2).
    exists (new1 ++ new2)%list, (1 + i2), (1 + h2), (1 + e2).
    split; [now apply grows_trans with s1|].
    split; [now apply footprint_app|].
    split; [lia|]. split; [lia|]. split; [lia|]. split; [|split].
    + intros r Hr. destruct (Hret2 _ Hr) as (? & ? & _).
      split; [lia|]. split; [lia|]. intros _. split; [lia|congruence].
    + congruence.
    + intros Hn. specialize (Hfuel2 Hn). lia.
  - destruct (Hret1 _ eq_refl) as (-> & -> & _).
    exists new1, 1, 1, 1. split; [exact Hg1|]. split; [exact Hf1|].
    split; [lia|]. split; [lia|]. split; [lia|]. split; [|split].
    + intros r _. repeat split; lia.
    + lia.
    + discriminate.
  - exists new1, 1, reads1, passes1. split; [exact Hg1|]. split; [exact Hf1|].
    split; [lia|]. split; [lia|]. split; [lia|]. split; [|split].
    + discriminate.
    + lia.
    + discriminate.
Qed.

#[local] Abbreviation scrape_fuel :=
  (Agent.scrape_fuel W now_iso perf_counter tools chat json_loads utcnow_iso
     sleep).
#[local] Abbreviation scrape :=
  (Agent.scrape W now_iso perf_counter tools chat json_loads utcnow_iso sleep).

#[local] Abbreviation failed := (Agent.failed W).
#[local] Abbreviation success_result := (Agent.success_result W utcnow_iso).

(** [scrape] by cases on what its navigation and interactions and then
    its loop do: an exception from either becomes the error result, and a
    loop that ends normally leads to the success result. *)
Lemma scrape_fuel_cases (fuel : nat) (config : Agent.ScrapingConfig)
  (s : state W) :
  scrape_fuel fuel config s =
  match scrape_prelude config s with
  | (Raise x, s1) => (Ret (Some (Agent.error_result x)), failed x s1)
  | (Ret session_id, s1) =>
      match
        extraction_loop fuel session_id (Agent.schema config)
          (dict_get_default "max_pages" (JInt 1) (Agent.options config))
          (dict_get_default "pagination" (JBool false) (Agent.options config))
          0 [] s1
      with
      | (Raise x, s2) => (Ret (Some (Agent.error_result x)), failed x s2)
      | (Ret None, s2) => (Ret None, s2)
      | (Ret (Some items), s2) => (Ret (Some (success_result config items s2)), s2)
      end
  end.
Proof.
  unfold Agent.scrape_fuel, Agent.scrape_body. unfold attempt, bind at 1 2.
  destruct (scrape_prelude config s) as [[session_id|x] s1]; [|reflexivity].
  unfold bind at 1.
  destruct (extraction_loop _ _ _ _ _ _ _ s1) as [[[items|]|x] s2];
    reflexivity.
Qed.

(** C3.  For a job whose page budget is a positive integer, [scrape]
    returns a result, and between its start and its end the loop opens at
    most [max_pages] iterations, each with at most one read of the HTML and
    at most one extraction after it.  A job that succeeds has read and
    extracted exactly once in every iteration, and a job without
    pagination makes at most one iteration, exactly one when it
    succeeds. *)
Theorem page_budget (config : Agent.ScrapingConfig) (s : state W) (n : Z) :
  dict_get_default "max_pages" (JInt 1) (Agent.options config) = JInt n ->
  (1 <= n)%Z ->
  exists result s' new iterations reads passes,
    scrape config s = (Ret (Some result), s')
    /\ grows s s' new
    /\ Agent.footprint new iterations reads passes
    /\ passes <= reads /\ reads <= iterations
    /\ (Z.of_nat iterations <= n)%Z
    /\ (Agent.status result = "success" ->
        reads = iterations /\ passes = iterations /\ 1 <= iterations)
    /\ (truthy (dict_get_default "pagination" (JBool false)
                  (Agent.options config)) = false ->
        iterations <= 1
        /\ (Agent.status result = "success" ->
            iterations = 1 /\ reads = 1 /\ passes = 1)).
Proof.
  intros Hmax Hn. unfold Agent.scrape. rewrite scrape_fuel_cases, Hmax.
  destruct (scrape_prelude_trace config s) as (new1 & Hg1 & Hf1).
  destruct (scrape_prelude config s) as [[session_id|x] s1]; cbn [snd] in Hg1.
  - destruct (extraction_loop_trace session_id (Agent.schema config) (JInt n)
                (dict_get_default "pagination" (JBool false)
                   (Agent.options config))
                (Agent.loop_budget (JInt n)) 0 [] s1)
      as (new2 & i & h & e & Hg2 & Hf2 & Hp & Hh & Hi & Hret & Hone & Hfuel).
    assert (Hguard : Agent.py_int_lt 0 (JInt n) = Some true).
    { cbn. f_equal. apply Z.ltb_lt. lia. }
    assert (Hrem : Agent.remaining (JInt n) 0 = Z.to_nat n)
      by (cbn; f_equal; lia).
    destruct (extraction_loop _ _ _ _ _ _ _ s1) as [[[items|]|x] s2];
      cbn [fst snd] in *.
    + destruct (Hret _ eq_refl) as (-> & -> & Hexact).
      destruct (Hexact Hguard) as [Hpos Hexact1].
      exists (success_result config items s2), s2, (new1 ++ new2)%list, i, i, i.
      split; [reflexivity|]. split; [now apply grows_trans with s1|].
      split; [apply (footprint_app new1 new2 0 0 0 i i i); assumption|].
      split; [lia|]. split; [lia|]. split; [lia|]. split.
      * intros _. lia.
      * intros Hpag. split; [auto|]. intros _.
        specialize (Hexact1 Hpag). lia.
    + specialize (Hfuel eq_refl). unfold Agent.loop_budget in Hfuel. lia.
    + exists (Agent.error_result x), (failed x s2),
        (new1 ++ new2 ++ [EvLog ERROR "Scraping job failed: {str(e)}"
                            [JStr (exn_str x)]])%list, i, h, e.
      split; [reflexivity|]. split; [unfold Agent.failed; close_grows|].
      split; [close_footprint|].
      split; [lia|]. split; [lia|]. split; [lia|]. split.
      * discriminate.
      * intros Hpag. split; [auto|discriminate].
  - exists (Agent.error_result x), (failed x s1),
      (new1 ++ [EvLog ERROR "Scraping job failed: {str(e)}"
                  [JStr (exn_str x)]])%list, 0, 0, 0.
    split; [reflexivity|]. split; [unfold Agent.failed; close_grows|].
    split; [close_footprint|].
    split; [lia|]. split; [lia|]. split; [lia|]. split.
    + discriminate.
    + intros _. split; [lia|discriminate].
Qed.


Lemma scrape_returns (config : Agent.ScrapingConfig) (s : state W) :
  exists result s',
    scrape config s = (Ret (Some result), s')
    /\ ((Agent.status result = "success" /\ Agent.error result = None)
        \/ exists x, result = Agent.error_result x).
Proof.
  unfold Agent.scrape. rewrite scrape_fuel_cases.
  destruct (scrape_prelude config s) as [[session_id|x] s1]; [|eauto 6].
  match goal with
  | |- context [Agent.extraction_loop _ _ _ _ _ _ _ ?f ?sid ?sch ?mp ?pag _ _ _] =>
      destruct (extraction_loop_trace sid sch mp pag f 0 [] s1)
        as (new & i & h & e & _ & _ & _ & _ & _ & _ & _ & Hfuel);
      destruct (extraction_loop f sid sch mp pag 0 [] s1) as [[[items|]|x] s2]
  end; cbn [fst] in Hfuel.
  - do 2 eexists. split; [reflexivity|]. left. split; reflexivity.
  - specialize (Hfuel eq_refl). unfold Agent.loop_budget in Hfuel. lia.
  - eauto 6.
Qed.

(** A loop iteration that raises ends the loop with that exception,
    whatever has been accumulated. *)
Lemma extraction_loop_raises (fuel : nat) (session_id : json) (schema : dict)
  (max_pages pagination_enabled : json) (page_count : Z) (items : list json)
  (s s1 : state W) (x : exn) :
  Agent.py_int_lt page_count max_pages = Some true ->
  extraction_step session_id schema max_pages pagination_enabled
    (page_count + 1) items s = (Raise x, s1) ->
  extraction_loop (S fuel) session_id schema max_pages pagination_enabled
    page_count items s = (Raise x, s1).
Proof.
  intros Hlt Hstep. cbn [Agent.extraction_loop]. rewrite Hlt.
  unfold bind. now rewrite Hstep.
Qed.

(** An iteration that goes on hands its items to the next one. *)
Lemma extraction_loop_continues (fuel : nat) (session_id : json)
  (schema : dict) (max_pages pagination_enabled : json) (page_count : Z)
  (items items1 : list json) (s s1 : state W) :
  Agent.py_int_lt page_count max_pages = Some true ->
  extraction_step session_id schema max_pages pagination_enabled
    (page_count + 1) items s = (Ret (items1, true), s1) ->
  extraction_loop (S fuel) session_id schema max_pages pagination_enabled
    page_count items s
  = extraction_loop fuel session_id schema max_pages pagination_enabled
      (page_count + 1) items1 s1.
Proof.
  intros Hlt Hstep. cbn [Agent.extraction_loop]. rewrite Hlt.
  unfold bind. now rewrite Hstep.
Qed.

(** An iteration left by [break] ends the loop with its items. *)
Lemma extraction_loop_breaks (fuel : nat) (session_id : json) (schema : dict)
  (max_pages pagination_enabled : json) (page_count : Z)
  (items items1 : list json) (s s1 : state W) :
  Agent.py_int_lt page_count max_pages = Some true ->
  extraction_step session_id schema max_pages pagination_enabled
    (page_count + 1) items s = (Ret (items1, false), s1) ->
  extraction_loop (S fuel) session_id schema max_pages pagination_enabled
    page_count items s = (Ret (Some items1), s1).
Proof.
  intros Hlt Hstep. cbn [Agent.extraction_loop]. rewrite Hlt.
  unfold bind. now rewrite Hstep.
Qed.

(** A failed read of the page raises out of the iteration. *)
Lemma extraction_step_read_fails (session_id : json) (schema : dict)
  (max_pages pagination_enabled : json) (page_count : Z) (items : list json)
  (s s1 : state W) (x : exn) :
  call_tool "get_html" [("session_id", session_id)]
    (mkState (ext s)
       (trace s ++ [EvLog INFO "Extracting data from page {page_count}"
                      [JInt page_count]]))
  = (Raise x, s1) ->
  extraction_step session_id schema max_pages pagination_enabled page_count
    items s = (Raise x, s1).
Proof.
  intros H. unfold Agent.extraction_step, Agent.extract_page. run_monad.
  now rewrite H.
Qed.



(** When the completion service answers with the sentinel or with nothing,
    the pagination step reports no next page and clicks nothing. *)
Lemma next_page_sentinel (session_id html_content html_prefix : json)
  (content : string) (s : state W) (w : W) :
  Agent.html_prefix_of html_content = Ret html_prefix ->
  chat (PaginationPrompt html_prefix) (ext s) = (Ret content, w) ->
  Agent.clean_selector content = "NO_PAGINATION"
  \/ Agent.clean_selector content = "" ->
  navigate_to_next_page session_id html_content s
  = (Ret false, mkState w (trace s ++ [EvChat (PaginationPrompt html_prefix)])).
Proof.
  intros Hp Hc Hsel. unfold Agent._navigate_to_next_page. rewrite Hp.
  run_monad. rewrite Hc.
  destruct Hsel as [-> | ->]; reflexivity.
Qed.

(** When the click on the selector fails, the pagination step reports no
    next page: with an INFO record for an element that is not visible or
    not clickable, with a WARNING for any other failure. *)
Lemma next_page_click_fails (session_id html_content html_prefix : json)
  (content : string) (s s1 : state W) (w : W) (x : exn) :
  Agent.html_prefix_of html_content = Ret html_prefix ->
  chat (PaginationPrompt html_prefix) (ext s) = (Ret content, w) ->
  Agent.clean_selector content <> "NO_PAGINATION" ->
  Agent.clean_selector content <> "" ->
  call_tool "click"
    [("session_id", session_id);
     ("selector", JStr (Agent.clean_selector content))]
    (mkState w
       (trace s
        ++ [EvChat (PaginationPrompt html_prefix);
            EvLog INFO "Attempting pagination with selector: {selector}"
              [JStr (Agent.clean_selector content)]]))
  = (Raise x, s1) ->
  exists e msg values,
    x = ExToolError e
    /\ navigate_to_next_page session_id html_content s
       = (Ret false,
          mkState (ext s1)
            (trace s1
             ++ [EvLog (if Agent.last_page_code (te_code e)
                        then INFO else WARNING) msg values])).
Proof.
  intros Hp Hc Hn1 Hn2 Hclick. unfold Agent._navigate_to_next_page.
  rewrite Hp. run_monad. rewrite Hc.
  destruct (String.eqb_spec (Agent.clean_selector content) "NO_PAGINATION");
    [contradiction|].
  destruct (String.eqb_spec (Agent.clean_selector content) "");
    [contradiction|].
  cbn [orb ext trace fst snd]. rewrite <- app_assoc. cbn [app].
  rewrite Hclick.
  destruct (call_tool_trace "click"
              [("session_id", session_id);
               ("selector", JStr (Agent.clean_selector content))]
              (mkState w
                 (trace s
                  ++ [EvChat (PaginationPrompt html_prefix);
                      EvLog INFO "Attempting pagination with selector: {selector}"
                        [JStr (Agent.clean_selector content)]])))
    as (_ & _ & _ & _ & _ & _ & Hraise).
  rewrite Hclick in Hraise. destruct (Hraise _ eq_refl) as (e & ->).
  exists e. destruct (Agent.last_page_code (te_code e)); eauto.
Qed.

(** An iteration whose pagination step reports no next page is left by
    [break] with the items of its page. *)
Lemma extraction_step_stops (session_id : json) (schema : dict)
  (max_pages pagination_enabled : json) (page_count : Z)
  (items items1 : list json) (html_content : json) (s s1 s2 : state W) :
  truthy pagination_enabled = true ->
  Agent.py_int_lt page_count max_pages = Some true ->
  extract_page session_id schema items
    (mkState (ext s)
       (trace s ++ [EvLog INFO "Extracting data from page {page_count}"
                      [JInt page_count]]))
  = (Ret (html_content, items1), s1) ->
  navigate_to_next_page session_id html_content s1 = (Ret false, s2) ->
  extraction_step session_id schema max_pages pagination_enabled page_count
    items s
  = (Ret (items1, false),
     mkState (ext s2) (trace s2 ++ [EvLog INFO "No more pages to scrape" []])).
Proof.
  intros Hpag Hlt Hpage Hnext. unfold Agent.extraction_step. run_monad.
  rewrite Hpage, Hpag, Hlt. cbn [fst snd andb]. rewrite Hnext. reflexivity.
Qed.

(** A job whose navigation, interactions and loop raise nothing
    succeeds with the items of the loop. *)
Lemma scrape_succeeds (config : Agent.ScrapingConfig) (fuel : nat)
  (session_id : json) (items : list json) (s s1 s2 : state W) :
  scrape_prelude config s = (Ret session_id, s1) ->
  extraction_loop fuel session_id (Agent.schema config)
    (dict_get_default "max_pages" (JInt 1) (Agent.options config))
    (dict_get_default "pagination" (JBool false) (Agent.options config))
    0 [] s1 = (Ret (Some items), s2) ->
  scrape_fuel fuel config s = (Ret (Some (success_result config items s2)), s2).
Proof.
  intros Hp Hl. rewrite scrape_fuel_cases, Hp, Hl. reflexivity.
Qed.


(** The scenario of the specification: pagination enabled, a budget of
    three pages, a first page that is extracted and left through its next
    link, a second page that is extracted and on which the completion
    service answers with the sentinel.  The job succeeds with the items of
    the two pages, after exactly two iterations, two reads and two
    extractions. *)
Lemma sentinel_on_second_page (config : Agent.ScrapingConfig)
  (session_id html2 html_prefix2 : json) (items1 items2 : list json)
  (content : string) (s s1 s2 s3 : state W) (w : W) :
  dict_get_default "max_pages" (JInt 1) (Agent.options config) = JInt 3 ->
  truthy (dict_get_default "pagination" (JBool false) (Agent.options config))
  = true ->
  scrape_prelude config s = (Ret session_id, s1) ->
  extraction_step session_id (Agent.schema config) (JInt 3)
    (dict_get_default "pagination" (JBool false) (Agent.options config))
    1 [] s1 = (Ret (items1, true), s2) ->
  extract_page session_id (Agent.schema config) items1
    (mkState (ext s2)
       (trace s2 ++ [EvLog INFO "Extracting data from page {page_count}"
                       [JInt 2]]))
  = (Ret (html2, items2), s3) ->
  Agent.html_prefix_of html2 = Ret html_prefix2 ->
  chat (PaginationPrompt html_prefix2) (ext s3) = (Ret content, w) ->
  Agent.clean_selector content = "NO_PAGINATION" ->
  exists s' new,
    scrape config s = (Ret (Some (success_result config items2 s')), s')
    /\ Agent.status (success_result config items2 s') = "success"
    /\ grows s s' new
    /\ Agent.footprint new 2 2 2.
Proof.
  intros Hmax Hpag Hprelude Hstep1 Hpage2 Hprefix Hchat Hsel.
  pose proof (next_page_sentinel session_id html2 html_prefix2 content s3 w
                Hprefix Hchat (or_introl Hsel)) as Hnext.
  pose proof (extraction_step_stops session_id (Agent.schema config) (JInt 3)
                _ 2 items1 items2 html2 s2 s3 _ Hpag eq_refl Hpage2 Hnext)
    as Hstep2.
  destruct (scrape_prelude_trace config s) as (new0 & Hg0 & Hf0).
  rewrite Hprelude in Hg0. cbn [snd] in Hg0.
  destruct (extraction_step_trace session_id (Agent.schema config) (JInt 3)
              (dict_get_default "pagination" (JBool false)
                 (Agent.options config)) 1 [] s1)
    as (new1 & r1 & p1 & Hg1 & Hf1 & _ & _ & Hret1).
  rewrite Hstep1 in Hg1, Hret1. cbn [fst snd] in Hg1, Hret1.
  destruct (Hret1 _ eq_refl) as (-> & -> & _).
  destruct (extract_page_trace session_id (Agent.schema config) items1
              (mkState (ext s2)
                 (trace s2 ++ [EvLog INFO "Extracting data from page {page_count}"
                                 [JInt 2]])))
    as (new2 & r2 & p2 & Hg2 & Hf2 & _ & _ & Hret2).
  rewrite Hpage2 in Hg2, Hret2. cbn [fst snd] in Hg2, Hret2.
  destruct (Hret2 _ eq_refl) as (-> & ->).
  eexists _, _. split.
  { unfold Agent.scrape. rewrite Hmax.
    apply scrape_succeeds with session_id s1; [exact Hprelude|].
    rewrite Hmax. change (Agent.loop_budget (JInt 3)) with 3.
    rewrite (extraction_loop_continues 2 session_id (Agent.schema config)
               (JInt 3) _ 0 [] items1 s1 s2 eq_refl Hstep1).
    apply (extraction_loop_breaks 1 session_id (Agent.schema config)
             (JInt 3) _ 1 items1 items2 s2 _ eq_refl Hstep2). }
  split; [reflexivity|].
  split; [close_grows|close_footprint].
Qed.


(** C4.  The pagination step never fails the job.  When the completion
    service answers with the sentinel or with nothing, the step reports no
    next page without clicking; when the click on the selector fails, it
    reports no next page as well, with an INFO record for an element that
    is not visible or not clickable and a WARNING for any other failure.
    An iteration whose pagination step reports no next page is left with
    the items of its page, the loop ends with them, and a job whose loop
    ended succeeds with them.  In particular, with pagination enabled, a
    budget of three pages and the sentinel on the second page, the job
    succeeds after exactly two iterations, reads and extractions. *)
Theorem pagination_never_fatal :
  (forall (session_id html_content html_prefix : json) (content : string)
          (s : state W) (w : W),
     Agent.html_prefix_of html_content = Ret html_prefix ->
     chat (PaginationPrompt html_prefix) (ext s) = (Ret content, w) ->
     Agent.clean_selector content = "NO_PAGINATION"
     \/ Agent.clean_selector content = "" ->
     navigate_to_next_page session_id html_content s
     = (Ret false,
        mkState w (trace s ++ [EvChat (PaginationPrompt html_prefix)])))
  /\ (forall (session_id html_content html_prefix : json) (content : string)
             (s s1 : state W) (w : W) (x : exn),
        Agent.html_prefix_of html_content = Ret html_prefix ->
        chat (PaginationPrompt html_prefix) (ext s) = (Ret content, w) ->
        Agent.clean_selector content <> "NO_PAGINATION" ->
        Agent.clean_selector content <> "" ->
        call_tool "click"
          [("session_id", session_id);
           ("selector", JStr (Agent.clean_selector content))]
          (mkState w
             (trace s
              ++ [EvChat (PaginationPrompt html_prefix);
                  EvLog INFO "Attempting pagination with selector: {selector}"
                    [JStr (Agent.clean_selector content)]]))
        = (Raise x, s1) ->
        exists e msg values,
          x = ExToolError e
          /\ navigate_to_next_page session_id html_content s
             = (Ret false,
                mkState (ext s1)
                  (trace s1
                   ++ [EvLog (if Agent.last_page_code (te_code e)
                              then INFO else WARNING) msg values])))
  /\ (forall (session_id : json) (schema : dict)
             (max_pages pagination_enabled : json) (page_count : Z)
             (items items1 : list json) (html_content : json)
             (s s1 s2 : state W),
        truthy pagination_enabled = true ->
        Agent.py_int_lt page_count max_pages = Some true ->
        extract_page session_id schema items
          (mkState (ext s)
             (trace s ++ [EvLog INFO "Extracting data from page {page_count}"
                            [JInt page_count]]))
        = (Ret (html_content, items1), s1) ->
        navigate_to_next_page session_id html_content s1 = (Ret false, s2) ->
        extraction_step session_id schema max_pages pagination_enabled
          page_count items s
        = (Ret (items1, false),
           mkState (ext s2)
             (trace s2 ++ [EvLog INFO "No more pages to scrape" []])))
  /\ (forall (fuel : nat) (session_id : json) (schema : dict)
             (max_pages pagination_enabled : json) (page_count : Z)
             (items items1 : list json) (s s1 : state W),
        Agent.py_int_lt page_count max_pages = Some true ->
        extraction_step session_id schema max_pages pagination_enabled
          (page_count + 1) items s = (Ret (items1, false), s1) ->
        extraction_loop (S fuel) session_id schema max_pages
          pagination_enabled page_count items s = (Ret (Some items1), s1))
  /\ (forall (config : Agent.ScrapingConfig) (session_id : json)
             (items : list json) (s s1 s2 : state W),
        scrape_prelude config s = (Ret session_id, s1) ->
        extraction_loop
          (Agent.loop_budget
             (dict_get_default "max_pages" (JInt 1) (Agent.options config)))
          session_id (Agent.schema config)
          (dict_get_default "max_pages" (JInt 1) (Agent.options config))
          (dict_get_default "pagination" (JBool false) (Agent.options config))
          0 [] s1 = (Ret (Some items), s2) ->
        scrape config s = (Ret (Some (success_result config items s2)), s2)
        /\ Agent.status (success_result config items s2) = "success")
  /\ (forall (config : Agent.ScrapingConfig)
             (session_id html2 html_prefix2 : json)
             (items1 items2 : list json) (content : string)
             (s s1 s2 s3 : state W) (w : W),
        dict_get_default "max_pages" (JInt 1) (Agent.options config) = JInt 3 ->
        truthy (dict_get_default "pagination" (JBool false)
                  (Agent.options config)) = true ->
        scrape_prelude config s = (Ret session_id, s1) ->
        extraction_step session_id (Agent.schema config) (JInt 3)
          (dict_get_default "pagination" (JBool false) (Agent.options config))
          1 [] s1 = (Ret (items1, true), s2) ->
        extract_page session_id (Agent.schema config) items1
          (mkState (ext s2)
             (trace s2 ++ [EvLog INFO "Extracting data from page {page_count}"
                             [JInt 2]]))
        = (Ret (html2, items2), s3) ->
        Agent.html_prefix_of html2 = Ret html_prefix2 ->
        chat (PaginationPrompt html_prefix2) (ext s3) = (Ret content, w) ->
        Agent.clean_selector content = "NO_PAGINATION" ->
        exists s' new,
          scrape config s = (Ret (Some (success_result config items2 s')), s')
          /\ Agent.status (success_result config items2 s') = "success"
          /\ grows s s' new
          /\ Agent.footprint new 2 2 2).
Proof.
  split; [exact next_page_sentinel|]. split; [exact next_page_click_fails|].
  split; [exact extraction_step_stops|].
  split; [exact extraction_loop_breaks|]. split.
  - intros config session_id items s s1 s2 Hp Hl. split; [|reflexivity].
    now apply scrape_succeeds with session_id s1.
  - exact sentinel_on_second_page.
Qed.

End ScraperFacts.

(** [page_budget] on the catalogue job without pagination and a budget of
    three pages. *)
Lemma page_budget_witness :
  exists result s' new iterations reads passes,
    Scenario.scrape_job (Scenario.job false 3) Scenario.start
    = (Ret (Some result), s')
    /\ grows Scenario.start s' new
    /\ Agent.footprint new iterations reads passes
    /\ passes <= reads /\ reads <= iterations
    /\ (Z.of_nat iterations <= 3)%Z
    /\ (Agent.status result = "success" ->
        reads = iterations /\ passes = iterations /\ 1 <= iterations)
    /\ (truthy (dict_get_default "pagination" (JBool false)
                  (Agent.options (Scenario.job false 3))) = false ->
        iterations <= 1
        /\ (Agent.status result = "success" ->
            iterations = 1 /\ reads = 1 /\ passes = 1)).
Proof.
  apply (page_budget Scenario.world Scenario.now_iso Scenario.perf_counter
           Scenario.registry Scenario.chat Scenario.json_loads
           Scenario.utcnow_iso Scenario.sleep (Scenario.job false 3)
           Scenario.start 3).
  - reflexivity.
  - lia.
Defined.

(** The catalogue job without pagination succeeds with the two items of the
    first page after one iteration. *)
Lemma single_page_job :
  exists result s',
    Scenario.scrape_job (Scenario.job false 3) Scenario.start
    = (Ret (Some result), s')
    /\ Agent.status result = "success"
    /\ Agent.data result
       = [("produits", JList [Scenario.lamp; Scenario.desk])]
    /\ Agent.footprint (trace s') 1 1 1.
Proof. do 2 eexists. split; [vm_compute; reflexivity|]. repeat split. Qed.

(** Outside the data model, a budget of zero pages: the loop is not
    entered and the job succeeds without any extraction. *)
Lemma zero_budget_job :
  exists result s',
    Scenario.scrape_job (Scenario.job false 0) Scenario.start
    = (Ret (Some result), s')
    /\ Agent.status result = "success"
    /\ Agent.data result = [("produits", JList [])]
    /\ Agent.footprint (trace s') 0 0 0.
Proof. do 2 eexists. split; [vm_compute; reflexivity|]. repeat split. Qed.


(** A read that fails on the second page: the two items extracted from
    the first page are not reported, the result is the error result. *)
Lemma partial_items_discarded :
  exists s',
    Scenario.scrape_job_flaky (Scenario.job true 3) Scenario.start
    = (Ret (Some (Agent.mkResult "error" [] []
                    (Some "INTERNAL_ERROR: Target page crashed."))), s')
    /\ Agent.footprint (trace s') 2 2 1.
Proof. eexists. split; [vm_compute; reflexivity|]. repeat split. Qed.

(** [pagination_never_fatal] on the catalogue job with pagination and a
    budget of three pages: the completion service answers with the
    sentinel on the second page, and the job succeeds with the items of
    two pages. *)
Lemma pagination_never_fatal_witness :
  exists s' new,
    Scenario.scrape_job (Scenario.job true 3) Scenario.start
    = (Ret (Some (Agent.success_result Scenario.world Scenario.utcnow_iso
                    (Scenario.job true 3)
                    [Scenario.lamp; Scenario.desk; Scenario.chair] s')), s')
    /\ Agent.status
         (Agent.success_result Scenario.world Scenario.utcnow_iso
            (Scenario.job true 3)
            [Scenario.lamp; Scenario.desk; Scenario.chair] s') = "success"
    /\ grows Scenario.start s' new
    /\ Agent.footprint new 2 2 2.
Proof.
  destruct (pagination_never_fatal Scenario.world Scenario.now_iso
              Scenario.perf_counter Scenario.registry Scenario.chat
              Scenario.json_loads Scenario.utcnow_iso Scenario.sleep)
    as (_ & _ & _ & _ & _ & H).
  eapply (H (Scenario.job true 3)).
  - reflexivity.
  - reflexivity.
  - vm_compute. reflexivity.
  - vm_compute. reflexivity.
  - vm_compute. reflexivity.
  - reflexivity.
  - vm_compute. reflexivity.
  - vm_compute. reflexivity.
Defined.

(* ===================================================================== *)
(** * Further properties of the session boundary and the error taxonomy *)
(* ===================================================================== *)

Section SessionMore.
Variable uuid_hex12 : nat -> string.

Lemma new_id_not_empty (sid : option string) (m : Browser.BrowserManager) :
  Browser.new_id uuid_hex12 sid m <> "".
Proof.
  unfold Browser.new_id, Browser.minted_id.
  destruct sid as [[|a r]|]; discriminate.
Qed.

(** X1.  Continuity: whatever identifier [session] was called with,
    calling it again with the identifier it returned yields the same
    identifier and the same page and changes nothing: no page is created
    and no identifier is drawn. *)
Theorem session_continuity (sid : option string) (m : Browser.BrowserManager) :
  Browser.session uuid_hex12
    (Some (fst (fst (Browser.session uuid_hex12 sid m))))
    (snd (Browser.session uuid_hex12 sid m))
  = (fst (Browser.session uuid_hex12 sid m),
     snd (Browser.session uuid_hex12 sid m)).
Proof.
  destruct (Browser.known sid m) as [[s st]|] eqn:E.
  - destruct (known_Some_inv _ _ _ _ E) as (-> & Hne & Hl).
    unfold Browser.session at 2 3 4 5. rewrite E. cbn [fst snd].
    unfold Browser.session. now rewrite E.
  - rewrite (session_unknown uuid_hex12 _ _ E). cbn [fst snd].
    unfold Browser.session.
    rewrite (known_of_lookup _ (Browser.new_id uuid_hex12 sid m)
               (Browser.mkStoredPage (Browser.next_handle m)
                  (S (Browser.next_handle m)))).
    + reflexivity.
    + apply new_id_not_empty.
    + cbn. apply lookup_insert_eq.
Qed.

Lemma session_isolated (sid : option string) (m : Browser.BrowserManager) :
  Browser.handles_allocated m -> Browser.isolated m ->
  Browser.isolated (snd (Browser.session uuid_hex12 sid m)).
Proof.
  intros Hwf Hiso.
  destruct (Browser.known sid m) as [[s st]|] eqn:E.
  - unfold Browser.session. rewrite E. exact Hiso.
  - rewrite (session_unknown uuid_hex12 _ _ E). cbn [snd].
    intros k1 k2 sp1 sp2 Hne H1 H2. cbn in H1, H2.
    destruct (decide (Browser.new_id uuid_hex12 sid m = k1)) as [E1|N1];
      destruct (decide (Browser.new_id uuid_hex12 sid m = k2)) as [E2|N2].
    + congruence.
    + subst k1. rewrite lookup_insert_eq in H1.
      rewrite lookup_insert_ne in H2 by exact N2.
      injection H1 as <-. destruct (Hwf _ _ H2). cbn. lia.
    + subst k2. rewrite lookup_insert_eq in H2.
      rewrite lookup_insert_ne in H1 by exact N1.
      injection H2 as <-. destruct (Hwf _ _ H1). cbn. lia.
    + rewrite lookup_insert_ne in H1 by exact N1.
      rewrite lookup_insert_ne in H2 by exact N2.
      now apply (Hiso k1 k2).
Qed.

Lemma sessions_run_invariant (calls : list (option string)) :
  forall m : Browser.BrowserManager,
  Browser.handles_allocated m -> Browser.isolated m ->
  Browser.handles_allocated (Browser.sessions_run uuid_hex12 calls m)
  /\ Browser.isolated (Browser.sessions_run uuid_hex12 calls m).
Proof.
  induction calls as [|c r IH]; intros m Hwf Hiso; [now split|].
  cbn [Browser.sessions_run]. apply IH.
  - now apply session_allocated.
  - now apply session_isolated.
Qed.

(** X2.  Isolation: after any run of [session] calls on a fresh manager,
    whatever identifiers are supplied or drawn, no two sessions share a
    page or a browser context, and every stored handle was handed out by
    the engine. *)
Theorem sessions_are_isolated (calls : list (option string)) :
  Browser.handles_allocated (Browser.sessions_run uuid_hex12 calls Browser.init)
  /\ Browser.isolated (Browser.sessions_run uuid_hex12 calls Browser.init).
Proof.
  apply sessions_run_invariant.
  - intros k sp H. cbn in H. rewrite lookup_empty in H. discriminate.
  - intros k1 k2 sp1 sp2 _ H. cbn in H. rewrite lookup_empty in H.
    discriminate.
Qed.

End SessionMore.

(** X3.  The names and values of the error codes are in one-to-one
    correspondence: looking a code up by the value of a code gives that
    code back, a successful lookup returns the code with the given value,
    and two codes with the same value are the same. *)
Theorem ErrorCode_round_trip :
  (forall c, ErrorCode_of_name (ErrorCode_value c) = Some c)
  /\ (forall name c, ErrorCode_of_name name = Some c -> ErrorCode_value c = name)
  /\ (forall c1 c2, ErrorCode_value c1 = ErrorCode_value c2 -> c1 = c2).
Proof.
  split; [intros c; destruct c; reflexivity|]. split.
  - intros name c H. unfold ErrorCode_of_name in H.
    apply find_some in H. destruct H as [_ H].
    apply String.eqb_eq in H. congruence.
  - intros c1 c2 H.
    assert (Some c1 = Some c2) as [= ->]; [|reflexivity].
    destruct c1; destruct c2; try reflexivity; discriminate H.
Qed.

(** X4.  The payload made of any exception has a code and a message; for
    an exception that is not a [ToolError] the code is [INTERNAL_ERROR],
    the message is never empty, and there is nothing else in the
    payload. *)
Theorem to_error_payload_shape (x : exn) :
  exists code message,
    dict_get "code" (to_error_payload x) = Some (JStr code)
    /\ dict_get "message" (to_error_payload x) = Some (JStr message)
    /\ ((forall e, x <> ExToolError e) ->
        code = "INTERNAL_ERROR" /\ message <> ""
        /\ to_error_payload x
           = [("code", JStr code); ("message", JStr message)]).
Proof.
  destruct x as [e|errors text|text].
  - destruct (to_payload_fields e) as (Hc & Hm & _).
    do 2 eexists. split; [exact Hc|]. split; [exact Hm|].
    intros H. now destruct (H e).
  - do 2 eexists. split; [reflexivity|]. split; [reflexivity|].
    intros _. split; [reflexivity|]. split; [|reflexivity].
    cbn. destruct (String.eqb_spec text ""); [discriminate|assumption].
  - do 2 eexists. split; [reflexivity|]. split; [reflexivity|].
    intros _. split; [reflexivity|]. split; [|reflexivity].
    cbn. destruct (String.eqb_spec text ""); [discriminate|assumption].
Qed.

(* ===================================================================== *)
(** * Further properties of the tool service and the dispatcher *)
(* ===================================================================== *)

Lemma to_error_payload_fields (x : exn) :
  exists code message,
    dict_get "code" (to_error_payload x) = Some (JStr code)
    /\ dict_get "message" (to_error_payload x) = Some (JStr message).
Proof.
  destruct x as [e|errors text|text].
  - destruct (to_payload_fields e) as (Hc & Hm & _). eauto.
  - do 2 eexists. split; reflexivity.
  - do 2 eexists. split; reflexivity.
Qed.

Lemma Qtrunc_nonneg (q : Q) : (0 <= q)%Q -> (0 <= Server.Qtrunc q)%Z.
Proof.
  intros H. unfold Server.Qtrunc. apply Z.quot_pos; [|lia].
  destruct q as [n d]. unfold Qle in H. cbn in *. lia.
Qed.

Section ServiceMore.
Variable W : Type.
Variable now_iso : W -> string.
Variable perf_counter : W -> Q.
Variable tools : list (string * Server.ToolDefinition W).

#[local] Abbreviation service_call :=
  (Server.call W now_iso perf_counter tools).

(** X5.  Whatever the name, the arguments and the tool's behaviour, the
    envelope names the tool, carries a [meta] entry whose timestamp is
    read when the envelope is built, and has exactly one of [data] and
    [error]: [data] and a session identifier when [ok] is true, an
    [error] with a code and a message when [ok] is false. *)
Theorem call_envelope_shape (name : string) (arguments : dict) (s : state W) :
  exists env s',
    service_call name arguments s = (Ret env, s')
    /\ dict_get "tool" env = Some (JStr name)
    /\ (exists duration,
          dict_get "meta" env
          = Some (Server.meta (now_iso (ext s')) duration))
    /\ ((dict_get "ok" env = Some (JBool true)
         /\ (exists data, dict_get "data" env = Some (JDict data))
         /\ dict_get "error" env = None
         /\ exists sid, dict_get "session_id" env = Some (JStr sid))
        \/ (dict_get "ok" env = Some (JBool false)
            /\ dict_get "data" env = None
            /\ exists err code message,
                 dict_get "error" env = Some (JDict err)
                 /\ dict_get "code" err = Some (JStr code)
                 /\ dict_get "message" err = Some (JStr message))).
Proof.
  unfold Server.call.
  destruct (Server.registry_get W name tools) as [tool|].
  - run_monad.
    destruct (Server.run tool arguments (ext s)) as [[[sid data]|x] w].
    + do 2 eexists. split; [reflexivity|]. cbn [ext].
      split; [reflexivity|]. split; [eexists; reflexivity|].
      left. repeat split; eexists; reflexivity.
    + assert (Herr : exists err code message,
                 Some (JDict (to_error_payload x)) = Some (JDict err)
                 /\ dict_get "code" err = Some (JStr code)
                 /\ dict_get "message" err = Some (JStr message)).
      { destruct (to_error_payload_fields x) as (code & message & Hc & Hm).
        exists (to_error_payload x), code, message. auto. }
      destruct x as [exc|errors text|text].
      * destruct (truthy (py_get "session_id" arguments));
          do 2 eexists; (split; [reflexivity|]); cbn [ext];
          (split; [reflexivity|]); (split; [eexists; reflexivity|]);
          right; (split; [reflexivity|]); (split; [reflexivity|]);
          exact Herr.
      * do 2 eexists. split; [reflexivity|]. cbn [ext].
        split; [reflexivity|]. split; [eexists; reflexivity|].
        right. split; [reflexivity|]. split; [reflexivity|]. exact Herr.
      * do 2 eexists. split; [reflexivity|]. cbn [ext].
        split; [reflexivity|]. split; [eexists; reflexivity|].
        right. split; [reflexivity|]. split; [reflexivity|]. exact Herr.
  - run_monad. do 2 eexists. split; [reflexivity|].
    split; [reflexivity|]. split; [eexists; reflexivity|].
    right. split; [reflexivity|]. split; [reflexivity|].
    do 3 eexists. repeat split.
Qed.


(** X7.  A call to a registered tool enters the tool once, with the
    arguments as given, and writes one log record after it: at level
    [INFO] for a result or a [ToolError], at level [ERROR] for any other
    exception; the surroundings are left as the tool left them.  A call
    to an unknown name leaves the state as it was: nothing runs and
    nothing is logged. *)
Theorem call_runs_once_and_logs_once (name : string) (arguments : dict)
  (s : state W) :
  match Server.registry_get W name tools with
  | Some tool =>
      exists values,
        snd (service_call name arguments s)
        = mkState (snd (Server.run tool arguments (ext s)))
            (trace s
             ++ [EvRun name arguments;
                 match fst (Server.run tool arguments (ext s)) with
                 | Ret _ => EvLog INFO "tool_success" values
                 | Raise (ExToolError _) => EvLog INFO "tool_failure" values
                 | Raise _ => EvLog ERROR "tool_failure_unexpected" values
                 end])
  | None => snd (service_call name arguments s) = s
  end.
Proof.
  unfold Server.call.
  destruct (Server.registry_get W name tools) as [tool|]; [|reflexivity].
  run_monad.
  destruct (Server.run tool arguments (ext s)) as [[[sid data]|x] w];
    cbn [fst snd].
  - eexists. cbn. rewrite <- ?app_assoc. reflexivity.
  - destruct x as [exc|errors text|text].
    + destruct (truthy (py_get "session_id" arguments));
        eexists; cbn; rewrite <- ?app_assoc; reflexivity.
    + eexists. cbn. rewrite <- ?app_assoc. reflexivity.
    + eexists. cbn. rewrite <- ?app_assoc. reflexivity.
Qed.

End ServiceMore.


Section DispatcherMore.
Variable W : Type.
Variable now_iso : W -> string.
Variable perf_counter : W -> Q.
Variable tools : list (string * Server.ToolDefinition W).
Variable model_validate_json : string -> outcome Server.MCPRequest.
Variable validate_tool_call_params : dict -> outcome (string * dict).
Variable _dumps : dict -> string.

#[local] Abbreviation dispatch :=
  (Server._dispatch W now_iso perf_counter tools model_validate_json
     validate_tool_call_params _dumps).
#[local] Abbreviation serve :=
  (Server.serve_forever W now_iso perf_counter tools model_validate_json
     validate_tool_call_params _dumps).
#[local] Abbreviation handle :=
  (Server.handle W now_iso perf_counter tools validate_tool_call_params).

(** X8.  A line that the request model accepts is always answered: the
    response carries the identifier of the request and exactly one of
    [result] and [error], an error having a code and a message.  When the
    method is [tools/call] and its parameters are rejected, the error
    says [Invalid parameters], carries the validation errors, and the
    state is untouched. *)
Theorem dispatch_well_formed (payload : string) (request : Server.MCPRequest)
  (s : state W) :
  model_validate_json payload = Ret request ->
  exists response s',
    dispatch payload s = (Ret (_dumps (Server.response_payload response)), s')
    /\ Server.id response = Server.req_id request
    /\ ((exists r, Server.result response = Some r
                   /\ Server.error response = None
                   /\ map fst (Server.response_payload response)
                      = ["id"; "result"])
        \/ (exists e code message,
              Server.result response = None
              /\ Server.error response = Some e
              /\ dict_get "code" e = Some (JStr code)
              /\ dict_get "message" e = Some (JStr message)
              /\ map fst (Server.response_payload response)
                 = ["id"; "error"]))
    /\ (forall errors text,
          Server.method request = "tools/call" ->
          validate_tool_call_params (Server.params request)
          = Raise (ExValidation errors text) ->
          s' = s
          /\ Server.error response
             = Some [("code", JStr "INTERNAL_ERROR");
                     ("message", JStr "Invalid parameters");
                     ("details", errors)]).
Proof.
  intros Hparse. unfold Server._dispatch. rewrite Hparse.
  unfold Server.handle, Server.to_json.
  destruct (String.eqb_spec (Server.method request) "initialize") as [E1|N1].
  { run_monad. do 2 eexists. split; [reflexivity|]. split; [reflexivity|].
    split; [left; eexists; repeat split|].
    intros errors text Hm. congruence. }
  destruct (String.eqb_spec (Server.method request) "tools/list") as [E2|N2].
  { run_monad. do 2 eexists. split; [reflexivity|]. split; [reflexivity|].
    split; [left; eexists; repeat split|].
    intros errors text Hm. congruence. }
  destruct (String.eqb_spec (Server.method request) "tools/call") as [E3|N3].
  - destruct (validate_tool_call_params (Server.params request))
      as [[name arguments]|x] eqn:Hv.
    + run_monad.
      destruct (call_returns W now_iso perf_counter tools name arguments s)
        as (env & s1 & ->).
      do 2 eexists. split; [reflexivity|]. split; [reflexivity|].
      split; [left; eexists; repeat split|].
      intros errors text _ [=].
    + run_monad.
      destruct x as [exc|errors text|text].
      * destruct (to_error_payload_fields (ExToolError exc))
          as (code & message & Hc & Hm).
        do 2 eexists. split; [reflexivity|]. split; [reflexivity|].
        split; [right; do 3 eexists; repeat split; eassumption|].
        intros errors text _ [=].
      * do 2 eexists. split; [reflexivity|]. split; [reflexivity|].
        split; [right; do 3 eexists; repeat split|].
        intros errors' text' _ [= <- _]. split; reflexivity.
      * destruct (to_error_payload_fields (ExOther text))
          as (code & message & Hc & Hm).
        do 2 eexists. split; [reflexivity|]. split; [reflexivity|].
        split; [right; do 3 eexists; repeat split; eassumption|].
        intros errors text' _ [=].
  - run_monad. do 2 eexists. split; [reflexivity|]. split; [reflexivity|].
    split; [right; do 3 eexists; repeat split|].
    intros errors text Hm. congruence.
Qed.

(** X9.  Blank lines are invisible: the loop over a stream writes the
    same responses and ends in the same state as the loop over the
    stream without its blank lines. *)
Theorem serve_ignores_blank_lines (stdin : list string) :
  forall s : state W,
    serve stdin s = serve (List.filter non_blank stdin) s.
Proof.
  induction stdin as [|raw rest IH]; intros s; [reflexivity|].
  cbn [List.filter]. unfold non_blank at 1.
  destruct (String.eqb (py_strip raw) "") eqn:E; cbn [negb].
  - rewrite serve_cons, E. apply IH.
  - rewrite !serve_cons, E.
    destruct (dispatch (py_strip raw) s) as [[line|x] s1]; [|reflexivity].
    now rewrite IH.
Qed.

End DispatcherMore.

(** [dispatch_well_formed] on an [initialize] request. *)
Lemma dispatch_well_formed_witness :
  exists response s',
    Server._dispatch Scenario.world Scenario.now_iso Scenario.perf_counter
      Scenario.registry Scenario.model_validate_json
      Scenario.validate_tool_call_params Scenario.dumps
      "{id:1,method:initialize}" Scenario.start
    = (Ret (Scenario.dumps (Server.response_payload response)), s')
    /\ Server.id response = JInt 1.
Proof.
  destruct (dispatch_well_formed Scenario.world Scenario.now_iso
              Scenario.perf_counter Scenario.registry
              Scenario.model_validate_json Scenario.validate_tool_call_params
              Scenario.dumps "{id:1,method:initialize}"
              (Server.mkRequest (JInt 1) "initialize" []) Scenario.start
              eq_refl)
    as (response & s' & Hd & Hid & _).
  exists response, s'. split; [exact Hd|exact Hid].
Defined.

(* ===================================================================== *)
(** * Further properties of the scraping agent *)
(* ===================================================================== *)

Lemma py_extend_appends (acc acc' : list json) (page_data : json) :
  (if truthy page_data then Agent.py_extend acc page_data else Some acc)
  = Some acc' ->
  exists added, acc' = (acc ++ added)%list.
Proof.
  destruct (truthy page_data).
  - destruct page_data; cbn; try discriminate; intros [= <-]; eauto.
  - intros [= <-]. exists []. now rewrite app_nil_r.
Qed.

Lemma bind_eval {W A B} (m : M W A) (k : A -> M W B) (s : state W) :
  bind m k s
  = match m s with
    | (Ret a, s1) => k a s1
    | (Raise x, s1) => (Raise x, s1)
    end.
Proof. reflexivity. Qed.

Section AgentMore.
Variable W : Type.
Variable now_iso : W -> string.
Variable perf_counter : W -> Q.
Variable tools : list (string * Server.ToolDefinition W).
Variable chat : LLMRequest -> W -> outcome string * W.
Variable json_loads : string -> option json.
Variable utcnow_iso : W -> string.
Variable sleep : Q -> W -> W.

#[local] Abbreviation call_tool :=
  (Agent._call_tool W now_iso perf_counter tools).
#[local] Abbreviation execute_interactions :=
  (Agent._execute_interactions W now_iso perf_counter tools sleep).
#[local] Abbreviation navigate_to_next_page :=
  (Agent._navigate_to_next_page W now_iso perf_counter tools chat sleep).
#[local] Abbreviation extract_page :=
  (Agent.extract_page W now_iso perf_counter tools chat json_loads).
#[local] Abbreviation extraction_step :=
  (Agent.extraction_step W now_iso perf_counter tools chat json_loads sleep).
#[local] Abbreviation extraction_loop :=
  (Agent.extraction_loop W now_iso perf_counter tools chat json_loads sleep).
#[local] Abbreviation scrape_prelude :=
  (Agent.scrape_prelude W now_iso perf_counter tools sleep).
#[local] Abbreviation scrape :=
  (Agent.scrape W now_iso perf_counter tools chat json_loads utcnow_iso sleep).
#[local] Abbreviation failed := (Agent.failed W).

(** X10.  What the agent sees of a tool call, by cases: an unknown tool
    and every failure reach it as a [ToolError] and as nothing else; the
    code of a tool's [ToolError] survives the passage through the
    envelope, its details do not; any other exception comes out as
    [INTERNAL_ERROR] with the exception's text, or [Internal error] when
    there is none. *)
Theorem call_tool_failure_translation (name : string) (arguments : dict)
  (s : state W) :
  fst (call_tool name arguments s)
  = match Server.registry_get W name tools with
    | None =>
        Raise (ExToolError
                 (mkToolError INTERNAL_ERROR ("Unknown tool: " ++ name) None))
    | Some tool =>
        match fst (Server.run tool arguments (ext s)) with
        | Ret (session_id, data) => Ret (JStr session_id, JDict data)
        | Raise (ExToolError e) =>
            Raise (ExToolError (mkToolError (te_code e) (te_message e) None))
        | Raise x =>
            Raise (ExToolError
                     (mkToolError INTERNAL_ERROR
                        (if String.eqb (exn_str x) ""
                         then "Internal error" else exn_str x)
                        None))
        end
    end.
Proof.
  destruct (Server.registry_get W name tools) as [tool|] eqn:Hreg.
  - destruct (call_tool_registered W now_iso perf_counter tools name tool
                arguments s Hreg) as (level & msg & values & _ & ->).
    cbn [fst].
    destruct (fst (Server.run tool arguments (ext s))) as [[sid data]|x];
      [reflexivity|].
    destruct x; reflexivity.
  - now rewrite (call_tool_unregistered W now_iso perf_counter tools name
                   arguments s Hreg).
Qed.

(** X11.  A completion in which no JSON object can be found or decoded
    does not fail the pass over the page: the pass returns the page's
    HTML and the items accumulated so far, unchanged. *)
Theorem unparsable_completion_adds_nothing (session_id : json) (schema : dict)
  (items : list json) (s s1 : state W) (r : json * json)
  (html_content html_snippet : json) (response_text : string) (w : W) :
  call_tool "get_html" [("session_id", session_id)] s = (Ret r, s1) ->
  Agent.subscript "html" (snd r) = Ret html_content ->
  Agent.html_snippet_of html_content = Ret html_snippet ->
  chat (ExtractionPrompt schema html_snippet) (ext s1) = (Ret response_text, w) ->
  match find_char "{" response_text, rfind_char "}" response_text with
  | Some start_idx, Some end_idx =>
      json_loads (slice start_idx (S end_idx) response_text) = None
  | _, _ => True
  end ->
  exists s2,
    extract_page session_id schema items s = (Ret (html_content, items), s2)
    /\ ext s2 = w.
Proof.
  intros Hcall Hsub Hsnip Hchat Hbad.
  unfold Agent.extract_page. unfold bind at 1. rewrite Hcall, Hsub.
  unfold Agent._extract_with_llm. rewrite Hsnip. run_monad. rewrite Hchat.
  unfold Agent._parse_llm_response.
  destruct (find_char "{" response_text) as [i|].
  - destruct (rfind_char "}" response_text) as [j|].
    + rewrite Hbad. run_monad. eexists. split; reflexivity.
    + run_monad. eexists. split; reflexivity.
  - run_monad. eexists. split; reflexivity.
Qed.

Lemma extract_page_appends (session_id : json) (schema : dict)
  (items items1 : list json) (html_content : json) (s s1 : state W) :
  extract_page session_id schema items s = (Ret (html_content, items1), s1) ->
  exists added, items1 = (items ++ added)%list.
Proof.
  unfold Agent.extract_page, bind.
  destruct (call_tool _ _ s) as [[r|x] s0]; [|discriminate].
  destruct (Agent.subscript "html" (snd r)) as [html|x]; [|discriminate].
  destruct (Agent._extract_with_llm W chat json_loads html schema s0)
    as [[page_data|x] s2]; [|discriminate].
  destruct (if truthy page_data then Agent.py_extend items page_data
            else Some items) as [acc|] eqn:E; [|discriminate].
  intros [= _ <- _]. now apply py_extend_appends with page_data.
Qed.

Lemma extraction_step_appends (session_id : json) (schema : dict)
  (max_pages pagination_enabled : json) (page_count : Z)
  (items items1 : list json) (more : bool) (s s1 : state W) :
  extraction_step session_id schema max_pages pagination_enabled page_count
    items s = (Ret (items1, more), s1) ->
  exists added, items1 = (items ++ added)%list.
Proof.
  unfold Agent.extraction_step. run_monad.
  match goal with
  | |- context [Agent.extract_page _ _ _ _ _ _ ?sid ?sch ?it ?s0] =>
      destruct (Agent.extract_page W now_iso perf_counter tools chat
                  json_loads sid sch it s0) as [[[html acc]|x] s2] eqn:E
  end; [|discriminate].
  apply extract_page_appends in E. cbn [fst snd].
  destruct (truthy pagination_enabled && _).
  - destruct (navigate_to_next_page session_id html s2) as [[[|]|x] s3];
      cbn; intros [=]; subst; exact E.
  - intros [=]. subst. exact E.
Qed.


Lemma call_tool_raises_tool_error (name : string) (arguments : dict)
  (s s1 : state W) (x : exn) :
  call_tool name arguments s = (Raise x, s1) -> exists e, x = ExToolError e.
Proof.
  intros H.
  destruct (call_tool_trace W now_iso perf_counter tools name arguments s)
    as (_ & _ & _ & _ & _ & _ & Hraise).
  apply Hraise. now rewrite H.
Qed.

(** One interaction, as the body of the loop of [_execute_interactions]
    runs it, returns exactly when it is not a [wait] with a bad
    duration. *)
Lemma interaction_returns (session_id : json) (interaction : dict)
  (rest : list dict) (s : state W) :
  (if Agent.wait_ok interaction then
     exists s1,
       execute_interactions session_id (interaction :: rest) s
       = execute_interactions session_id rest s1
   else
     exists x s1,
       execute_interactions session_id (interaction :: rest) s = (Raise x, s1)).
Proof.
  cbn [Agent._execute_interactions]. unfold Agent.wait_ok.
  destruct (Agent.json_is_str "click" (py_get "type" interaction)) eqn:Hc.
  { assert (Hw : Agent.json_is_str "wait" (py_get "type" interaction) = false).
    { destruct (py_get "type" interaction); try reflexivity. cbn in *.
      apply String.eqb_eq in Hc. now subst. }
    rewrite Hw. run_monad.
    destruct (call_tool "click" _ s) as [[v|x] s1] eqn:E.
    - eexists. reflexivity.
    - destruct (call_tool_raises_tool_error _ _ _ _ _ E) as (e & ->).
      eexists. reflexivity. }
  destruct (Agent.json_is_str "wait" (py_get "type" interaction)) eqn:Hw.
  { destruct (Agent.seconds_of _) as [seconds|].
    - unfold Agent.py_sleep.
      destruct (Qle_bool 0 seconds); run_monad; eauto.
    - run_monad. eauto. }
  destruct (Agent.json_is_str "scroll" (py_get "type" interaction)).
  { run_monad. eauto. }
  destruct (Agent.json_is_str "fill" (py_get "type" interaction)).
  { run_monad.
    destruct (call_tool "fill" _ s) as [[v|x] s1] eqn:E.
    - eexists. reflexivity.
    - destruct (call_tool_raises_tool_error _ _ _ _ _ E) as (e & ->).
      eexists. reflexivity. }
  run_monad. eauto.
Qed.


(** X14.  The interactions of a list cut in two are those of the first
    part followed, when they return, by those of the second. *)
Theorem execute_interactions_app (session_id : json) (l1 l2 : list dict) :
  forall s : state W,
    execute_interactions session_id (l1 ++ l2) s
    = match execute_interactions session_id l1 s with
      | (Ret _, s1) => execute_interactions session_id l2 s1
      | (Raise x, s1) => (Raise x, s1)
      end.
Proof.
  induction l1 as [|interaction rest IH]; intros s; [reflexivity|].
  rewrite <- app_comm_cons. cbn [Agent._execute_interactions].
  match goal with
  | |- bind ?m _ s = _ =>
      rewrite !(bind_eval m); destruct (m s) as [[[]|x] s1]
  end; [apply IH|reflexivity].
Qed.

(** X15.  A page budget that is not a number fails the job, after the
    navigation and the interactions and before any page is read: the
    result is the error result of the comparison's [TypeError]. *)
Theorem non_numeric_budget_fails (config : Agent.ScrapingConfig)
  (session_id : json) (s s1 : state W) :
  Agent.py_int_lt 0 (dict_get_default "max_pages" (JInt 1)
                       (Agent.options config)) = None ->
  scrape_prelude config s = (Ret session_id, s1) ->
  scrape config s
  = (Ret (Some (Agent.mkResult "error" [] []
                  (Some ("'<' not supported between instances of 'int' and '"
                         ++ Agent.type_name
                              (dict_get_default "max_pages" (JInt 1)
                                 (Agent.options config))
                         ++ "'")))),
     failed
       (Agent.lt_type_error
          (dict_get_default "max_pages" (JInt 1) (Agent.options config)))
       s1).
Proof.
  intros Hlt Hpre. unfold Agent.scrape.
  rewrite (scrape_fuel_cases W now_iso perf_counter tools chat json_loads
             utcnow_iso sleep), Hpre.
  destruct (Agent.loop_budget _); cbn [Agent.extraction_loop];
    rewrite Hlt; reflexivity.
Qed.

(* --- the pagination requests of a job --------------------------------- *)

#[local] Abbreviation probes := (Agent.count_events Agent.is_pagination_probe).

Ltac close_probes :=
  rewrite ?count_events_app; cbn;
  repeat match goal with
         | H : probes _ = _ |- _ => rewrite H
         end;
  try lia.

Lemma call_tool_probes (name : string) (arguments : dict) (s : state W) :
  exists new,
    grows s (snd (call_tool name arguments s)) new /\ probes new = 0.
Proof.
  destruct (Server.registry_get W name tools) as [tool|] eqn:Hreg.
  - destruct (call_tool_registered W now_iso perf_counter tools name tool
                arguments s Hreg) as (level & msg & values & _ & ->).
    eexists. split; reflexivity.
  - rewrite (call_tool_unregistered W now_iso perf_counter tools name
               arguments s Hreg).
    exists []. split; [apply grows_refl|reflexivity].
Qed.

Ltac next_call_probes new Hg Hp :=
  match goal with
  | |- context [Agent._call_tool ?W0 ?a ?b ?c ?n ?args ?s0] =>
      destruct (call_tool_probes n args s0) as (new & Hg & Hp);
      destruct (Agent._call_tool W0 a b c n args s0) as [[?v|?x] ?s1] eqn:?E;
      cbn [fst snd] in Hg
  end.

Ltac grows_step :=
  cbv [ret raise]; unfold grows in *; cbn [fst snd trace ext] in *;
  repeat match goal with
         | H : trace ?s1 = _ |- context [trace ?s1] => rewrite H
         end;
  rewrite <- ?app_assoc; reflexivity.

Lemma py_sleep_probes (seconds : Q) (s : state W) :
  exists new,
    grows s (snd (Agent.py_sleep W sleep seconds s)) new /\ probes new = 0.
Proof.
  unfold Agent.py_sleep. destruct (Qle_bool 0 seconds); run_monad.
  - eexists. split; [grows_step|reflexivity].
  - exists []. split; [apply grows_refl|reflexivity].
Qed.

Lemma execute_interactions_probes (session_id : json)
  (interactions : list dict) : forall s : state W,
  exists new,
    grows s (snd (execute_interactions session_id interactions s)) new
    /\ probes new = 0.
Proof.
  induction interactions as [|interaction rest IH]; intros s.
  - exists []. split; [apply grows_refl|reflexivity].
  - cbn [Agent._execute_interactions]. unfold bind at 1.
    match goal with
    | |- context [match ?m s with _ => _ end] =>
        assert (Hone : exists new,
                   grows s (snd (m s)) new /\ probes new = 0);
        [|destruct Hone as (new1 & Hg1 & Hp1);
          destruct (m s) as [[[]|x] s1]; cbn [snd] in Hg1]
    end.
    + destruct (Agent.json_is_str "click" (py_get "type" interaction)).
      { run_monad. next_call_probes new Hg Hp.
        - eexists. split; [grows_step|close_probes].
        - destruct (call_tool_raises_tool_error _ _ _ _ _ E) as (e & ->).
          eexists. split; [grows_step|close_probes]. }
      destruct (Agent.json_is_str "wait" (py_get "type" interaction)).
      { destruct (Agent.seconds_of _) as [seconds|]; run_monad.
        - match goal with
          | |- context [Agent.py_sleep W sleep seconds ?s0] =>
              destruct (py_sleep_probes seconds s0) as (new2 & Hg2 & Hp2);
              destruct (Agent.py_sleep W sleep seconds s0) as [[[]|y] s2]
          end;
            cbn [snd] in Hg2;
            (eexists; split; [grows_step|close_probes]).
        - exists []. split; [apply grows_refl|reflexivity]. }
      destruct (Agent.json_is_str "scroll" (py_get "type" interaction)).
      { run_monad. eexists. split; [grows_step|reflexivity]. }
      destruct (Agent.json_is_str "fill" (py_get "type" interaction)).
      { run_monad. next_call_probes new Hg Hp.
        - eexists. split; [grows_step|close_probes].
        - destruct (call_tool_raises_tool_error _ _ _ _ _ E) as (e & ->).
          eexists. split; [grows_step|close_probes]. }
      run_monad. exists []. split; [apply grows_refl|reflexivity].
    + destruct (IH s1) as (new2 & Hg2 & Hp2).
      eexists. split; [grows_step|close_probes].
    + eexists. split; [grows_step|close_probes].
Qed.

Lemma scrape_prelude_probes (config : Agent.ScrapingConfig) (s : state W) :
  exists new,
    grows s (snd (scrape_prelude config s)) new /\ probes new = 0.
Proof.
  unfold Agent.scrape_prelude, Agent._navigate. run_monad.
  next_call_probes new Hg Hp.
  - destruct (Agent.interactions config) as [|interaction rest].
    + eexists. split; [grows_step|close_probes].
    + match goal with
      | |- context [Agent._execute_interactions _ _ _ _ _ ?sid ?l ?s0] =>
          destruct (execute_interactions_probes sid l s0) as (new2 & Hg2 & Hp2);
          destruct (Agent._execute_interactions W now_iso perf_counter tools
                      sleep sid l s0) as [[[]|y] s2]
      end; cbn [snd] in Hg2;
        (eexists; split; [grows_step|close_probes]).
  - eexists. split; [grows_step|close_probes].
Qed.

Lemma extract_page_probes (session_id : json) (schema : dict)
  (items : list json) (s : state W) :
  exists new,
    grows s (snd (extract_page session_id schema items s)) new
    /\ probes new = 0.
Proof.
  unfold Agent.extract_page. run_monad.
  next_call_probes new Hg Hp.
  - destruct (Agent.subscript "html" (snd v)) as [html_content|y].
    + unfold Agent._extract_with_llm.
      destruct (Agent.html_snippet_of html_content) as [snippet|y].
      * run_monad.
        destruct (chat (ExtractionPrompt schema snippet) (ext s1))
          as [[text|y] w].
        -- unfold Agent._parse_llm_response.
           destruct (find_char "{" text) as [i|];
             [destruct (rfind_char "}" text) as [j|];
              [destruct (json_loads (slice i (S j) text)) as [parsed|]|]|];
             run_monad;
             match goal with
             | |- context [if truthy ?pd then _ else _] =>
                 destruct (if truthy pd then Agent.py_extend items pd
                           else Some items)
             end; run_monad;
             (eexists; split; [grows_step|close_probes]).
        -- eexists. split; [grows_step|close_probes].
      * run_monad. eexists. split; [grows_step|close_probes].
    + run_monad. eexists. split; [grows_step|close_probes].
  - eexists. split; [grows_step|close_probes].
Qed.

Lemma navigate_to_next_page_probes (session_id html_content : json)
  (s : state W) :
  exists new,
    grows s (snd (navigate_to_next_page session_id html_content s)) new
    /\ probes new <= 1.
Proof.
  unfold Agent._navigate_to_next_page.
  destruct (Agent.html_prefix_of html_content) as [html_prefix|x].
  - run_monad.
    destruct (chat (PaginationPrompt html_prefix) (ext s)) as [[content|x] w].
    + destruct (String.eqb (Agent.clean_selector content) "NO_PAGINATION"
                || String.eqb (Agent.clean_selector content) "").
      * eexists. split; [grows_step|close_probes].
      * next_call_probes new Hg Hp.
        -- match goal with
           | |- context [Agent.py_sleep W sleep 2 ?s0] =>
               destruct (py_sleep_probes 2 s0) as (new2 & Hg2 & Hp2);
               destruct (Agent.py_sleep W sleep 2 s0) as [[[]|y] s2]
           end;
             cbn [snd] in Hg2;
             (eexists; split; [grows_step|close_probes]).
        -- destruct (call_tool_raises_tool_error _ _ _ _ _ E) as (e & ->).
           destruct (Agent.last_page_code (te_code e));
             (eexists; split; [grows_step|close_probes]).
    + eexists. split; [grows_step|close_probes].
  - run_monad. exists []. split; [apply grows_refl|cbn; lia].
Qed.

(** An iteration asks for the next page at most once, and not at all
    without pagination or on the last page of the budget. *)
Lemma extraction_step_probes (session_id : json) (schema : dict)
  (max_pages pagination_enabled : json) (page_count : Z)
  (items : list json) (s : state W) :
  exists new,
    grows s
      (snd (extraction_step session_id schema max_pages pagination_enabled
              page_count items s)) new
    /\ probes new
       <= (if truthy pagination_enabled
              && match Agent.py_int_lt page_count max_pages with
                 | Some b => b
                 | None => false
                 end
           then 1 else 0)
    /\ (forall v,
          fst (extraction_step session_id schema max_pages pagination_enabled
                 page_count items s) = Ret v ->
          snd v = true ->
          truthy pagination_enabled = true
          /\ Agent.py_int_lt page_count max_pages = Some true).
Proof.
  unfold Agent.extraction_step. run_monad.
  match goal with
  | |- context [Agent.extract_page _ _ _ _ _ _ _ _ _ ?s0] =>
      destruct (extract_page_probes session_id schema items s0)
        as (new1 & Hg1 & Hp1);
      destruct (Agent.extract_page W now_iso perf_counter tools chat json_loads
                  session_id schema items s0) as [[p|x] s1]
  end; cbn [fst snd] in Hg1.
  - destruct (truthy pagination_enabled) eqn:Hpag; cbn [andb].
    + destruct (Agent.py_int_lt page_count max_pages) as [[|]|] eqn:Hlt.
      * destruct (navigate_to_next_page_probes session_id (fst p) s1)
          as (new2 & Hg2 & Hp2).
        destruct (navigate_to_next_page session_id (fst p) s1)
          as [[[|]|y] s2]; cbn [fst snd negb] in *;
          (eexists; split; [grows_step|]); (split; [close_probes|]);
          try discriminate; intros v [= <-]; cbn; try discriminate; auto.
      * eexists. split; [grows_step|]. split; [close_probes|].
        intros v [= <-]. discriminate.
      * eexists. split; [grows_step|]. split; [close_probes|].
        intros v [= <-]. discriminate.
    + eexists. split; [grows_step|]. split; [close_probes|].
      intros v [= <-]. discriminate.
  - eexists. split; [grows_step|]. split; [close_probes|]. discriminate.
Qed.

Lemma extraction_loop_probes (session_id : json) (schema : dict)
  (max_pages pagination_enabled : json) (fuel : nat) :
  forall (page_count : Z) (items : list json) (s : state W),
  exists new,
    grows s
      (snd (extraction_loop fuel session_id schema max_pages
              pagination_enabled page_count items s)) new
    /\ probes new <= Nat.pred (Agent.remaining max_pages page_count)
    /\ (truthy pagination_enabled = false -> probes new = 0).
Proof.
  induction fuel as [|fuel IH]; intros page_count items s;
    cbn [Agent.extraction_loop];
    destruct (Agent.py_int_lt page_count max_pages) as [[|]|] eqn:Hlt;
    try (exists []; split; [apply grows_refl|]; split; [cbn; lia|reflexivity]).
  rewrite (remaining_step _ _ Hlt). cbn [Nat.pred]. unfold bind.
  destruct (extraction_step_probes session_id schema max_pages
              pagination_enabled (page_count + 1) items s)
    as (new1 & Hg1 & Hp1 & Hmore).
  destruct (extraction_step session_id schema max_pages pagination_enabled
              (page_count + 1) items s) as [[[acc more]|x] s1];
    cbn [fst snd] in *.
  - destruct more.
    + destruct (Hmore _ eq_refl eq_refl) as [Hpag Hlt1].
      rewrite Hpag, Hlt1 in Hp1. cbn in Hp1.
      destruct (IH (page_count + 1)%Z acc s1) as (new2 & Hg2 & Hp2 & Hoff).
      pose proof (remaining_step _ _ Hlt1) as Hrem.
      eexists. split; [grows_step|]. split.
      * rewrite count_events_app. rewrite Hrem in *. cbn [Nat.pred] in Hp2. lia.
      * congruence.
    + eexists. split; [grows_step|]. split.
      * rewrite ?app_nil_r.
        destruct (truthy pagination_enabled); cbn [andb] in Hp1; [|lia].
        destruct (Agent.py_int_lt (page_count + 1) max_pages) as [[|]|] eqn:Hlt1;
          [|lia|lia].
        rewrite (remaining_step _ _ Hlt1). lia.
      * intros Hoff. rewrite Hoff in Hp1. cbn in Hp1. rewrite ?app_nil_r. lia.
  - eexists. split; [grows_step|]. split.
    + rewrite ?app_nil_r.
      destruct (truthy pagination_enabled); cbn [andb] in Hp1; [|lia].
      destruct (Agent.py_int_lt (page_count + 1) max_pages) as [[|]|] eqn:Hlt1;
        [|lia|lia].
      rewrite (remaining_step _ _ Hlt1). lia.
    + intros Hoff. rewrite Hoff in Hp1. cbn in Hp1. rewrite ?app_nil_r. lia.
Qed.

(** X16.  A job with a budget of [n] pages asks the completion service
    for the next page at most [n - 1] times: never on the last page of
    the budget, and never at all when pagination is off. *)
Theorem pagination_probe_budget (config : Agent.ScrapingConfig) (s : state W)
  (n : Z) :
  dict_get_default "max_pages" (JInt 1) (Agent.options config) = JInt n ->
  (1 <= n)%Z ->
  exists result s' new,
    scrape config s = (Ret (Some result), s')
    /\ grows s s' new
    /\ (Z.of_nat (probes new) <= n - 1)%Z
    /\ (truthy (dict_get_default "pagination" (JBool false)
                  (Agent.options config)) = false ->
        probes new = 0).
Proof.
  intros Hmax Hn.
  destruct (scrape_returns W now_iso perf_counter tools chat json_loads
              utcnow_iso sleep config s) as (result & s' & Hs & _).
  exists result, s'.
  assert (Hnew : exists new,
             grows s s' new
             /\ (Z.of_nat (probes new) <= n - 1)%Z
             /\ (truthy (dict_get_default "pagination" (JBool false)
                           (Agent.options config)) = false ->
                 probes new = 0));
    [|destruct Hnew as (new & Hnew); exists new; split; [exact Hs|exact Hnew]].
  unfold Agent.scrape in Hs. rewrite Hmax in Hs.
  rewrite (scrape_fuel_cases W now_iso perf_counter tools chat json_loads
             utcnow_iso sleep) in Hs. rewrite Hmax in Hs.
  destruct (scrape_prelude_probes config s) as (new1 & Hg1 & Hp1).
  destruct (scrape_prelude config s) as [[session_id|x] s1]; cbn [snd] in Hg1.
  - destruct (extraction_loop_probes session_id (Agent.schema config) (JInt n)
                (dict_get_default "pagination" (JBool false)
                   (Agent.options config))
                (Agent.loop_budget (JInt n)) 0 [] s1)
      as (new2 & Hg2 & Hp2 & Hoff).
    assert (Hrem : Z.of_nat (Nat.pred (Agent.remaining (JInt n) 0)) = (n - 1)%Z).
    { cbn. lia. }
    destruct (extraction_loop _ _ _ _ _ _ _ s1) as [[[acc|]|x] s2];
      cbn [snd] in Hg2; [|discriminate|]; injection Hs as _ <-.
    + exists (new1 ++ new2)%list. split; [grows_step|]. split.
      * rewrite count_events_app. lia.
      * intros H. rewrite count_events_app, (Hoff H). lia.
    + eexists. split; [unfold Agent.failed; grows_step|]. split.
      * rewrite !count_events_app. cbn. lia.
      * intros H. rewrite !count_events_app, (Hoff H). cbn. lia.
  - injection Hs as _ <-.
    eexists. split; [unfold Agent.failed; grows_step|]. split.
    + rewrite count_events_app. cbn. lia.
    + intros _. rewrite count_events_app. cbn. lia.
Qed.

End AgentMore.

(** [unparsable_completion_adds_nothing] on a page whose completion holds
    an object that is not JSON. *)
Lemma unparsable_completion_adds_nothing_witness :
  exists s2,
    Agent.extract_page Scenario.world Scenario.now_iso Scenario.perf_counter
      Scenario.registry Scenario.chat Scenario.json_loads
      (JStr "sess_7") [] [Scenario.lamp] Scenario.start
    = (Ret (JStr "<html>page 0</html>", [Scenario.lamp]), s2)
    /\ ext s2 = Scenario.mkWorld 2 0.
Proof.
  eapply (unparsable_completion_adds_nothing Scenario.world Scenario.now_iso
            Scenario.perf_counter Scenario.registry Scenario.chat
            Scenario.json_loads (JStr "sess_7") [] [Scenario.lamp]
            Scenario.start).
  - vm_compute. reflexivity.
  - reflexivity.
  - reflexivity.
  - reflexivity.
  - vm_compute. reflexivity.
Defined.


(** [non_numeric_budget_fails] on a job whose budget is the text [3]. *)
Lemma non_numeric_budget_fails_witness :
  exists s',
    Scenario.scrape_job
      (Agent.mkConfig "https://shop.example/catalogue" [] []
         [("max_pages", JStr "3")])
      Scenario.start
    = (Ret (Some (Agent.mkResult "error" [] []
                    (Some "'<' not supported between instances of 'int' and 'str'"))),
       s').
Proof.
  eexists.
  eapply (non_numeric_budget_fails Scenario.world Scenario.now_iso
            Scenario.perf_counter Scenario.registry Scenario.chat
            Scenario.json_loads Scenario.utcnow_iso Scenario.sleep
            (Agent.mkConfig "https://shop.example/catalogue" [] []
               [("max_pages", JStr "3")])).
  - reflexivity.
  - vm_compute. reflexivity.
Defined.

(** [pagination_probe_budget] on the catalogue job with pagination and a
    budget of three pages. *)
Lemma pagination_probe_budget_witness :
  exists result s' new,
    Scenario.scrape_job (Scenario.job true 3) Scenario.start
    = (Ret (Some result), s')
    /\ grows Scenario.start s' new
    /\ (Z.of_nat (Agent.count_events Agent.is_pagination_probe new) <= 2)%Z.
Proof.
  destruct (pagination_probe_budget Scenario.world Scenario.now_iso
              Scenario.perf_counter Scenario.registry Scenario.chat
              Scenario.json_loads Scenario.utcnow_iso Scenario.sleep
              (Scenario.job true 3) Scenario.start 3 eq_refl ltac:(lia))
    as (result & s' & new & Hs & Hg & Hp & _).
  exists result, s', new. repeat split; assumption.
Defined.

(* ===================================================================== *)
(** * Further properties of the structuring step and the quality report *)
(* ===================================================================== *)

Lemma find_array_field_mem (schema : dict) (key : string) :
  Agent.find_array_field schema = Some key -> dict_mem key schema = true.
Proof.
  unfold dict_mem. induction schema as [|[k v] r IH]; [discriminate|].
  cbn [Agent.find_array_field dict_get].
  destruct (String.eqb_spec key k) as [->|Hne]; [reflexivity|].
  destruct v as [| | | | |[|x l]|]; try exact IH.
  intros [= E]. congruence.
Qed.

Lemma structured_items (utcnow : string) (items : list json) (schema : dict) :
  Agent.find_array_field schema <> Some "metadata" ->
  Agent.first_list_value (Agent.structure_data_at utcnow items schema) = items.
Proof.
  intros Hmeta. unfold Agent.structure_data_at.
  destruct (Agent.find_array_field schema) as [[|a r]|];
    destruct (dict_mem "metadata" schema); try reflexivity.
  cbn [dict_set].
  destruct (String.eqb_spec "metadata" (String a r)) as [E|_];
    [|reflexivity].
  now rewrite <- E in Hmeta.
Qed.

Lemma report_total_items (structured_data schema : dict) :
  dict_get "total_items"
    (Agent._generate_quality_report structured_data schema)
  = Some (JInt (Z.of_nat (length (Agent.first_list_value structured_data)))).
Proof.
  unfold Agent._generate_quality_report.
  destruct (Agent.first_list_value structured_data) as [|item r];
    [reflexivity|].
  cbn [length Nat.eqb].
  now destruct (Agent.analyze_items (item :: r) 0 []).
Qed.

(** X17.  When the array field of the schema is not [metadata], the
    quality report of the structured data counts exactly the extracted
    items, and the number the metadata gives, when the schema asks for
    metadata, is the same number. *)
Theorem report_counts_extracted_items (utcnow : string) (items : list json)
  (schema : dict) :
  Agent.find_array_field schema <> Some "metadata" ->
  dict_get "total_items"
    (Agent._generate_quality_report
       (Agent.structure_data_at utcnow items schema) schema)
  = Some (JInt (Z.of_nat (length items)))
  /\ (dict_mem "metadata" schema = true ->
      exists metadata,
        dict_get "metadata" (Agent.structure_data_at utcnow items schema)
        = Some (JDict metadata)
        /\ dict_get "nb_resultats" metadata
           = Some (JInt (Z.of_nat (length items)))).
Proof.
  intros Hmeta. split.
  - now rewrite report_total_items, structured_items.
  - intros Hmem. unfold Agent.structure_data_at. rewrite Hmem.
    eexists. split; [apply dict_get_set_same|reflexivity].
Qed.

(** X18.  When the array field of the schema is called [metadata], the
    extracted items are lost: the structured data holds the metadata
    object alone, and the quality report is the report of no items. *)
Theorem metadata_array_field_loses_items (utcnow : string)
  (items : list json) (schema : dict) :
  Agent.find_array_field schema = Some "metadata" ->
  Agent.structure_data_at utcnow items schema
  = [("metadata",
      JDict [("date_extraction", JStr (utcnow ++ "Z"));
             ("nb_resultats", JInt (Z.of_nat (length items)))])]
  /\ Agent._generate_quality_report
       (Agent.structure_data_at utcnow items schema) schema
     = [("total_items", JInt 0); ("complete_items", JInt 0);
        ("completion_rate", JFloat 0); ("missing_fields", JList []);
        ("errors", JList [])].
Proof.
  intros Hfield.
  assert (E : Agent.structure_data_at utcnow items schema
              = [("metadata",
                  JDict [("date_extraction", JStr (utcnow ++ "Z"));
                         ("nb_resultats", JInt (Z.of_nat (length items)))])]).
  { unfold Agent.structure_data_at.
    rewrite Hfield, (find_array_field_mem _ _ Hfield). reflexivity. }
  split; [exact E|]. rewrite E. reflexivity.
Qed.

Lemma bump_all_nil_inv (paths : list string) :
  Agent.bump_all paths [] = [] -> paths = [].
Proof.
  destruct paths as [|p r]; [reflexivity|]. intros H.
  pose proof (count_of_bump_all p (p :: r) []) as Hc.
  rewrite H in Hc. unfold Agent.occurrences in Hc.
  cbn [Agent.count_of List.filter] in Hc. rewrite String.eqb_refl in Hc.
  cbn in Hc. lia.
Qed.

Lemma filter_length_all {A} (f : A -> bool) (l : list A) :
  length (List.filter f l) = length l <-> forallb f l = true.
Proof.
  induction l as [|x r IH]; [cbn; tauto|].
  cbn [List.filter forallb]. pose proof (filter_length_le f r) as Hle.
  destruct (f x); cbn [length andb].
  - rewrite <- IH. lia.
  - split; [lia|discriminate].
Qed.

Lemma all_missing_paths_nil (items : list json) :
  Agent.all_missing_paths items = []
  <-> forallb Agent.item_complete items = true.
Proof.
  unfold Agent.all_missing_paths.
  induction items as [|item r IH]; [cbn; tauto|].
  cbn [map concat forallb]. unfold Agent.item_complete at 1.
  destruct (Agent.missing_paths item "") as [|p l]; cbn [app andb].
  - exact IH.
  - split; discriminate.
Qed.

(** X19.  In the report of a non-empty list of items, no missing field
    is listed exactly when every item is counted complete. *)
Theorem missing_fields_empty_iff_complete (structured_data schema : dict) :
  Agent.first_list_value structured_data <> [] ->
  dict_get "missing_fields"
    (Agent._generate_quality_report structured_data schema)
  = Some (JList [])
  <-> dict_get "complete_items"
        (Agent._generate_quality_report structured_data schema)
      = dict_get "total_items"
          (Agent._generate_quality_report structured_data schema).
Proof.
  intros Hne. rewrite (quality_report_nonempty _ schema Hne).
  cbn [dict_get String.eqb Ascii.eqb Bool.eqb].
  set (items := Agent.first_list_value structured_data).
  split.
  - intros [= H].
    apply map_eq_nil in H. apply map_eq_nil in H.
    apply bump_all_nil_inv in H. apply all_missing_paths_nil in H.
    apply filter_length_all in H. now rewrite H.
  - intros [= H]. apply Nat2Z.inj in H.
    apply filter_length_all in H. apply all_missing_paths_nil in H.
    now rewrite H.
Qed.

Lemma existsb_eqb_In (p : string) (l : list string) :
  existsb (String.eqb p) l = true <-> In p l.
Proof.
  rewrite existsb_exists. split.
  - intros (x & Hin & E). apply String.eqb_eq in E. now subst.
  - intros Hin. exists p. split; [exact Hin|apply String.eqb_refl].
Qed.

Lemma flat_missing_paths (d : dict) :
  Forall (fun kv : string * json =>
            match snd kv with
            | JDict _ | JList _ => False
            | _ => True
            end) d ->
  Agent.missing_paths (JDict d) ""
  = map fst (List.filter (fun kv => Agent.is_missing (snd kv)) d).
Proof.
  induction 1 as [|[k v] r Hv _ IH]; [reflexivity|].
  rewrite missing_paths_field, IH. cbn [List.filter snd fst].
  unfold Agent.field_path_of. cbn [String.eqb].
  destruct (Agent.is_missing v) eqn:Hm; [reflexivity|].
  destruct v; cbn in Hv; try contradiction; reflexivity.
Qed.

Lemma NoDup_keys_filter (f : string * json -> bool) (d : dict) :
  List.NoDup (map fst d) -> List.NoDup (map fst (List.filter f d)).
Proof.
  induction d as [|[k v] r IH]; [trivial|].
  cbn [map fst List.filter]. intros Hnd.
  apply List.NoDup_cons_iff in Hnd. destruct Hnd as [Hk Hr].
  destruct (f (k, v)); [|now apply IH].
  cbn [map fst]. apply List.NoDup_cons; [|now apply IH].
  intros Hin. apply Hk. apply in_map_iff in Hin.
  destruct Hin as (kv & E & Hin). apply List.filter_In in Hin.
  apply in_map_iff. exists kv. tauto.
Qed.

Lemma flat_field_missing (p : string) (d : dict) :
  List.NoDup (map fst d) ->
  existsb (String.eqb p)
    (map fst (List.filter (fun kv => Agent.is_missing (snd kv)) d))
  = match dict_get p d with
    | Some value => Agent.is_missing value
    | None => false
    end.
Proof.
  induction d as [|[k v] r IH]; [reflexivity|].
  cbn [map fst List.filter snd dict_get]. intros Hnd.
  apply List.NoDup_cons_iff in Hnd. destruct Hnd as [Hk Hr].
  destruct (String.eqb_spec p k) as [->|Hne].
  - destruct (Agent.is_missing v); cbn [map fst existsb].
    + now rewrite String.eqb_refl.
    + apply not_true_is_false. intros H. apply existsb_eqb_In in H.
      apply Hk. apply in_map_iff in H. destruct H as (kv & E & Hin).
      apply List.filter_In in Hin. apply in_map_iff. exists kv. tauto.
  - destruct (Agent.is_missing v); cbn [map fst existsb].
    + apply String.eqb_neq in Hne. rewrite Hne. cbn [orb]. now apply IH.
    + now apply IH.
Qed.

(** X20.  For items that are flat JSON objects, the number the report
    shows for a field is the number of items in which the field is
    [None] or the empty string. *)
Theorem flat_items_count_items (items : list json) (field : string) :
  Forall Agent.flat_item items ->
  Agent.count_of field (snd (Agent.analyze_items items 0 []))
  = length (List.filter (Agent.field_missing field) items).
Proof.
  intros Hflat. rewrite analyze_items_paths. cbn [snd].
  rewrite count_is_items_without_repeats.
  - induction Hflat as [|item r Hitem _ IH]; [reflexivity|].
    cbn [List.filter].
    assert (E : existsb (String.eqb field) (Agent.missing_paths item "")
                = Agent.field_missing field item).
    { destruct item as [| | | | | |d]; cbn in Hitem; try contradiction.
      destruct Hitem as [Hnd Hsc].
      rewrite (flat_missing_paths _ Hsc). now apply flat_field_missing. }
    rewrite E. destruct (Agent.field_missing field item); cbn [length];
      now rewrite IH.
  - induction Hflat as [|item r Hitem _ IH]; constructor; [|exact IH].
    destruct item as [| | | | | |d]; cbn in Hitem; try contradiction.
    destruct Hitem as [Hnd Hsc].
    rewrite (flat_missing_paths _ Hsc). now apply NoDup_keys_filter.
Qed.

Lemma count_char_lstrip (c : ascii) (s : string) :
  count_char c s = 0 -> count_char c (lstrip s) = 0.
Proof.
  induction s as [|a r IH]; [trivial|]. cbn [lstrip].
  destruct (is_space a); [|trivial].
  cbn [count_char]. intros H. apply IH. lia.
Qed.

Lemma count_char_rstrip (c : ascii) (s : string) :
  count_char c s = 0 -> count_char c (rstrip s) = 0.
Proof.
  induction s as [|a r IH]; [trivial|]. cbn [rstrip count_char].
  intros H.
  assert (Ha : (if Ascii.eqb a c then 1 else 0) = 0) by lia.
  assert (Hr : count_char c (rstrip r) = 0) by (apply IH; lia).
  destruct (rstrip r) as [|b t].
  - destruct (is_space a); cbn [count_char]; lia.
  - cbn [count_char] in *. lia.
Qed.

Lemma startswith_absent (c : ascii) (p s : string) :
  count_char c s = 0 -> startswith (String c p) s = false.
Proof.
  unfold startswith. destruct s as [|a r]; [reflexivity|].
  cbn [count_char String.prefix]. intros H.
  destruct (Ascii.eqb_spec a c) as [->|Hne]; [discriminate|].
  destruct (ascii_dec c a) as [E|_]; [now destruct Hne|reflexivity].
Qed.

(** X21.  An answer of the completion service that holds no backtick is
    used as it is, stripped of the whitespace around it. *)
Theorem clean_selector_plain (content : string) :
  count_char backtick content = 0 ->
  Agent.clean_selector content = py_strip content.
Proof.
  intros H.
  assert (Hs : count_char backtick (py_strip content) = 0).
  { unfold py_strip. now apply count_char_rstrip, count_char_lstrip. }
  unfold Agent.clean_selector, fence.
  rewrite (startswith_absent _ _ _ Hs).
  now rewrite (startswith_absent _ _ _ Hs).
Qed.

(** [report_counts_extracted_items] on a catalogue schema that asks for
    metadata. *)
Lemma report_counts_extracted_items_witness :
  dict_get "total_items"
    (Agent._generate_quality_report
       (Agent.structure_data_at "2025-06-01T12:00:00"
          [Scenario.lamp; Scenario.desk]
          [("produits", JList [JDict [("name", JStr "string")]]);
           ("metadata", JDict [])])
       [("produits", JList [JDict [("name", JStr "string")]]);
        ("metadata", JDict [])])
  = Some (JInt 2).
Proof.
  apply (report_counts_extracted_items "2025-06-01T12:00:00"
           [Scenario.lamp; Scenario.desk]
           [("produits", JList [JDict [("name", JStr "string")]]);
            ("metadata", JDict [])]).
  discriminate.
Defined.

(** [metadata_array_field_loses_items] on a schema whose only list is
    under [metadata]. *)
Lemma metadata_array_field_loses_items_witness :
  Agent.structure_data_at "2025-06-01T12:00:00" [Scenario.lamp]
    [("metadata", JList [JStr "string"])]
  = [("metadata",
      JDict [("date_extraction", JStr "2025-06-01T12:00:00Z");
             ("nb_resultats", JInt 1)])].
Proof.
  apply (metadata_array_field_loses_items "2025-06-01T12:00:00"
           [Scenario.lamp] [("metadata", JList [JStr "string"])]).
  reflexivity.
Defined.

(** [missing_fields_empty_iff_complete] on a catalogue of one complete
    item. *)
Lemma missing_fields_empty_iff_complete_witness :
  dict_get "missing_fields"
    (Agent._generate_quality_report [("produits", JList [Scenario.lamp])] [])
  = Some (JList []).
Proof.
  apply (missing_fields_empty_iff_complete
           [("produits", JList [Scenario.lamp])] []).
  - discriminate.
  - reflexivity.
Defined.

(** [flat_items_count_items] on the catalogue: one of the three items
    has no price. *)
Lemma flat_items_count_items_witness :
  Agent.count_of "price"
    (snd (Agent.analyze_items
            [Scenario.lamp; Scenario.desk; Scenario.chair] 0 []))
  = 1.
Proof.
  rewrite (flat_items_count_items
             [Scenario.lamp; Scenario.desk; Scenario.chair] "price").
  - reflexivity.
  - repeat constructor; cbn; intuition discriminate.
Defined.

(** [clean_selector_plain] on a selector between blanks. *)
Lemma clean_selector_plain_witness :
  Agent.clean_selector " li.next a " = "li.next a".
Proof.
  rewrite (clean_selector_plain " li.next a "); reflexivity.
Defined.

(** [missing_fields_accounting] on a catalogue in which one item of two
    has no price. *)
Lemma missing_fields_accounting_witness :
  exists mf : list (string * nat),
    dict_get "missing_fields"
      (Agent._generate_quality_report
         [("produits", JList [Scenario.lamp; Scenario.desk])] [])
    = Some (JList (map JStr (map Agent.render_missing mf)))
    /\ map fst mf = ["price"]
    /\ Agent.count_of "price" mf = 1.
Proof.
  destruct (missing_fields_accounting
              [("produits", JList [Scenario.lamp; Scenario.desk])] []
              ltac:(discriminate))
    as (mf & Hm & Hk & Hc).
  exists mf. split; [exact Hm|]. split; [exact Hk|]. exact (Hc "price").
Defined.

(* ===================================================================== *)
(** * Properties of the tools *)
(* ===================================================================== *)

(** Unfolds the operations of a tool's computation. *)
Ltac run_tool :=
  cbv [Tools.and_then Tools.returns Tools.raises Tools.uncaught Tools.perform
       Tools.tool_error Tools.validate Tools.with_session
       Tools.manager_session];
  cbn [fst snd Tools.manager Tools.engine Tools.calls Tools.fields
       Tools.session_id].

(** Splits on the innermost thing the goal still branches on. *)
Ltac case_step :=
  match goal with
  | |- context [match ?x with _ => _ end] =>
      lazymatch x with
      | context [match _ with _ => _ end] => fail
      | _ => destruct x eqn:?
      end
  end;
  cbn [fst snd Tools.manager Tools.engine Tools.calls Tools.fields
       Tools.session_id Tools.reply] in *.

(** Reduces [run] on one of the six tools. *)
Ltac open_tool :=
  cbn [Server.run Tools.build_navigate Tools.build_screenshot
       Tools.build_extract_links Tools.build_fill Tools.build_click
       Tools.build_get_html String.eqb Ascii.eqb Bool.eqb].

(** Goes through the entries of a list of calls one of which is [Hin]. *)
Ltac in_cases Hin :=
  repeat (destruct Hin as [Hin|Hin]);
  try contradiction; inversion Hin; subst.

Section ToolFacts.
Variable E : Type.
Variable uuid_hex12 : nat -> string.
Variable NavigateInput : Tools.Model string.
Variable ScreenshotInput : Tools.Model string.
Variable ExtractLinksInput : Tools.Model (option string).
Variable FillInput : Tools.Model (string * string).
Variable ClickInput : Tools.Model string.
Variable GetHtmlInput : Tools.Model unit.
Variable goto : nat -> string -> E -> Tools.pw (option Z) * E.
Variable url : nat -> E -> string.
Variable title : nat -> E -> Tools.pw string * E.
Variable content : nat -> E -> Tools.pw string * E.
Variable count : nat -> string -> E -> Tools.pw nat * E.
Variable scroll_into_view_if_needed : nat -> string -> E -> Tools.pw unit * E.
Variable wait_for : nat -> string -> E -> Tools.pw unit * E.
Variable is_enabled : nat -> string -> E -> Tools.pw bool * E.
Variable is_editable : nat -> string -> E -> Tools.pw bool * E.
Variable click : nat -> string -> E -> Tools.pw unit * E.
Variable fill : nat -> string -> string -> E -> Tools.pw unit * E.
Variable screenshot : nat -> bool -> E -> Tools.pw string * E.
Variable get_attribute : nat -> nat -> E -> Tools.pw (option string) * E.
Variable inner_text : nat -> nat -> E -> Tools.pw string * E.
Variable urlparse_scheme : string -> string.
Variable urlparse_netloc : string -> string.
Variable urljoin : string -> string -> string.
Variable lower : string -> string.
Variable b64encode : string -> string.

#[local] Abbreviation with_session := (Tools.with_session E uuid_hex12).
#[local] Abbreviation navigate_runner :=
  (Tools.navigate_runner E uuid_hex12 NavigateInput goto url title
     urlparse_scheme).
#[local] Abbreviation screenshot_runner :=
  (Tools.screenshot_runner E uuid_hex12 ScreenshotInput url screenshot
     b64encode).
#[local] Abbreviation extract_links_loop :=
  (Tools.extract_links_loop E get_attribute inner_text urlparse_netloc urljoin
     lower).
#[local] Abbreviation extract_links_runner :=
  (Tools.extract_links_runner E uuid_hex12 ExtractLinksInput url count
     get_attribute inner_text urlparse_netloc urljoin lower).
#[local] Abbreviation fill_runner :=
  (Tools.fill_runner E uuid_hex12 FillInput count wait_for is_editable fill).
#[local] Abbreviation click_runner :=
  (Tools.click_runner E uuid_hex12 ClickInput count scroll_into_view_if_needed
     wait_for is_enabled click).
#[local] Abbreviation get_html_runner :=
  (Tools.get_html_runner E uuid_hex12 GetHtmlInput content).
#[local] Abbreviation build_tools :=
  (Tools.build_tools E uuid_hex12 NavigateInput ScreenshotInput
     ExtractLinksInput FillInput ClickInput GetHtmlInput goto url title content
     count scroll_into_view_if_needed wait_for is_enabled is_editable click
     fill screenshot get_attribute inner_text urlparse_scheme urlparse_netloc
     urljoin lower b64encode).
#[local] Abbreviation rejected :=
  (Tools.rejected NavigateInput ScreenshotInput ExtractLinksInput FillInput
     ClickInput GetHtmlInput).

Lemma with_session_rejects {A} (model : Tools.Model A) (raw : dict)
  (errors : json) (w : Tools.World E) :
  Tools.model_validate model raw = inl errors ->
  with_session raw model w
  = (Raise (ExToolError
              (mkToolError INTERNAL_ERROR
                 "Invalid arguments supplied to tool."
                 (Some [("validation_errors", errors)]))), w).
Proof. intros H. run_tool. now rewrite H. Qed.

(** X22.  Arguments that the input model of a tool rejects make the tool
    raise a [ToolError] with code [INTERNAL_ERROR] and the validation
    errors as details, before anything else happens: no session is
    created and no call is made on any page. *)
Theorem invalid_arguments_touch_nothing (name : string)
  (tool : Server.ToolDefinition (Tools.World E)) (raw : dict) (errors : json)
  (w : Tools.World E) :
  Server.registry_get (Tools.World E) name build_tools = Some tool ->
  rejected name raw = Some errors ->
  Server.run tool raw w
  = (Raise (ExToolError
              (mkToolError INTERNAL_ERROR
                 "Invalid arguments supplied to tool."
                 (Some [("validation_errors", errors)]))), w).
Proof.
  unfold Tools.build_tools, Tools.rejected.
  cbn [map Server.registry_get Server.name Tools.build_navigate
       Tools.build_screenshot Tools.build_extract_links Tools.build_fill
       Tools.build_click Tools.build_get_html].
  repeat match goal with
         | |- context [String.eqb name ?k] => destruct (String.eqb name k)
         end;
    try discriminate; intros [= <-];
    cbn [Server.run Tools.build_navigate Tools.build_screenshot
         Tools.build_extract_links Tools.build_fill Tools.build_click
         Tools.build_get_html];
    match goal with
    | |- context [Tools.model_validate ?m raw] =>
        destruct (Tools.model_validate m raw) as [errors'|data] eqn:Hv;
        [|discriminate]
    end;
    intros [= <-];
    cbv delta [Tools.navigate_runner Tools.screenshot_runner
               Tools.extract_links_runner Tools.fill_runner
               Tools.click_runner Tools.get_html_runner];
    cbv beta; unfold Tools.and_then at 1;
    now rewrite (with_session_rejects _ _ _ _ Hv).
Qed.

(** X23.  The [click] tool clicks only an element that is ready: when a
    click appears among the calls it made, these were, in this order, a
    count of the selector that found something, an attempt to scroll to
    the element, whose outcome is ignored, a wait for visibility that
    succeeded, a check that found the element enabled, and the click,
    with nothing after it.  And the tool returns only when that click
    returned. *)
Theorem click_requires_ready_element (raw : dict) (w : Tools.World E) :
  exists new,
    Tools.calls (snd (click_runner raw w)) = (Tools.calls w ++ new)%list
    /\ (forall page selector answer,
          In (Tools.Click page selector, answer) new ->
          exists n scrolled,
            n <> 0
            /\ new
               = [(Tools.Count page selector, Tools.Done (JInt (Z.of_nat n)));
                  (Tools.ScrollIntoViewIfNeeded page selector, scrolled);
                  (Tools.WaitForVisible page selector, Tools.Done JNull);
                  (Tools.IsEnabled page selector, Tools.Done (JBool true));
                  (Tools.Click page selector, answer)])
    /\ (forall v,
          fst (click_runner raw w) = Ret v ->
          snd v = [("clicked", JBool true)]
          /\ exists page selector,
               In (Tools.Click page selector, Tools.Done JNull) new).
Proof.
  unfold Tools.click_runner. run_tool.
  repeat case_step;
    rewrite <- ?app_assoc; cbn [app];
    (eexists; split; [first [reflexivity | symmetry; apply app_nil_r]|]);
    split;
    try (intros v Hv; discriminate Hv);
    try (intros page selector answer Hin; cbn [In] in Hin; in_cases Hin; fail).
  all: try (intros v [= <-]; split; [reflexivity|];
            do 2 eexists; do 4 right; left; reflexivity).
  all: intros page selector answer Hin; cbn [In] in Hin; in_cases Hin;
    match goal with
    | Hn : Nat.eqb ?n 0 = false, Hb : negb ?b = false |- _ =>
        destruct b; [|discriminate Hb];
        exists n; eexists; split; [intros ->; discriminate Hn|reflexivity]
    end.
Qed.

(** X24.  The [fill] tool fills only an element that is ready: when a
    fill appears among the calls it made, these were, in this order, a
    count of the selector that found something, a wait for visibility
    that succeeded, a check that found the element editable, and the
    fill, with nothing after it.  And the tool returns only when that
    fill returned. *)
Theorem fill_requires_editable_element (raw : dict) (w : Tools.World E) :
  exists new,
    Tools.calls (snd (fill_runner raw w)) = (Tools.calls w ++ new)%list
    /\ (forall page selector value answer,
          In (Tools.Fill page selector value, answer) new ->
          exists n,
            n <> 0
            /\ new
               = [(Tools.Count page selector, Tools.Done (JInt (Z.of_nat n)));
                  (Tools.WaitForVisible page selector, Tools.Done JNull);
                  (Tools.IsEditable page selector, Tools.Done (JBool true));
                  (Tools.Fill page selector value, answer)])
    /\ (forall v,
          fst (fill_runner raw w) = Ret v ->
          snd v = [("filled", JBool true)]
          /\ exists page selector value,
               In (Tools.Fill page selector value, Tools.Done JNull) new).
Proof.
  unfold Tools.fill_runner. run_tool.
  repeat case_step;
    rewrite <- ?app_assoc; cbn [app];
    (eexists; split; [first [reflexivity | symmetry; apply app_nil_r]|]);
    split;
    try (intros v Hv; discriminate Hv);
    try (intros page selector value answer Hin; cbn [In] in Hin;
         in_cases Hin; fail).
  all: try (intros v [= <-]; split; [reflexivity|];
            do 3 eexists; do 3 right; left; reflexivity).
  all: intros page selector value answer Hin; cbn [In] in Hin; in_cases Hin;
    match goal with
    | Hn : Nat.eqb ?n 0 = false, Hb : negb ?b = false |- _ =>
        destruct b; [|discriminate Hb];
        exists n; split; [intros ->; discriminate Hn|reflexivity]
    end.
Qed.

(** The loop over the anchors raises nothing but what Playwright
    raised. *)
Lemma extract_links_loop_raises (page : nat) (current_url current_host : string)
  (filter_contains : option string) (indices : list nat) :
  forall (links : list json) (w w' : Tools.World E) (x : exn),
  extract_links_loop page current_url current_host filter_contains indices
    links w = (Raise x, w') ->
  exists text, x = ExOther text.
Proof.
  induction indices as [|idx rest IH]; intros links w w' x;
    cbn [Tools.extract_links_loop]; run_tool; [discriminate|].
  destruct (get_attribute page idx (Tools.engine w)) as [[attribute|t|t] e];
    try (intros [= <- _]; eauto; fail).
  destruct (String.eqb _ ""); [apply IH|].
  cbn [Tools.engine Tools.manager Tools.calls].
  destruct (inner_text page idx e) as [[text|t|t] e1];
    try (intros [= <- _]; eauto; fail).
  apply IH.
Qed.

(** X25.  The codes of the errors the tools raise.  Every tool can raise
    [INTERNAL_ERROR]; besides it, [navigate] raises only [INVALID_URL],
    [NAVIGATION_TIMEOUT] and [NETWORK_ERROR], [fill] only
    [ELEMENT_NOT_FOUND], [ELEMENT_NOT_VISIBLE] and [ELEMENT_NOT_EDITABLE],
    [click] only [ELEMENT_NOT_FOUND], [ELEMENT_NOT_VISIBLE] and
    [ELEMENT_NOT_CLICKABLE], and [screenshot], [extract_links] and
    [get_html] nothing else. *)
Theorem tool_error_codes (name : string)
  (tool : Server.ToolDefinition (Tools.World E)) (raw : dict)
  (w : Tools.World E) (e : ToolError) :
  Server.registry_get (Tools.World E) name build_tools = Some tool ->
  fst (Server.run tool raw w) = Raise (ExToolError e) ->
  In (te_code e)
     (INTERNAL_ERROR
      :: (if String.eqb name "navigate"
          then [INVALID_URL; NAVIGATION_TIMEOUT; NETWORK_ERROR]
          else if String.eqb name "fill"
          then [ELEMENT_NOT_FOUND; ELEMENT_NOT_VISIBLE; ELEMENT_NOT_EDITABLE]
          else if String.eqb name "click"
          then [ELEMENT_NOT_FOUND; ELEMENT_NOT_VISIBLE; ELEMENT_NOT_CLICKABLE]
          else [])).
Proof.
  unfold Tools.build_tools.
  cbn [map Server.registry_get Server.name Tools.build_navigate
       Tools.build_screenshot Tools.build_extract_links Tools.build_fill
       Tools.build_click Tools.build_get_html].
  destruct (String.eqb_spec name "navigate") as [->|_].
  { intros [= <-]. open_tool.
    unfold Tools.navigate_runner. run_tool.
    repeat case_step; cbn [fst]; intros [= <-]; cbn; auto 10. }
  destruct (String.eqb_spec name "screenshot") as [->|_].
  { intros [= <-]. open_tool.
    unfold Tools.screenshot_runner. run_tool.
    repeat case_step; cbn [fst]; intros [= <-]; cbn; auto 10. }
  destruct (String.eqb_spec name "extract_links") as [->|_].
  { intros [= <-]. open_tool.
    unfold Tools.extract_links_runner. run_tool.
    repeat case_step; cbn [fst]; intros [= E']; subst; cbn; auto 10.
    match goal with
    | H : Tools.extract_links_loop _ _ _ _ _ _ _ _ _ _ _ _ _ = (Raise _, _) |- _ =>
        apply extract_links_loop_raises in H; destruct H as (text & [=])
    end. }
  destruct (String.eqb_spec name "fill") as [->|_].
  { intros [= <-]. open_tool.
    unfold Tools.fill_runner. run_tool.
    repeat case_step; cbn [fst]; intros [= <-]; cbn; auto 10. }
  destruct (String.eqb_spec name "click") as [->|_].
  { intros [= <-]. open_tool.
    unfold Tools.click_runner. run_tool.
    repeat case_step; cbn [fst]; intros [= <-]; cbn; auto 10. }
  destruct (String.eqb_spec name "get_html") as [->|_]; [|discriminate].
  intros [= <-]. open_tool.
  unfold Tools.get_html_runner. run_tool.
  repeat case_step; cbn [fst]; intros [= <-]; cbn; auto 10.
Qed.

Variable now_iso : Tools.World E -> string.
Variable perf_counter : Tools.World E -> Q.


Lemma session_resolves_again (sid : option string)
  (m m1 : Browser.BrowserManager) (p : string * nat) :
  Browser.session uuid_hex12 sid m = (p, m1) ->
  Browser.session uuid_hex12 (Some (fst p)) m1 = (p, m1).
Proof.
  destruct (Browser.known sid m) as [[k st]|] eqn:Hk.
  - destruct (known_Some_inv _ _ _ _ Hk) as (-> & Hne & Hl).
    unfold Browser.session at 1. rewrite Hk. intros [= <- <-]. cbn [fst].
    unfold Browser.session. now rewrite Hk.
  - rewrite (session_unknown uuid_hex12 _ _ Hk). intros [= <- <-]. cbn [fst].
    unfold Browser.session.
    rewrite (known_of_lookup _ (Browser.new_id uuid_hex12 sid m)
               (Browser.mkStoredPage (Browser.next_handle m)
                  (S (Browser.next_handle m)))).
    + reflexivity.
    + unfold Browser.new_id, Browser.minted_id.
      destruct sid as [[|a r]|]; discriminate.
    + cbn. apply lookup_insert_eq.
Qed.

(** X27.  The session identifier a successful [navigate] returns leads
    back to the page it navigated: a [get_html] given that identifier
    reads the content of that very page, and creates no session. *)
Theorem page_read_is_page_navigated (raw1 raw2 : dict) (w w1 : Tools.World E)
  (sid : string) (data : dict) :
  navigate_runner raw1 w = (Ret (sid, data), w1) ->
  Tools.model_validate GetHtmlInput raw2 = inr (Tools.mkInput (Some sid) tt) ->
  exists page destination status page_title html,
    Tools.calls w1
    = (Tools.calls w
       ++ [(Tools.Goto page destination, Tools.Done status);
           (Tools.Title page, Tools.Done (JStr page_title))])%list
    /\ Tools.calls (snd (get_html_runner raw2 w1))
       = (Tools.calls w1 ++ [(Tools.Content page, html)])%list
    /\ Tools.manager (snd (get_html_runner raw2 w1)) = Tools.manager w1.
Proof.
  intros Hnav Hv. revert Hnav. unfold Tools.navigate_runner. run_tool.
  repeat case_step; try discriminate; intros [= <- _ <-].
  all: unfold Tools.get_html_runner; run_tool; rewrite Hv;
    cbn [Tools.session_id Tools.manager Tools.calls Tools.engine];
    match goal with
    | H : Browser.session _ _ _ = _ |- _ =>
        rewrite (session_resolves_again _ _ _ _ H)
    end;
    cbn [fst snd Tools.manager Tools.calls Tools.engine];
    destruct (content _ _) as [[html|text|text] e'];
    do 5 eexists; (split; [rewrite <- app_assoc; reflexivity|]);
    cbn; split; reflexivity.
Qed.

#[local] Abbreviation link_kept := (Tools.link_kept urljoin lower).

(** What the loop over the anchors adds to the links and to the calls. *)
Lemma extract_links_loop_keeps (page : nat) (current_url current_host : string)
  (filter_contains : option string) (indices : list nat) :
  forall (links out : list json) (w w' : Tools.World E),
  extract_links_loop page current_url current_host filter_contains indices
    links w = (Ret out, w') ->
  exists added new,
    out = (links ++ added)%list
    /\ length added <= length indices
    /\ Forall (link_kept current_url filter_contains) added
    /\ Tools.calls w' = (Tools.calls w ++ new)%list.
Proof.
  induction indices as [|idx rest IH]; intros links out w w';
    cbn [Tools.extract_links_loop]; run_tool.
  { intros [= <- <-]. exists [], []. rewrite !app_nil_r.
    repeat split; [cbn; lia|constructor]. }
  destruct (get_attribute page idx (Tools.engine w)) as [[attribute|t|t] e];
    try discriminate.
  destruct (String.eqb_spec
              (py_strip match attribute with Some h => h | None => "" end) "")
    as [Hblank|Hhref].
  { intros H. apply IH in H. destruct H as (added & new & -> & Hlen & Hall & Hc).
    exists added. eexists. split; [reflexivity|]. split; [cbn; lia|].
    split; [exact Hall|]. rewrite Hc. cbn [Tools.calls].
    rewrite <- app_assoc. reflexivity. }
  cbn [Tools.engine Tools.manager Tools.calls].
  destruct (inner_text page idx e) as [[text|t|t] e1]; try discriminate.
  intros H. apply IH in H. destruct H as (added & new & -> & Hlen & Hall & Hc).
  rewrite Hc. cbn [Tools.calls]. rewrite <- !app_assoc.
  match goal with
  | |- context [if ?keep then _ else _] => destruct keep eqn:Hkeep
  end.
  - eexists (_ :: added). eexists. rewrite <- app_assoc.
    split; [reflexivity|]. split; [cbn; lia|]. split; [|reflexivity].
    constructor; [|exact Hall].
    do 3 eexists. split; [reflexivity|]. split; [exact Hhref|].
    destruct filter_contains as [[|a r]|]; trivial.
  - exists added. eexists. split; [reflexivity|]. split; [cbn; lia|].
    split; [exact Hall|reflexivity].
Qed.


End ToolFacts.

(** [invalid_arguments_touch_nothing] on a [click] without a selector. *)
Lemma invalid_arguments_touch_nothing_witness :
  exists tool,
    Server.registry_get (Tools.World Scenario.site) "click" Scenario.web_tools
    = Some tool
    /\ Server.run tool [] Scenario.web_start
       = (Raise (ExToolError
                   (mkToolError INTERNAL_ERROR
                      "Invalid arguments supplied to tool."
                      (Some [("validation_errors",
                              Scenario.missing "selector")]))),
          Scenario.web_start).
Proof.
  eexists. split; [reflexivity|].
  apply (invalid_arguments_touch_nothing Scenario.site Scenario.uuid
           Scenario.NavigateInput Scenario.ScreenshotInput
           Scenario.ExtractLinksInput Scenario.FillInput Scenario.ClickInput
           Scenario.GetHtmlInput Scenario.goto Scenario.page_url
           Scenario.page_title Scenario.page_content Scenario.locator_count
           Scenario.scroll_fails Scenario.element_ok Scenario.element_yes
           Scenario.element_yes Scenario.element_ok Scenario.fill_ok
           Scenario.page_screenshot Scenario.anchor_href Scenario.anchor_text
           Scenario.urlparse_scheme Scenario.urlparse_netloc Scenario.urljoin
           Scenario.lower Scenario.b64encode "click");
    reflexivity.
Defined.

(** [tool_error_codes] on a [click] whose selector matches nothing. *)
Lemma tool_error_codes_witness :
  exists tool e,
    Server.registry_get (Tools.World Scenario.site) "click" Scenario.web_tools
    = Some tool
    /\ fst (Server.run tool [("selector", JStr "#nope")] Scenario.web_start)
       = Raise (ExToolError e)
    /\ te_code e = ELEMENT_NOT_FOUND
    /\ In (te_code e)
          [INTERNAL_ERROR; ELEMENT_NOT_FOUND; ELEMENT_NOT_VISIBLE;
           ELEMENT_NOT_CLICKABLE].
Proof.
  do 2 eexists. split; [reflexivity|]. split; [vm_compute; reflexivity|].
  split; [reflexivity|].
  apply (tool_error_codes Scenario.site Scenario.uuid
           Scenario.NavigateInput Scenario.ScreenshotInput
           Scenario.ExtractLinksInput Scenario.FillInput Scenario.ClickInput
           Scenario.GetHtmlInput Scenario.goto Scenario.page_url
           Scenario.page_title Scenario.page_content Scenario.locator_count
           Scenario.scroll_fails Scenario.element_ok Scenario.element_yes
           Scenario.element_yes Scenario.element_ok Scenario.fill_ok
           Scenario.page_screenshot Scenario.anchor_href Scenario.anchor_text
           Scenario.urlparse_scheme Scenario.urlparse_netloc Scenario.urljoin
           Scenario.lower Scenario.b64encode "click"
           (Tools.build_click Scenario.site Scenario.uuid Scenario.ClickInput
              Scenario.locator_count Scenario.scroll_fails Scenario.element_ok
              Scenario.element_yes Scenario.element_ok)
           [("selector", JStr "#nope")] Scenario.web_start);
    [reflexivity|vm_compute; reflexivity].
Defined.


(** [page_read_is_page_navigated] on a navigation to the catalogue. *)
Lemma page_read_is_page_navigated_witness :
  exists page html,
    Tools.calls
      (snd (Scenario.web_get_html [("session_id", JStr "sess_c0ffee000000")]
              (snd (Scenario.web_navigate
                      [("url", JStr "https://shop.example/catalogue")]
                      Scenario.web_start))))
    = [(Tools.Goto page "https://shop.example/catalogue",
        Tools.Done (JInt 200));
       (Tools.Title page, Tools.Done (JStr "Catalogue"));
       (Tools.Content page, html)].
Proof.
  assert (Hnav : Scenario.web_navigate
                   [("url", JStr "https://shop.example/catalogue")]
                   Scenario.web_start
                 = (Ret ("sess_c0ffee000000",
                         [("current_url", JStr "https://shop.example/catalogue");
                          ("status", JInt 200);
                          ("title", JStr "Catalogue")]),
                    snd (Scenario.web_navigate
                           [("url", JStr "https://shop.example/catalogue")]
                           Scenario.web_start))).
  { vm_compute. reflexivity. }
  destruct (page_read_is_page_navigated Scenario.site Scenario.uuid
              Scenario.NavigateInput Scenario.GetHtmlInput Scenario.goto
              Scenario.page_url Scenario.page_title Scenario.page_content
              Scenario.urlparse_scheme
              [("url", JStr "https://shop.example/catalogue")]
              [("session_id", JStr "sess_c0ffee000000")]
              Scenario.web_start _ _ _ Hnav eq_refl)
    as (page & destination & status & page_title & html & H1 & H2 & _).
  exists page, html. unfold Scenario.web_get_html. rewrite H2.
  pose proof H1 as Hcalls. rewrite H1. vm_compute in Hcalls.
  inversion Hcalls. reflexivity.
Defined.

